(** * PDF-Extractor: the region store, the coordinate pipeline and the
    pointer tools, embedded from the Python sources

    Numbers are exact rationals ([Qc], canonical fractions, so that [=] is
    numeric equality as it is for Python's exact numbers); floating-point
    rounding, infinities and NaN are outside this development.  A label
    is a string whose characters are code points below 256.

    Mutable objects are passed explicitly: every method takes the object
    and returns its new state, next to what the method returns.  A method
    that can raise returns an [outcome] together with the state it leaves
    behind, since an exception does not undo the assignments made before
    it.  The objects several components share (the transformer, the
    canvas, the region manager) are arguments of the methods that use
    them.

    The application passes numbers to the store, and [RegionManager] is
    the store of numbers.  A file handed to [load_from_file] can hold
    any JSON value: [Py] has the values, and [DynRegionManager] the
    store that holds them and the methods on the path of the load, for
    arguments of any type. *)

From Stdlib Require Import Ascii String QArith Qcanon.
From stdpp Require Import gmap strings list numbers pretty.

Local Open Scope string_scope.
Local Open Scope list_scope.
Local Open Scope Qc_scope.

(** ** Python primitives *)

(** The exceptions the modelled code can meet. *)
Inductive py_exn : Type :=
  | ZeroDivisionError
  | KeyError (key : string)
  | ValueError
  | TypeError
  | AttributeError
  | IndexError
  | FileNotFoundError
  | JSONDecodeError
  | OSError.

(** The result of evaluating an expression that may raise. *)
Inductive outcome (A : Type) : Type :=
  | Return (a : A)
  | Raise (e : py_exn).
Arguments Return {A} a.
Arguments Raise {A} e.

Definition outcome_bind {A B} (f : A → outcome B) (m : outcome A) : outcome B :=
  match m with
  | Return a => f a
  | Raise e => Raise e
  end.

#[global] Instance outcome_mret : MRet outcome := λ A a, Return a.
#[global] Instance outcome_mbind : MBind outcome := λ A B f m, outcome_bind f m.

Definition raises {A} (m : outcome A) : bool :=
  match m with
  | Return _ => false
  | Raise _ => true
  end.

(** A rectangle [(x0, y0, x1, y1)]. *)
Definition Rect : Type := Qc * Qc * Qc * Qc.

(** [min(x, y)] and [max(x, y)]: the first argument wins a tie. *)
Definition py_min (x y : Qc) : Qc := if decide (y < x) then y else x.
Definition py_max (x y : Qc) : Qc := if decide (x < y) then y else x.

Definition py_abs (x : Qc) : Qc := if decide (x < 0) then - x else x.

(** [x / y] raises on a zero divisor. *)
Definition py_div (x y : Qc) : outcome Qc :=
  if decide (y = 0) then Raise ZeroDivisionError else Return (x / y).

(** Truth value of a string and of an optional string ([None] and the
    empty string are false). *)
Definition str_truthy (s : string) : bool :=
  match s with
  | EmptyString => false
  | String _ _ => true
  end.

Definition opt_str_truthy (o : option string) : bool :=
  match o with
  | Some s => str_truthy s
  | None => false
  end.

(** [l.index(x)]: position of the first occurrence, [None] where Python
    raises [ValueError]. *)
Fixpoint list_index (x : string) (l : list string) : option nat :=
  match l with
  | [] => None
  | y :: l' => if decide (y = x) then Some 0%nat else S <$> list_index x l'
  end.

(** [l.remove(x)]: drops the first occurrence, [None] where Python raises
    [ValueError]. *)
Fixpoint list_remove (x : string) (l : list string) : option (list string) :=
  match l with
  | [] => None
  | y :: l' => if decide (y = x) then Some l' else (y ::.) <$> list_remove x l'
  end.

(** [l.insert(i, x)] for [0 <= i]: past the end it appends. *)
Definition list_insert_at {A} (i : nat) (x : A) (l : list A) : list A :=
  take i l ++ x :: drop i l.

(** ** Insertion-ordered dictionaries with string keys

    A [dict] keeps its keys in insertion order; assigning to a present key
    keeps its place, deleting and assigning again moves it to the end. *)
Section dict.
Context {V : Type}.

Fixpoint dict_get (k : string) (d : list (string * V)) : option V :=
  match d with
  | [] => None
  | (k', v) :: d' => if decide (k' = k) then Some v else dict_get k d'
  end.

Definition dict_contains (k : string) (d : list (string * V)) : bool :=
  bool_decide (is_Some (dict_get k d)).

Fixpoint dict_set (k : string) (v : V) (d : list (string * V)) : list (string * V) :=
  match d with
  | [] => [(k, v)]
  | (k', v') :: d' =>
      if decide (k' = k) then (k, v) :: d' else (k', v') :: dict_set k v d'
  end.

Fixpoint dict_del (k : string) (d : list (string * V)) : list (string * V) :=
  match d with
  | [] => []
  | (k', v') :: d' => if decide (k' = k) then d' else (k', v') :: dict_del k d'
  end.

Definition dict_keys (d : list (string * V)) : list string := d.*1.
End dict.

(** ** utils/validators.py *)
Module Validators.

(** [str.isspace] on one character, for code points below 256. *)
Definition isspace (c : ascii) : bool :=
  let n := nat_of_ascii c in
  ((9 <=? n) && (n <=? 13) || (28 <=? n) && (n <=? 31)
   || (n =? 32) || (n =? 133) || (n =? 160))%nat.

Fixpoint lstrip (s : string) : string :=
  match s with
  | EmptyString => EmptyString
  | String c s' => if isspace c then lstrip s' else s
  end.

Fixpoint rstrip (s : string) : string :=
  match s with
  | EmptyString => EmptyString
  | String c s' =>
      match rstrip s' with
      | EmptyString => if isspace c then EmptyString else String c EmptyString
      | t => String c t
      end
  end.

(** [s.strip()] *)
Definition strip (s : string) : string := rstrip (lstrip s).

Definition validate_label (label : string) (existing_labels : gset string)
  : bool * string :=
  if negb (str_truthy label) then
    (false, "Label cannot be empty")
  else if negb (str_truthy (strip label)) then
    (false, "Label cannot be only whitespace")
  else if (100 <? String.length label)%nat then
    (false, "Label too long (max 100 characters)")
  else if bool_decide (existing_labels ≠ ∅) && bool_decide (label ∈ existing_labels) then
    (false, "Label already exists")
  else
    (true, "").

(** The label half of [DuplicateValidator]; the file half keeps its set
    and its methods (which consult the file system) are in
    [ValidatorsFiles] below. *)
Record DuplicateValidator : Type := mkValidator {
  file_paths : gset string;
  region_labels : gset string
}.

Definition init : DuplicateValidator :=
  {| file_paths := ∅; region_labels := ∅ |}.

Definition is_duplicate_label (self : DuplicateValidator) (label : string) : bool :=
  bool_decide (label ∈ region_labels self).

Definition add_label (self : DuplicateValidator) (label : string)
  : DuplicateValidator * bool :=
  if bool_decide (label ∈ region_labels self) then (self, false)
  else ({| file_paths := file_paths self;
           region_labels := region_labels self ∪ {[label]} |}, true).

Definition remove_label (self : DuplicateValidator) (label : string)
  : DuplicateValidator * bool :=
  if bool_decide (label ∈ region_labels self) then
    ({| file_paths := file_paths self;
        region_labels := region_labels self ∖ {[label]} |}, true)
  else (self, false).

Definition update_label (self : DuplicateValidator) (old_label new_label : string)
  : DuplicateValidator * bool :=
  if bool_decide (new_label ∈ region_labels self) && bool_decide (new_label ≠ old_label)
  then (self, false)
  else
    let labels :=
      if bool_decide (old_label ∈ region_labels self)
      then region_labels self ∖ {[old_label]}
      else region_labels self in
    ({| file_paths := file_paths self; region_labels := labels ∪ {[new_label]} |}, true).

Definition clear_labels (self : DuplicateValidator) : DuplicateValidator :=
  {| file_paths := file_paths self; region_labels := ∅ |}.

Definition get_label_count (self : DuplicateValidator) : nat :=
  size (region_labels self).

End Validators.

(** ** config/settings.py *)
Module Settings.
Definition RESIZE_CORNER_THRESHOLD : Qc := Qc_of_Z 20.
Definition RESIZE_CORNERS : list string :=
  ["top-left"; "top-right"; "bottom-left"; "bottom-right"].
Definition REGION_COLOR_DEFAULT : string := "red".
Definition REGION_COLOR_SELECTED : string := "blue".
Definition REGION_COLOR_RESIZE : string := "green".
Definition ERROR_DUPLICATE_LABEL : string := "This label already exists".
End Settings.

(** ** core/coordinate_utils.py *)
Module CoordinateUtils.

Definition normalize_rect (x0 y0 x1 y1 : Qc) : Rect :=
  (py_min x0 x1, py_min y0 y1, py_max x0 x1, py_max y0 y1).

(** [normalize_rect( *coords )] on a stored 4-tuple. *)
Definition normalize_coords (c : Rect) : Rect :=
  let '(x0, y0, x1, y1) := c in normalize_rect x0 y0 x1 y1.

Record CoordinateTransformer : Type := mkTransformer {
  zoom : Qc;
  scale : Qc;
  offset_x : Qc;
  offset_y : Qc
}.

Definition init : CoordinateTransformer :=
  {| zoom := 2; scale := 1; offset_x := 0; offset_y := 0 |}.

Definition set_transform_params (self : CoordinateTransformer)
    (zoom scale offset_x offset_y : Qc) : CoordinateTransformer :=
  {| zoom := zoom; scale := scale; offset_x := offset_x; offset_y := offset_y |}.

Definition pdf_to_image_coords (self : CoordinateTransformer) (pdf_x pdf_y : Qc)
  : Qc * Qc :=
  let transform_factor := zoom self * scale self in
  (pdf_x * transform_factor, pdf_y * transform_factor).

Definition image_to_pdf_coords (self : CoordinateTransformer) (img_x img_y : Qc)
  : outcome (Qc * Qc) :=
  let transform_factor := zoom self * scale self in
  if decide (transform_factor = 0) then Return (0, 0)
  else
    x ← py_div img_x transform_factor;
    y ← py_div img_y transform_factor;
    Return (x, y).

Definition canvas_to_image_coords (self : CoordinateTransformer) (canvas_x canvas_y : Qc)
  : Qc * Qc :=
  (canvas_x - offset_x self, canvas_y - offset_y self).

Definition image_to_canvas_coords (self : CoordinateTransformer) (img_x img_y : Qc)
  : Qc * Qc :=
  (img_x + offset_x self, img_y + offset_y self).

Definition canvas_to_pdf_coords (self : CoordinateTransformer) (canvas_x canvas_y : Qc)
  : outcome (Qc * Qc) :=
  let '(img_x, img_y) := canvas_to_image_coords self canvas_x canvas_y in
  image_to_pdf_coords self img_x img_y.

Definition pdf_to_canvas_coords (self : CoordinateTransformer) (pdf_x pdf_y : Qc)
  : Qc * Qc :=
  let '(img_x, img_y) := pdf_to_image_coords self pdf_x pdf_y in
  image_to_canvas_coords self img_x img_y.

Definition canvas_to_pdf_delta (self : CoordinateTransformer) (dx dy : Qc)
  : outcome (Qc * Qc) :=
  x ← py_div dx (scale self);
  y ← py_div dy (scale self);
  Return (x, y).

End CoordinateUtils.

(** ** The drawing surface

    [tkinter.Canvas], reduced to the calls the core makes on it: items are
    numbered from 1 in creation order, and a call naming an absent item
    does nothing. *)
Module Tk.

Record Item : Type := mkItem {
  item_coords : Rect;
  item_outline : string
}.

Record Canvas : Type := mkCanvas {
  items : gmap nat Item;
  next_id : nat;
  cursor : string
}.

Definition init : Canvas := {| items := ∅; next_id := 1%nat; cursor := "" |}.

Definition create_rectangle (c : Canvas) (x0 y0 x1 y1 : Qc) (outline : string)
  : Canvas * nat :=
  ({| items := <[next_id c := mkItem (x0, y0, x1, y1) outline]> (items c);
      next_id := S (next_id c);
      cursor := cursor c |}, next_id c).

Definition delete (c : Canvas) (id : nat) : Canvas :=
  {| items := base.delete id (items c); next_id := next_id c; cursor := cursor c |}.

Definition coords (c : Canvas) (id : nat) (x0 y0 x1 y1 : Qc) : Canvas :=
  {| items := alter (λ it, mkItem (x0, y0, x1, y1) (item_outline it)) id (items c);
     next_id := next_id c; cursor := cursor c |}.

Definition itemconfig (c : Canvas) (id : nat) (outline : string) : Canvas :=
  {| items := alter (λ it, mkItem (item_coords it) outline) id (items c);
     next_id := next_id c; cursor := cursor c |}.

Definition config_cursor (c : Canvas) (cur : string) : Canvas :=
  {| items := items c; next_id := next_id c; cursor := cur |}.

End Tk.

(** ** Persisted configuration files

    The region files in which every label is a string or [null] and
    every coordinate a number or [null]: what [save_to_file] writes, and
    the ways such a file deviates from it (a key that is missing, [null]
    where a value is expected, a coordinate list of the wrong length, a
    label listed twice or not at all).  From these files the store
    receives numbers only, so [RegionManager.load_from_file] loads them
    into the store of numbers.  Every other JSON value (a string or a
    list as a coordinate, [null] or a list under ["regions"], a number
    in ["order"], ...) is a value of [Py] below, loaded by
    [DynRegionManager.load_from_file]; on the files of this module the
    two loads agree (lemma [load_from_file_typed]). *)
Module Json.

(** One element of a ["coords"] array. *)
Inductive coord : Type :=
  | CoordNum (q : Qc)
  | CoordNull.

(** The value under ["coords"]. *)
Inductive coords_value : Type :=
  | CoordsArray (l : list coord)
  | CoordsNull.

(** The value stored for a label under ["regions"]: an object with or
    without a ["coords"] member, or [null]. *)
Inductive region_value : Type :=
  | RegionObject (coords : option coords_value)
  | RegionNull.

(** One element of the ["order"] array. *)
Inductive label_value : Type :=
  | LabelStr (s : string)
  | LabelNull.

(** The top-level object; [None] is an absent key. *)
Record document : Type := mkDocument {
  doc_regions : option (list (string * region_value));
  doc_order : option (list label_value)
}.

Inductive value : Type :=
  | Object (d : document)
  | NonObject.

End Json.

(** The files the store reads and writes: a name has no file, a file that
    is not JSON, or a JSON value; names in [read_only] cannot be opened
    for writing. *)
Module Files.

Inductive content : Type :=
  | JsonText (v : Json.value)
  | NotJson.

Record FileSystem : Type := mkFS {
  files : gmap string content;
  read_only : gset string
}.

(** [open(filename, 'r')] followed by [json.load]. *)
Definition read_json (fs : FileSystem) (filename : string) : outcome Json.value :=
  match files fs !! filename with
  | None => Raise FileNotFoundError
  | Some NotJson => Raise JSONDecodeError
  | Some (JsonText v) => Return v
  end.

(** [open(filename, 'w')] followed by [json.dump]. *)
Definition write_json (fs : FileSystem) (filename : string) (v : Json.value)
  : FileSystem * outcome unit :=
  if bool_decide (filename ∈ read_only fs) then (fs, Raise OSError)
  else ({| files := <[filename := JsonText v]> (files fs);
           read_only := read_only fs |}, Return tt).

End Files.

(** ** core/region_manager.py

    The [coord_transformer] a manager holds is the application's one
    shared transformer, so it is passed to the methods that read it. *)
Module RegionManager.

(** [rect_id] is true in a condition when it is an item id other than
    0, written [Some (S n)] below. *)
Record RegionData : Type := mkRegionData {
  coords : Rect;
  rect_id : option nat
}.

Definition to_dict (r : RegionData) : Json.region_value :=
  let '(x0, y0, x1, y1) := coords r in
  Json.RegionObject (Some (Json.CoordsArray
    [Json.CoordNum x0; Json.CoordNum y0; Json.CoordNum x1; Json.CoordNum y1])).

Record RegionManager : Type := mkManager {
  validator : Validators.DuplicateValidator;
  regions : list (string * RegionData);
  region_order : list string;
  selected_region : option string
}.

Definition init : RegionManager :=
  {| validator := Validators.init; regions := []; region_order := [];
     selected_region := None |}.

Definition _draw_region (tr : CoordinateUtils.CoordinateTransformer)
    (canvas : Tk.Canvas) (c : Rect) : Tk.Canvas * nat :=
  let '(x0, y0, x1, y1) := c in
  let '(canvas_x0, canvas_y0) := CoordinateUtils.pdf_to_canvas_coords tr x0 y0 in
  let '(canvas_x1, canvas_y1) := CoordinateUtils.pdf_to_canvas_coords tr x1 y1 in
  Tk.create_rectangle canvas canvas_x0 canvas_y0 canvas_x1 canvas_y1
    Settings.REGION_COLOR_DEFAULT.

Definition _update_region_visual (tr : CoordinateUtils.CoordinateTransformer)
    (canvas : Tk.Canvas) (rect_id : nat) (c : Rect) : Tk.Canvas :=
  let '(x0, y0, x1, y1) := c in
  let '(canvas_x0, canvas_y0) := CoordinateUtils.pdf_to_canvas_coords tr x0 y0 in
  let '(canvas_x1, canvas_y1) := CoordinateUtils.pdf_to_canvas_coords tr x1 y1 in
  Tk.coords canvas rect_id canvas_x0 canvas_y0 canvas_x1 canvas_y1.

Definition _set_region_color (self : RegionManager) (canvas : Tk.Canvas)
    (label color : string) : Tk.Canvas :=
  match dict_get label (regions self) with
  | Some region_data =>
      match rect_id region_data with
      | Some (S n) => Tk.itemconfig canvas (S n) color
      | _ => canvas
      end
  | None => canvas
  end.

(** [canvas.delete(region_data.rect_id)] under [if canvas and
    region_data.rect_id]. *)
Definition delete_visual (canvas : option Tk.Canvas) (region_data : RegionData)
  : option Tk.Canvas :=
  match canvas, rect_id region_data with
  | Some c, Some (S n) => Some (Tk.delete c (S n))
  | _, _ => canvas
  end.

(** [add_region] on a string and four numbers, the types its signature
    declares: on numbers neither [normalize_rect] nor [_draw_region]
    raises.  [DynRegionManager.add_region] is the method on values of
    any type, and agrees with this one on numbers (lemma
    [add_region_typed]). *)
Definition add_region (tr : CoordinateUtils.CoordinateTransformer)
    (self : RegionManager) (label : string) (c : Rect) (canvas : option Tk.Canvas)
  : RegionManager * option Tk.Canvas * (bool * string) :=
  let '(is_valid, error_msg) :=
    Validators.validate_label label (Validators.region_labels (validator self)) in
  if negb is_valid then (self, canvas, (false, error_msg))
  else
    let '(x0, y0, x1, y1) := CoordinateUtils.normalize_coords c in
    let '(validator', added) := Validators.add_label (validator self) label in
    if negb added then (self, canvas, (false, Settings.ERROR_DUPLICATE_LABEL))
    else
      let '(canvas', region_data) :=
        match canvas with
        | Some cv =>
            let '(cv', id) := _draw_region tr cv (x0, y0, x1, y1) in
            (Some cv', mkRegionData (x0, y0, x1, y1) (Some id))
        | None => (None, mkRegionData (x0, y0, x1, y1) None)
        end in
      ({| validator := validator';
          regions := dict_set label region_data (regions self);
          region_order := region_order self ++ [label];
          selected_region := selected_region self |},
       canvas', (true, "")).

Definition update_region_label (self : RegionManager) (old_label new_label : string)
  : RegionManager * outcome (bool * string) :=
  if negb (dict_contains old_label (regions self)) then
    (self, Return (false, "Region not found"))
  else
    let '(is_valid, error_msg) :=
      Validators.validate_label new_label
        (Validators.region_labels (validator self) ∖ {[old_label]}) in
    if negb is_valid then (self, Return (false, error_msg))
    else
      let '(validator', updated) :=
        Validators.update_label (validator self) old_label new_label in
      if negb updated then (self, Return (false, Settings.ERROR_DUPLICATE_LABEL))
      else
        match dict_get old_label (regions self) with
        | None =>
            (mkManager validator' (regions self) (region_order self)
               (selected_region self), Raise (KeyError old_label))
        | Some region_data =>
            let regions' :=
              dict_set new_label region_data (dict_del old_label (regions self)) in
            match list_index old_label (region_order self) with
            | None =>
                (mkManager validator' regions' (region_order self)
                   (selected_region self), Raise ValueError)
            | Some index =>
                let order' := <[index := new_label]> (region_order self) in
                let selected' :=
                  if decide (selected_region self = Some old_label)
                  then Some new_label else selected_region self in
                (mkManager validator' regions' order' selected', Return (true, ""))
            end
        end.

Definition update_region_coords (tr : CoordinateUtils.CoordinateTransformer)
    (self : RegionManager) (label : string) (c : Rect) (canvas : option Tk.Canvas)
  : RegionManager * option Tk.Canvas * bool :=
  match dict_get label (regions self) with
  | None => (self, canvas, false)
  | Some region_data =>
      let '(x0, y0, x1, y1) := CoordinateUtils.normalize_coords c in
      let region_data' := mkRegionData (x0, y0, x1, y1) (rect_id region_data) in
      let canvas' :=
        match canvas, rect_id region_data with
        | Some cv, Some (S n) =>
            Some (_update_region_visual tr cv (S n) (x0, y0, x1, y1))
        | _, _ => canvas
        end in
      (mkManager (validator self) (dict_set label region_data' (regions self))
         (region_order self) (selected_region self), canvas', true)
  end.

Definition remove_region (self : RegionManager) (label : string)
    (canvas : option Tk.Canvas)
  : RegionManager * option Tk.Canvas * outcome bool :=
  match dict_get label (regions self) with
  | None => (self, canvas, Return false)
  | Some region_data =>
      let canvas' := delete_visual canvas region_data in
      let regions' := dict_del label (regions self) in
      match list_remove label (region_order self) with
      | None =>
          (mkManager (validator self) regions' (region_order self)
             (selected_region self), canvas', Raise ValueError)
      | Some order' =>
          let validator' := (Validators.remove_label (validator self) label).1 in
          let selected' :=
            if decide (selected_region self = Some label)
            then None else selected_region self in
          (mkManager validator' regions' order' selected', canvas', Return true)
      end
  end.

Definition move_region (self : RegionManager) (from_index to_index : Z)
  : RegionManager * bool :=
  let len := Z.of_nat (length (region_order self)) in
  if negb ((0 <=? from_index)%Z && (from_index <? len)%Z
           && (0 <=? to_index)%Z && (to_index <? len)%Z)
  then (self, false)
  else
    match region_order self !! Z.to_nat from_index with
    | None => (self, false)
    | Some label =>
        let popped := base.delete (Z.to_nat from_index) (region_order self) in
        (mkManager (validator self) (regions self)
           (list_insert_at (Z.to_nat to_index) label popped)
           (selected_region self), true)
    end.

(** The test [x0 <= pdf_x <= x1 and y0 <= pdf_y <= y1]. *)
Definition rect_contains (c : Rect) (x y : Qc) : bool :=
  let '(x0, y0, x1, y1) := c in
  bool_decide (x0 ≤ x) && bool_decide (x ≤ x1)
  && bool_decide (y0 ≤ y) && bool_decide (y ≤ y1).

Definition get_region_at_point (tr : CoordinateUtils.CoordinateTransformer)
    (self : RegionManager) (canvas_x canvas_y : Qc) : outcome (option string) :=
  '(pdf_x, pdf_y) ← CoordinateUtils.canvas_to_pdf_coords tr canvas_x canvas_y;
  Return (List.find
            (λ label, match dict_get label (regions self) with
                      | Some r => rect_contains (coords r) pdf_x pdf_y
                      | None => false
                      end)
            (reverse (region_order self))).

Definition select_region (self : RegionManager) (label : string)
    (canvas : option Tk.Canvas) : RegionManager * option Tk.Canvas * bool :=
  if negb (dict_contains label (regions self)) then (self, canvas, false)
  else
    let canvas1 :=
      match selected_region self, canvas with
      | Some previous, Some cv =>
          if str_truthy previous
          then Some (_set_region_color self cv previous Settings.REGION_COLOR_DEFAULT)
          else canvas
      | _, _ => canvas
      end in
    let self' :=
      mkManager (validator self) (regions self) (region_order self) (Some label) in
    let canvas2 :=
      match canvas1 with
      | Some cv => Some (_set_region_color self' cv label Settings.REGION_COLOR_SELECTED)
      | None => None
      end in
    (self', canvas2, true).

Definition clear_selection (self : RegionManager) (canvas : option Tk.Canvas)
  : RegionManager * option Tk.Canvas :=
  let canvas' :=
    match selected_region self, canvas with
    | Some previous, Some cv =>
        if str_truthy previous
        then Some (_set_region_color self cv previous Settings.REGION_COLOR_DEFAULT)
        else canvas
    | _, _ => canvas
    end in
  (mkManager (validator self) (regions self) (region_order self) None, canvas').

(** The body of the loop of [redraw_all_regions], then the loop. *)
Definition redraw_region (tr : CoordinateUtils.CoordinateTransformer)
    (self : RegionManager) (canvas : Tk.Canvas) (label : string)
  : RegionManager * Tk.Canvas :=
  match dict_get label (regions self) with
  | None => (self, canvas)
  | Some region_data =>
      let canvas1 :=
        match rect_id region_data with
        | Some (S n) => Tk.delete canvas (S n)
        | _ => canvas
        end in
      let '(canvas2, id) := _draw_region tr canvas1 (coords region_data) in
      let self' :=
        mkManager (validator self)
          (dict_set label (mkRegionData (coords region_data) (Some id)) (regions self))
          (region_order self) (selected_region self) in
      let canvas3 :=
        if decide (Some label = selected_region self)
        then _set_region_color self' canvas2 label Settings.REGION_COLOR_SELECTED
        else canvas2 in
      (self', canvas3)
  end.

Definition redraw_all_regions (tr : CoordinateUtils.CoordinateTransformer)
    (self : RegionManager) (canvas : option Tk.Canvas)
  : RegionManager * option Tk.Canvas :=
  match canvas with
  | None => (self, None)
  | Some cv =>
      let '(self', cv') :=
        foldl (λ '(s, c) label, redraw_region tr s c label) (self, cv)
          (region_order self) in
      (self', Some cv')
  end.

Definition clear_all_regions (self : RegionManager) (canvas : option Tk.Canvas)
  : RegionManager * option Tk.Canvas :=
  let canvas' :=
    foldl (λ c entry, delete_visual c entry.2) canvas (regions self) in
  (mkManager (Validators.clear_labels (validator self)) [] [] None, canvas').

(** [region_info["coords"]] followed by [tuple(...)]. *)
Definition entry_coords (region_info : Json.region_value) : outcome (list Json.coord) :=
  match region_info with
  | Json.RegionNull => Raise TypeError
  | Json.RegionObject None => Raise (KeyError "coords")
  | Json.RegionObject (Some Json.CoordsNull) => Raise TypeError
  | Json.RegionObject (Some (Json.CoordsArray l)) => Return l
  end.

(** What [normalize_rect( *coords )] accepts of a tuple of numbers and
    [None]s: four numbers, since [None] compares with nothing. *)
Definition unpack_coords (l : list Json.coord) : outcome Rect :=
  match l with
  | [Json.CoordNum x0; Json.CoordNum y0; Json.CoordNum x1; Json.CoordNum y1] =>
      Return (x0, y0, x1, y1)
  | _ => Raise TypeError
  end.

(** [self.add_region(label, coords, canvas)] on a tuple read from a file:
    the label is validated first, so an invalid label returns before
    [normalize_rect( *coords )] can raise on the tuple. *)
Definition add_region_tuple (tr : CoordinateUtils.CoordinateTransformer)
    (self : RegionManager) (label : string) (tuple : list Json.coord)
    (canvas : option Tk.Canvas)
  : RegionManager * option Tk.Canvas * outcome (bool * string) :=
  let '(is_valid, error_msg) :=
    Validators.validate_label label (Validators.region_labels (validator self)) in
  if negb is_valid then (self, canvas, Return (false, error_msg))
  else
    match unpack_coords tuple with
    | Raise e => (self, canvas, Raise e)
    | Return c =>
        let '(self', canvas', r) := add_region tr self label c canvas in
        (self', canvas', Return r)
    end.

(** The [for label in order] loop of [load_from_file]. *)
Fixpoint load_loop (tr : CoordinateUtils.CoordinateTransformer)
    (regions_data : list (string * Json.region_value))
    (order : list Json.label_value)
    (self : RegionManager) (canvas : option Tk.Canvas) (loaded_count : nat)
  : RegionManager * option Tk.Canvas * outcome nat :=
  match order with
  | [] => (self, canvas, Return loaded_count)
  | Json.LabelNull :: rest => load_loop tr regions_data rest self canvas loaded_count
  | Json.LabelStr label :: rest =>
      match dict_get label regions_data with
      | None => load_loop tr regions_data rest self canvas loaded_count
      | Some region_info =>
          match entry_coords region_info with
          | Raise e => (self, canvas, Raise e)
          | Return tuple =>
              match add_region_tuple tr self label tuple canvas with
              | (self', canvas', Raise e) => (self', canvas', Raise e)
              | (self', canvas', Return (success, _)) =>
                  load_loop tr regions_data rest self' canvas'
                    (if success then S loaded_count else loaded_count)
              end
          end
      end
  end.

Section persistence.
(** [str(e)]: the interpreter's text for an exception. *)
Variable exn_str : py_exn → string.

Definition save_to_file (self : RegionManager) (filename : string)
    (fs : Files.FileSystem) : Files.FileSystem * (bool * string) :=
  let data :=
    Json.Object
      {| Json.doc_regions :=
           Some (map (λ '(label, region), (label, to_dict region)) (regions self));
         Json.doc_order := Some (Json.LabelStr <$> region_order self) |} in
  match Files.write_json fs filename data with
  | (fs', Return _) => (fs', (true, "Saved to " +:+ filename))
  | (fs', Raise e) => (fs', (false, "Failed to save: " +:+ exn_str e))
  end.

(** The two [except] clauses of [load_from_file]. *)
Definition load_except (filename : string) (e : py_exn) : bool * string :=
  match e with
  | FileNotFoundError => (false, "File " +:+ filename +:+ " not found")
  | _ => (false, "Failed to load: " +:+ exn_str e)
  end.

Definition load_from_file (tr : CoordinateUtils.CoordinateTransformer)
    (self : RegionManager) (filename : string) (canvas : option Tk.Canvas)
    (fs : Files.FileSystem) : RegionManager * option Tk.Canvas * (bool * string) :=
  match Files.read_json fs filename with
  | Raise e => (self, canvas, load_except filename e)
  | Return data =>
      let '(self1, canvas1) := clear_all_regions self canvas in
      match data with
      | Json.NonObject => (self1, canvas1, load_except filename AttributeError)
      | Json.Object d =>
          let regions_data := default [] (Json.doc_regions d) in
          let order := default [] (Json.doc_order d) in
          match load_loop tr regions_data order self1 canvas1 0 with
          | (self2, canvas2, Return loaded_count) =>
              (self2, canvas2,
               (true, "Loaded " +:+ pretty loaded_count +:+ " regions from " +:+ filename))
          | (self2, canvas2, Raise e) => (self2, canvas2, load_except filename e)
          end
      end
  end.
End persistence.

End RegionManager.

(** ** Values read from a file

    What [json.load] returns: [None], [bool], [int], [float], [str],
    [list] and [dict] with string keys.  A float is the exact number it
    stands for, and an integer is one that a float can hold, so that
    arithmetic between the two does not overflow.  The keys of a [dict]
    are distinct; a lookup takes the first pair of a key. *)
Module Py.

#[warnings="-register-all"]
Inductive value : Type :=
  | Null
  | Bool (b : bool)
  | Int (n : Z)
  | Float (q : Qc)
  | Str (s : string)
  | Arr (l : list value)
  | Obj (m : list (string * value)).

(** The number a value is in arithmetic and in comparisons ([bool] is a
    subclass of [int]); [None] for a value that is not a number. *)
Definition number (v : value) : option Qc :=
  match v with
  | Bool b => Some (if b then 1 else 0)
  | Int n => Some (Qc_of_Z n)
  | Float q => Some q
  | _ => None
  end.

(** Truth value. *)
Definition truthy (v : value) : bool :=
  match v with
  | Null => false
  | Bool b => b
  | Int n => negb (n =? 0)%Z
  | Float q => negb (bool_decide (q = 0))
  | Str s => str_truthy s
  | Arr l => match l with [] => false | _ :: _ => true end
  | Obj m => match m with [] => false | _ :: _ => true end
  end.

(** [a == b]: numbers by value, lists element by element, dicts key by
    key whatever the order of the keys. *)
Fixpoint py_eq (a b : value) : bool :=
  match a, b with
  | Null, Null => true
  | Str s, Str t => bool_decide (s = t)
  | Arr l, Arr l' =>
      (fix all_eq (l : list value) (l' : list value) : bool :=
         match l, l' with
         | [], [] => true
         | x :: l, y :: l' => py_eq x y && all_eq l l'
         | _, _ => false
         end) l l'
  | Obj m, Obj m' =>
      (length m =? length m')%nat
      && (fix all_in (m : list (string * value)) : bool :=
            match m with
            | [] => true
            | (k, v) :: m =>
                match dict_get k m' with
                | Some v' => py_eq v v'
                | None => false
                end && all_in m
            end) m
  | _, _ =>
      match number a, number b with
      | Some x, Some y => bool_decide (x = y)
      | _, _ => false
      end
  end.

(** [a < b], [None] where Python raises [TypeError]: numbers compare
    with numbers, strings with strings by code point, lists with lists
    by their first pair of unequal elements or else by length; no other
    two values compare.  [b > a] is the same test. *)
Fixpoint py_lt (a b : value) : option bool :=
  match a, b with
  | Str s, Str t => Some (String.ltb s t)
  | Arr l, Arr l' =>
      (fix lex (l : list value) (l' : list value) : option bool :=
         match l, l' with
         | [], [] => Some false
         | [], _ :: _ => Some true
         | _ :: _, [] => Some false
         | x :: l, y :: l' => if py_eq x y then lex l l' else py_lt x y
         end) l l'
  | _, _ =>
      match number a, number b with
      | Some x, Some y => Some (bool_decide (x < y))
      | _, _ => None
      end
  end.

(** [min(x, y)] and [max(x, y)]: the first argument wins a tie. *)
Definition py_min (x y : value) : outcome value :=
  match py_lt y x with
  | Some lt => Return (if lt then y else x)
  | None => Raise TypeError
  end.

Definition py_max (x y : value) : outcome value :=
  match py_lt x y with
  | Some gt => Return (if gt then y else x)
  | None => Raise TypeError
  end.

(** The items [for x in v] and [tuple(v)] go through: the elements of a
    list, the characters of a string, the keys of a dict. *)
Definition iter (v : value) : outcome (list value) :=
  match v with
  | Arr l => Return l
  | Str s => Return ((λ c, Str (String c EmptyString)) <$> list_ascii_of_string s)
  | Obj m => Return (Str <$> dict_keys m)
  | _ => Raise TypeError
  end.

(** [l[i]] on a list: a negative index counts from the end. *)
Definition list_item (l : list value) (i : Z) : outcome value :=
  let n := Z.of_nat (length l) in
  let j := if (i <? 0)%Z then (i + n)%Z else i in
  if (j <? 0)%Z then Raise IndexError
  else match l !! Z.to_nat j with
       | Some v => Return v
       | None => Raise IndexError
       end.

(** [container[key] if key in container], with [None] when the
    membership test is false.  In a dict the test hashes the key, which
    a list or a dict does not support, and only a string equals a key.
    In a list the test compares with [==] and the subscript wants an
    integer.  In a string the test wants a string and the subscript an
    integer.  Nothing else supports [in]. *)
Definition lookup_record (container key : value) : outcome (option value) :=
  match container with
  | Obj m =>
      match key with
      | Arr _ | Obj _ => Raise TypeError
      | Str s => Return (dict_get s m)
      | _ => Return None
      end
  | Arr l =>
      if existsb (λ x, py_eq x key) l then
        match key with
        | Bool b => v ← list_item l (if b then 1 else 0); Return (Some v)
        | Int i => v ← list_item l i; Return (Some v)
        | _ => Raise TypeError
        end
      else Return None
  | Str s =>
      match key with
      | Str t =>
          match String.index 0 t s with
          | Some _ => Raise TypeError
          | None => Return None
          end
      | _ => Raise TypeError
      end
  | _ => Raise TypeError
  end.

(** [v["coords"]] *)
Definition coords_member (v : value) : outcome value :=
  match v with
  | Obj m =>
      match dict_get "coords" m with
      | Some c => Return c
      | None => Raise (KeyError "coords")
      end
  | _ => Raise TypeError
  end.

End Py.

(** ** core/region_manager.py on values of any type: the path of
    [load_from_file]

    [json.load] hands [load_from_file] values of any type, and
    [add_region] stores what [normalize_rect] returns for them, number
    or not.  The store of this module holds such values; [of_typed]
    embeds the store of [RegionManager], whose coordinates are
    numbers. *)
Module DynRegionManager.

(** What is stored as [coords]. *)
Definition Box : Type := Py.value * Py.value * Py.value * Py.value.

Record RegionData : Type := mkRegionData {
  coords : Box;
  rect_id : option nat
}.

Record RegionManager : Type := mkManager {
  validator : Validators.DuplicateValidator;
  regions : list (string * RegionData);
  region_order : list string;
  selected_region : option string
}.

Definition init : RegionManager :=
  {| validator := Validators.init; regions := []; region_order := [];
     selected_region := None |}.

Definition float_box (c : Rect) : Box :=
  let '(x0, y0, x1, y1) := c in (Py.Float x0, Py.Float y0, Py.Float x1, Py.Float y1).

Definition of_typed_region (r : RegionManager.RegionData) : RegionData :=
  {| coords := float_box (RegionManager.coords r);
     rect_id := RegionManager.rect_id r |}.

Definition of_typed (self : RegionManager.RegionManager) : RegionManager :=
  {| validator := RegionManager.validator self;
     regions := prod_map id of_typed_region <$> RegionManager.regions self;
     region_order := RegionManager.region_order self;
     selected_region := RegionManager.selected_region self |}.

(** [validate_label] on a label of any type: a false value is reported
    as empty, and of the others only a string has [strip]. *)
Definition validate_label (label : Py.value) (existing_labels : gset string)
  : outcome (bool * string) :=
  if negb (Py.truthy label) then Return (false, "Label cannot be empty")
  else
    match label with
    | Py.Str s => Return (Validators.validate_label s existing_labels)
    | _ => Raise AttributeError
    end.

Definition normalize_rect (x0 y0 x1 y1 : Py.value) : outcome Box :=
  a ← Py.py_min x0 x1;
  b ← Py.py_min y0 y1;
  c ← Py.py_max x0 x1;
  d ← Py.py_max y0 y1;
  Return (a, b, c, d).

(** [normalize_rect( *coords )]: four arguments are wanted. *)
Definition normalize_coords (coords : list Py.value) : outcome Box :=
  match coords with
  | [x0; y0; x1; y1] => normalize_rect x0 y0 x1 y1
  | _ => Raise TypeError
  end.

(** [v * transform_factor]: a string or a list times a float is a
    [TypeError]; times an integer it is a repetition, and then adding
    the offset to it is that [TypeError]. *)
Definition times (v : Py.value) (factor : Qc) : outcome Qc :=
  match Py.number v with
  | Some x => Return (x * factor)
  | None => Raise TypeError
  end.

Definition pdf_to_image_coords (tr : CoordinateUtils.CoordinateTransformer)
    (pdf_x pdf_y : Py.value) : outcome (Qc * Qc) :=
  let transform_factor := CoordinateUtils.zoom tr * CoordinateUtils.scale tr in
  x ← times pdf_x transform_factor;
  y ← times pdf_y transform_factor;
  Return (x, y).

Definition pdf_to_canvas_coords (tr : CoordinateUtils.CoordinateTransformer)
    (pdf_x pdf_y : Py.value) : outcome (Qc * Qc) :=
  '(img_x, img_y) ← pdf_to_image_coords tr pdf_x pdf_y;
  Return (CoordinateUtils.image_to_canvas_coords tr img_x img_y).

Definition _draw_region (tr : CoordinateUtils.CoordinateTransformer)
    (canvas : Tk.Canvas) (c : Box) : outcome (Tk.Canvas * nat) :=
  let '(x0, y0, x1, y1) := c in
  '(canvas_x0, canvas_y0) ← pdf_to_canvas_coords tr x0 y0;
  '(canvas_x1, canvas_y1) ← pdf_to_canvas_coords tr x1 y1;
  Return (Tk.create_rectangle canvas canvas_x0 canvas_y0 canvas_x1 canvas_y1
            Settings.REGION_COLOR_DEFAULT).

(** The label is in the validator's set from [add_label] on, so it is
    still there when [_draw_region] raises.  Only a string passes
    [validate_label]. *)
Definition add_region (tr : CoordinateUtils.CoordinateTransformer)
    (self : RegionManager) (label : Py.value) (coords : list Py.value)
    (canvas : option Tk.Canvas)
  : RegionManager * option Tk.Canvas * outcome (bool * string) :=
  match validate_label label (Validators.region_labels (validator self)), label with
  | Raise e, _ => (self, canvas, Raise e)
  | Return (false, error_msg), _ => (self, canvas, Return (false, error_msg))
  | Return (true, _), Py.Str key =>
      match normalize_coords coords with
      | Raise e => (self, canvas, Raise e)
      | Return box =>
          let '(validator', added) := Validators.add_label (validator self) key in
          if negb added then
            (self, canvas, Return (false, Settings.ERROR_DUPLICATE_LABEL))
          else
            let self1 :=
              mkManager validator' (regions self) (region_order self)
                (selected_region self) in
            let stored rect_id :=
              mkManager validator'
                (dict_set key (mkRegionData box rect_id) (regions self))
                (region_order self ++ [key]) (selected_region self) in
            match canvas with
            | None => (stored None, None, Return (true, ""))
            | Some cv =>
                match _draw_region tr cv box with
                | Raise e => (self1, canvas, Raise e)
                | Return (cv', id) => (stored (Some id), Some cv', Return (true, ""))
                end
            end
      end
  | Return (true, _), _ => (self, canvas, Raise AttributeError)
  end.

Definition delete_visual (canvas : option Tk.Canvas) (region_data : RegionData)
  : option Tk.Canvas :=
  match canvas, rect_id region_data with
  | Some c, Some (S n) => Some (Tk.delete c (S n))
  | _, _ => canvas
  end.

Definition clear_all_regions (self : RegionManager) (canvas : option Tk.Canvas)
  : RegionManager * option Tk.Canvas :=
  let canvas' :=
    foldl (λ c entry, delete_visual c entry.2) canvas (regions self) in
  (mkManager (Validators.clear_labels (validator self)) [] [] None, canvas').

(** The [for label in order] loop of [load_from_file], over the items
    of [order]. *)
Fixpoint load_loop (tr : CoordinateUtils.CoordinateTransformer)
    (regions_data : Py.value) (order : list Py.value)
    (self : RegionManager) (canvas : option Tk.Canvas) (loaded_count : nat)
  : RegionManager * option Tk.Canvas * outcome nat :=
  match order with
  | [] => (self, canvas, Return loaded_count)
  | label :: rest =>
      match Py.lookup_record regions_data label with
      | Raise e => (self, canvas, Raise e)
      | Return None => load_loop tr regions_data rest self canvas loaded_count
      | Return (Some region_info) =>
          match Py.coords_member region_info ≫= Py.iter with
          | Raise e => (self, canvas, Raise e)
          | Return coords =>
              match add_region tr self label coords canvas with
              | (self', canvas', Raise e) => (self', canvas', Raise e)
              | (self', canvas', Return (success, _)) =>
                  load_loop tr regions_data rest self' canvas'
                    (if success then S loaded_count else loaded_count)
              end
          end
      end
  end.

(** The files [load_from_file] reads. *)
Inductive content : Type :=
  | JsonText (v : Py.value)
  | NotJson.

(** [open(filename, 'r')] followed by [json.load]. *)
Definition read_json (files : gmap string content) (filename : string)
  : outcome Py.value :=
  match files !! filename with
  | None => Raise FileNotFoundError
  | Some NotJson => Raise JSONDecodeError
  | Some (JsonText v) => Return v
  end.

Section persistence.
Variable exn_str : py_exn → string.

(** Only a dict has [get]; a key that is absent gives the default. *)
Definition load_from_file (tr : CoordinateUtils.CoordinateTransformer)
    (self : RegionManager) (filename : string) (canvas : option Tk.Canvas)
    (files : gmap string content)
  : RegionManager * option Tk.Canvas * (bool * string) :=
  match read_json files filename with
  | Raise e => (self, canvas, RegionManager.load_except exn_str filename e)
  | Return data =>
      let '(self1, canvas1) := clear_all_regions self canvas in
      match data with
      | Py.Obj d =>
          let regions_data := default (Py.Obj []) (dict_get "regions" d) in
          let order := default (Py.Arr []) (dict_get "order" d) in
          match Py.iter order with
          | Raise e => (self1, canvas1, RegionManager.load_except exn_str filename e)
          | Return labels =>
              match load_loop tr regions_data labels self1 canvas1 0 with
              | (self2, canvas2, Return loaded_count) =>
                  (self2, canvas2,
                   (true, "Loaded " +:+ pretty loaded_count +:+ " regions from "
                          +:+ filename))
              | (self2, canvas2, Raise e) =>
                  (self2, canvas2, RegionManager.load_except exn_str filename e)
              end
          end
      | _ => (self1, canvas1, RegionManager.load_except exn_str filename AttributeError)
      end
  end.
End persistence.

End DynRegionManager.

(** ** tools/resize_tools.py

    A tool holds references to the application's canvas, transformer and
    region manager; they are passed to its methods.  A pointer event is
    taken at its canvas position [(canvas.canvasx(event.x),
    canvas.canvasy(event.y))]. *)
Module ResizeTool.

Record ResizeTool : Type := mkTool {
  is_resizing : bool;
  resize_region : option string;
  resize_corner : option string;
  start_coords : option (Qc * Qc);
  original_coords : option Rect;
  is_moving : bool;
  move_region : option string;
  move_start_coords : option (Qc * Qc);
  original_coords_move : option Rect;
  original_coords_move_pdf : option Rect;
  original_coords_move_canvas : option ((Qc * Qc) * (Qc * Qc))
}.

Definition init : ResizeTool :=
  {| is_resizing := false; resize_region := None; resize_corner := None;
     start_coords := None; original_coords := None;
     is_moving := false; move_region := None; move_start_coords := None;
     original_coords_move := None; original_coords_move_pdf := None;
     original_coords_move_canvas := None |}.

(** The four corners of a region in canvas space, in the order the
    [corners] dictionary of [check_corner_proximity] lists them. *)
Definition corners_of (tr : CoordinateUtils.CoordinateTransformer) (c : Rect)
  : list (string * (Qc * Qc)) :=
  let '(x0, y0, x1, y1) := c in
  let '(cx0, cy0) := CoordinateUtils.pdf_to_canvas_coords tr x0 y0 in
  let '(cx1, cy1) := CoordinateUtils.pdf_to_canvas_coords tr x1 y1 in
  [("top-left", (cx0, cy0)); ("top-right", (cx1, cy0));
   ("bottom-left", (cx0, cy1)); ("bottom-right", (cx1, cy1))].

Definition near_corner (canvas_x canvas_y : Qc) (corner : string * (Qc * Qc)) : bool :=
  let '(_, (corner_x, corner_y)) := corner in
  let dx := py_abs (canvas_x - corner_x) in
  let dy := py_abs (canvas_y - corner_y) in
  bool_decide (dx ≤ Settings.RESIZE_CORNER_THRESHOLD)
  && bool_decide (dy ≤ Settings.RESIZE_CORNER_THRESHOLD).

Definition check_corner_proximity (tr : CoordinateUtils.CoordinateTransformer)
    (rm : RegionManager.RegionManager) (canvas_x canvas_y : Qc)
    (region_label : string) : option string :=
  match dict_get region_label (RegionManager.regions rm) with
  | None => None
  | Some region =>
      fst <$> List.find (near_corner canvas_x canvas_y)
                (corners_of tr (RegionManager.coords region))
  end.

Definition _set_resize_visual (self : ResizeTool) (rm : RegionManager.RegionManager)
    (canvas : Tk.Canvas) (is_resize_mode : bool) : Tk.Canvas :=
  match resize_region self with
  | Some label =>
      if negb (str_truthy label) then canvas
      else if negb is_resize_mode then canvas
      else
        match dict_get label (RegionManager.regions rm) with
        | Some region =>
            match RegionManager.rect_id region with
            | Some (S n) => Tk.itemconfig canvas (S n) Settings.REGION_COLOR_RESIZE
            | _ => canvas
            end
        | None => canvas
        end
  | None => canvas
  end.

Definition start_resize (self : ResizeTool) (rm : RegionManager.RegionManager)
    (canvas : Tk.Canvas) (region_label corner : string) (canvas_x canvas_y : Qc)
  : ResizeTool * Tk.Canvas * bool :=
  match dict_get region_label (RegionManager.regions rm) with
  | None => (self, canvas, false)
  | Some region =>
      if negb (bool_decide (corner ∈ Settings.RESIZE_CORNERS)) then (self, canvas, false)
      else
        let self' :=
          {| is_resizing := true;
             resize_region := Some region_label;
             resize_corner := Some corner;
             start_coords := Some (canvas_x, canvas_y);
             original_coords := Some (RegionManager.coords region);
             is_moving := is_moving self;
             move_region := move_region self;
             move_start_coords := move_start_coords self;
             original_coords_move := original_coords_move self;
             original_coords_move_pdf := original_coords_move_pdf self;
             original_coords_move_canvas := original_coords_move_canvas self |} in
        (self', _set_resize_visual self' rm canvas true, true)
  end.

Definition start_move (self : ResizeTool) (tr : CoordinateUtils.CoordinateTransformer)
    (rm : RegionManager.RegionManager) (canvas : Tk.Canvas)
    (region_label : string) (canvas_x canvas_y : Qc)
  : ResizeTool * Tk.Canvas * bool :=
  match dict_get region_label (RegionManager.regions rm) with
  | None => (self, canvas, false)
  | Some region =>
      let '(x0, y0, x1, y1) := RegionManager.coords region in
      let self' :=
        {| is_resizing := is_resizing self;
           resize_region := resize_region self;
           resize_corner := resize_corner self;
           start_coords := start_coords self;
           original_coords := original_coords self;
           is_moving := true;
           move_region := Some region_label;
           move_start_coords := Some (canvas_x, canvas_y);
           original_coords_move := Some (RegionManager.coords region);
           original_coords_move_pdf := Some (x0, y0, x1, y1);
           original_coords_move_canvas :=
             Some (CoordinateUtils.pdf_to_canvas_coords tr x0 y0,
                   CoordinateUtils.pdf_to_canvas_coords tr x1 y1) |} in
      (self', Tk.config_cursor (_set_resize_visual self' rm canvas true) "fleur", true)
  end.

(** [update_move]; unpacking a captured value that is [None] raises. *)
Definition update_move (self : ResizeTool) (tr : CoordinateUtils.CoordinateTransformer)
    (rm : RegionManager.RegionManager) (canvas : Tk.Canvas) (canvas_x canvas_y : Qc)
  : RegionManager.RegionManager * Tk.Canvas * outcome bool :=
  if negb (is_moving self) || negb (opt_str_truthy (move_region self)) then
    (rm, canvas, Return false)
  else
    match move_region self, move_start_coords self, original_coords_move_canvas self with
    | Some label, Some (prev_x, prev_y), Some ((cx0, cy0), (cx1, cy1)) =>
        let dx := canvas_x - prev_x in
        let dy := canvas_y - prev_y in
        let new_cx0 := cx0 + dx in
        let new_cy0 := cy0 + dy in
        let new_cx1 := cx1 + dx in
        let new_cy1 := cy1 + dy in
        match CoordinateUtils.canvas_to_pdf_coords tr new_cx0 new_cy0,
              CoordinateUtils.canvas_to_pdf_coords tr new_cx1 new_cy1 with
        | Return (pdf_x0, pdf_y0), Return (pdf_x1, pdf_y1) =>
            let '(rm', canvas', _) :=
              RegionManager.update_region_coords tr rm label
                (pdf_x0, pdf_y0, pdf_x1, pdf_y1) (Some canvas) in
            (rm', default canvas canvas', Return true)
        | Raise e, _ => (rm, canvas, Raise e)
        | _, Raise e => (rm, canvas, Raise e)
        end
    | _, _, _ => (rm, canvas, Raise TypeError)
    end.

Definition finish_move (self : ResizeTool) (rm : RegionManager.RegionManager)
    (canvas : Tk.Canvas) : ResizeTool * Tk.Canvas * bool :=
  if negb (is_moving self) then (self, canvas, false)
  else
    let self' :=
      {| is_resizing := is_resizing self;
         resize_region := resize_region self;
         resize_corner := resize_corner self;
         start_coords := start_coords self;
         original_coords := original_coords self;
         is_moving := false;
         move_region := None;
         move_start_coords := None;
         original_coords_move := original_coords_move self;
         original_coords_move_pdf := None;
         original_coords_move_canvas := None |} in
    (self', Tk.config_cursor (_set_resize_visual self' rm canvas false) "", true).

(** The [if/elif] chain of [update_resize] that picks the new box. *)
Definition resized_coords (corner : option string) (original : Rect) (px py : Qc)
  : option Rect :=
  let '(ox0, oy0, ox1, oy1) := original in
  if decide (corner = Some "top-left") then Some (px, py, ox1, oy1)
  else if decide (corner = Some "top-right") then Some (ox0, py, px, oy1)
  else if decide (corner = Some "bottom-left") then Some (px, oy0, ox1, py)
  else if decide (corner = Some "bottom-right") then Some (ox0, oy0, px, py)
  else None.

Definition update_resize (self : ResizeTool) (tr : CoordinateUtils.CoordinateTransformer)
    (rm : RegionManager.RegionManager) (canvas : Tk.Canvas) (canvas_x canvas_y : Qc)
  : RegionManager.RegionManager * Tk.Canvas * outcome bool :=
  if negb (is_resizing self) || negb (opt_str_truthy (resize_region self)) then
    (rm, canvas, Return false)
  else
    match resize_region self, original_coords self with
    | Some label, Some original =>
        match CoordinateUtils.canvas_to_pdf_coords tr canvas_x canvas_y with
        | Raise e => (rm, canvas, Raise e)
        | Return (px, py) =>
            match resized_coords (resize_corner self) original px py with
            | None => (rm, canvas, Return false)
            | Some new_coords =>
                let '(rm', canvas', updated) :=
                  RegionManager.update_region_coords tr rm label new_coords
                    (Some canvas) in
                (rm', default canvas canvas', Return updated)
            end
        end
    | _, _ => (rm, canvas, Raise TypeError)
    end.

Definition finish_resize (self : ResizeTool) (rm : RegionManager.RegionManager)
    (canvas : Tk.Canvas) : ResizeTool * Tk.Canvas * bool :=
  if negb (is_resizing self) then (self, canvas, false)
  else
    let canvas' := _set_resize_visual self rm canvas false in
    let was_resizing := is_resizing self in
    ({| is_resizing := false;
        resize_region := None;
        resize_corner := None;
        start_coords := None;
        original_coords := None;
        is_moving := is_moving self;
        move_region := move_region self;
        move_start_coords := move_start_coords self;
        original_coords_move := original_coords_move self;
        original_coords_move_pdf := original_coords_move_pdf self;
        original_coords_move_canvas := original_coords_move_canvas self |},
     canvas', was_resizing).

Definition cancel_resize (self : ResizeTool) (tr : CoordinateUtils.CoordinateTransformer)
    (rm : RegionManager.RegionManager) (canvas : Tk.Canvas)
  : ResizeTool * RegionManager.RegionManager * Tk.Canvas * outcome bool :=
  if negb (is_resizing self) || negb (opt_str_truthy (resize_region self)) then
    (self, rm, canvas, Return false)
  else
    match resize_region self with
    | Some label =>
        match dict_get label (RegionManager.regions rm), original_coords self with
        | Some _, None => (self, rm, canvas, Raise TypeError)
        | Some _, Some original =>
            let '(rm', canvas', _) :=
              RegionManager.update_region_coords tr rm label original (Some canvas) in
            let '(self', canvas'', finished) :=
              finish_resize self rm' (default canvas canvas') in
            (self', rm', canvas'', Return finished)
        | None, _ =>
            let '(self', canvas', finished) := finish_resize self rm canvas in
            (self', rm, canvas', Return finished)
        end
    | None => (self, rm, canvas, Return false)
    end.

(** First loop of [handle_mouse_press]: the first region, in the
    iteration order of the [regions] dictionary, with a corner near the
    pointer. *)
Fixpoint find_corner (tr : CoordinateUtils.CoordinateTransformer)
    (rm : RegionManager.RegionManager) (x y : Qc)
    (items : list (string * RegionManager.RegionData)) : option (string * string) :=
  match items with
  | [] => None
  | (label, region) :: rest =>
      match check_corner_proximity tr rm x y label with
      | Some corner =>
          if str_truthy corner then Some (label, corner)
          else find_corner tr rm x y rest
      | None => find_corner tr rm x y rest
      end
  end.

(** Second loop: the first region whose canvas-space box holds the
    pointer. *)
Fixpoint find_containing (tr : CoordinateUtils.CoordinateTransformer) (x y : Qc)
    (items : list (string * RegionManager.RegionData)) : option string :=
  match items with
  | [] => None
  | (label, region) :: rest =>
      let '(x0, y0, x1, y1) := RegionManager.coords region in
      let '(cx0, cy0) := CoordinateUtils.pdf_to_canvas_coords tr x0 y0 in
      let '(cx1, cy1) := CoordinateUtils.pdf_to_canvas_coords tr x1 y1 in
      if RegionManager.rect_contains (cx0, cy0, cx1, cy1) x y then Some label
      else find_containing tr x y rest
  end.

Definition handle_mouse_press (self : ResizeTool)
    (tr : CoordinateUtils.CoordinateTransformer) (rm : RegionManager.RegionManager)
    (canvas : Tk.Canvas) (x y : Qc) : ResizeTool * Tk.Canvas :=
  match find_corner tr rm x y (RegionManager.regions rm) with
  | Some (label, corner) => (start_resize self rm canvas label corner x y).1
  | None =>
      match find_containing tr x y (RegionManager.regions rm) with
      | Some label => (start_move self tr rm canvas label x y).1
      | None => (self, canvas)
      end
  end.

Definition handle_mouse_drag (self : ResizeTool)
    (tr : CoordinateUtils.CoordinateTransformer) (rm : RegionManager.RegionManager)
    (canvas : Tk.Canvas) (x y : Qc)
  : RegionManager.RegionManager * Tk.Canvas * outcome unit :=
  if is_resizing self then
    let '(rm', canvas', r) := update_resize self tr rm canvas x y in
    (rm', canvas', r ≫= λ _, Return tt)
  else if is_moving self then
    let '(rm', canvas', r) := update_move self tr rm canvas x y in
    (rm', canvas', r ≫= λ _, Return tt)
  else (rm, canvas, Return tt).

Definition handle_mouse_release (self : ResizeTool) (rm : RegionManager.RegionManager)
    (canvas : Tk.Canvas) : ResizeTool * Tk.Canvas :=
  let '(self', canvas') :=
    if is_resizing self then (finish_resize self rm canvas).1
    else if is_moving self then (finish_move self rm canvas).1
    else (self, canvas) in
  (self', Tk.config_cursor canvas' "").

End ResizeTool.

(** ** core/pdf_manager.py: the word list of the rendered page *)
Module PDFManager.

(** [text_coords]: image-space boxes of the words of the page. *)
Definition find_word_at_position (tr : CoordinateUtils.CoordinateTransformer)
    (text_coords : list (Rect * string)) (canvas_x canvas_y : Qc)
  : option (Rect * string) :=
  let '(img_x, img_y) := CoordinateUtils.canvas_to_image_coords tr canvas_x canvas_y in
  List.find (λ '(bbox, word), RegionManager.rect_contains bbox img_x img_y) text_coords.

End PDFManager.

(** ** tools/selection_tools.py *)
Module SelectionTools.

Record BoxSelectionTool : Type := mkBox {
  start_pos : option (Qc * Qc);
  temp_rect : option nat;
  is_drawing : bool
}.

Definition box_init : BoxSelectionTool :=
  {| start_pos := None; temp_rect := None; is_drawing := false |}.

Definition _clear_temp_rect (self : BoxSelectionTool) (canvas : Tk.Canvas)
  : BoxSelectionTool * Tk.Canvas :=
  match temp_rect self with
  | Some (S n) =>
      (mkBox (start_pos self) None (is_drawing self), Tk.delete canvas (S n))
  | _ => (self, canvas)
  end.

Definition box_handle_mouse_press (self : BoxSelectionTool)
    (tr : CoordinateUtils.CoordinateTransformer) (canvas : Tk.Canvas) (cx cy : Qc)
  : BoxSelectionTool * Tk.Canvas * bool :=
  let '(ix, iy) := CoordinateUtils.canvas_to_image_coords tr cx cy in
  let self1 := mkBox (Some (ix, iy)) (temp_rect self) true in
  let '(self2, canvas') := _clear_temp_rect self1 canvas in
  (self2, canvas', true).

Definition cancel_drawing (self : BoxSelectionTool) (canvas : Tk.Canvas)
  : BoxSelectionTool * Tk.Canvas :=
  let '(self1, canvas') := _clear_temp_rect self canvas in
  (mkBox None (temp_rect self1) false, canvas').

Definition create_box_region (tr : CoordinateUtils.CoordinateTransformer)
    (rm : RegionManager.RegionManager) (canvas : Tk.Canvas) (c : Rect) (label : string)
  : RegionManager.RegionManager * option Tk.Canvas * (bool * string) :=
  RegionManager.add_region tr rm label c (Some canvas).

(** [WordSelectionTool.handle_mouse_press]: true when a word lies under
    the pointer. *)
Definition word_handle_mouse_press (tr : CoordinateUtils.CoordinateTransformer)
    (text_coords : list (Rect * string)) (cx cy : Qc) : bool :=
  match PDFManager.find_word_at_position tr text_coords cx cy with
  | Some _ => true
  | None => false
  end.

Definition create_word_region (tr : CoordinateUtils.CoordinateTransformer)
    (rm : RegionManager.RegionManager) (canvas : Tk.Canvas)
    (word_bbox : Rect) (label : string)
  : RegionManager.RegionManager * Tk.Canvas * outcome (bool * string) :=
  let '(x0, y0, x1, y1) := word_bbox in
  match CoordinateUtils.image_to_pdf_coords tr x0 y0,
        CoordinateUtils.image_to_pdf_coords tr x1 y1 with
  | Return (px0, py0), Return (px1, py1) =>
      let '(rm', canvas', r) :=
        RegionManager.add_region tr rm label (px0, py0, px1, py1) (Some canvas) in
      (rm', default canvas canvas', Return r)
  | Raise e, _ => (rm, canvas, Raise e)
  | _, Raise e => (rm, canvas, Raise e)
  end.

(** The manager's tool table has the two keys ["word"] and ["box"]; only
    the box tool has a [cancel_drawing]. *)
Record SelectionToolManager : Type := mkSelection {
  current_tool : string;
  box_tool : BoxSelectionTool
}.

Definition init : SelectionToolManager :=
  {| current_tool := "word"; box_tool := box_init |}.

Definition set_tool (self : SelectionToolManager) (canvas : Tk.Canvas)
    (tool_name : string) : SelectionToolManager * Tk.Canvas * outcome bool :=
  if negb (bool_decide (tool_name ∈ ["word"; "box"])) then (self, canvas, Return false)
  else if decide (current_tool self = "box") then
    let '(box', canvas') := cancel_drawing (box_tool self) canvas in
    (mkSelection tool_name box', canvas', Return true)
  else if decide (current_tool self = "word") then
    (mkSelection tool_name (box_tool self), canvas, Return true)
  else (self, canvas, Raise (KeyError (current_tool self))).

Definition handle_mouse_press (self : SelectionToolManager)
    (tr : CoordinateUtils.CoordinateTransformer) (text_coords : list (Rect * string))
    (canvas : Tk.Canvas) (cx cy : Qc)
  : SelectionToolManager * Tk.Canvas * outcome bool :=
  if decide (current_tool self = "box") then
    let '(box', canvas', handled) :=
      box_handle_mouse_press (box_tool self) tr canvas cx cy in
    (mkSelection (current_tool self) box', canvas', Return handled)
  else if decide (current_tool self = "word") then
    (self, canvas, Return (word_handle_mouse_press tr text_coords cx cy))
  else (self, canvas, Raise (KeyError (current_tool self))).

End SelectionTools.

(** ** main.py: the press handler of the application

    [mode] is the value of the mode radio buttons; [reply] is what the
    label dialog returns when it is shown ([None] when cancelled).  The
    list box and the status bar are presentation and are left out. *)
Module App.

Record PDFExtractionApp : Type := mkApp {
  mode : string;
  coord_transformer : CoordinateUtils.CoordinateTransformer;
  text_coords : list (Rect * string);
  region_manager : RegionManager.RegionManager;
  canvas : Tk.Canvas;
  selection_tools : SelectionTools.SelectionToolManager;
  resize_tool : ResizeTool.ResizeTool
}.

Definition on_mouse_press (self : PDFExtractionApp) (x y : Qc) (reply : option string)
  : PDFExtractionApp * outcome unit :=
  let tr := coord_transformer self in
  if decide (mode self = "resize") then
    let '(tool', canvas') :=
      ResizeTool.handle_mouse_press (resize_tool self) tr (region_manager self)
        (canvas self) x y in
    (mkApp (mode self) tr (text_coords self) (region_manager self) canvas'
       (selection_tools self) tool', Return tt)
  else
    match SelectionTools.set_tool (selection_tools self) (canvas self) (mode self) with
    | (sel1, canvas1, Raise e) =>
        (mkApp (mode self) tr (text_coords self) (region_manager self) canvas1
           sel1 (resize_tool self), Raise e)
    | (sel1, canvas1, Return _) =>
        match SelectionTools.handle_mouse_press sel1 tr (text_coords self) canvas1 x y with
        | (sel2, canvas2, Raise e) =>
            (mkApp (mode self) tr (text_coords self) (region_manager self) canvas2
               sel2 (resize_tool self), Raise e)
        | (sel2, canvas2, Return result) =>
            let self2 :=
              mkApp (mode self) tr (text_coords self) (region_manager self) canvas2
                sel2 (resize_tool self) in
            if bool_decide (mode self = "word") && result then
              match PDFManager.find_word_at_position tr (text_coords self) x y, reply with
              | Some (bbox, word), Some label =>
                  if str_truthy label then
                    let '(rm', canvas3, r) :=
                      SelectionTools.create_word_region tr (region_manager self)
                        canvas2 bbox label in
                    (mkApp (mode self) tr (text_coords self) rm' canvas3 sel2
                       (resize_tool self), r ≫= λ _, Return tt)
                  else (self2, Return tt)
              | _, _ => (self2, Return tt)
              end
            else (self2, Return tt)
        end
    end.

End App.

(** ** utils/validators.py: the file half

    The checks on paths go through [os.path], which is the interpreter's:
    [normalize] stands for [os.path.normpath(os.path.abspath(p))] and
    [path_exists], [path_isfile] for [os.path.exists], [os.path.isfile] at
    the time of the call. *)
Module ValidatorsFiles.

(** [str.lower] on one character, for code points below 256. *)
Definition lower_char (c : ascii) : ascii :=
  let n := nat_of_ascii c in
  if ((65 <=? n) && (n <=? 90)
      || (192 <=? n) && (n <=? 222) && negb (n =? 215))%nat
  then ascii_of_nat (n + 32) else c.

Fixpoint lower (s : string) : string :=
  match s with
  | EmptyString => EmptyString
  | String c s' => String (lower_char c) (lower s')
  end.

(** [s.endswith(suffix)] *)
Definition endswith (s suffix : string) : bool :=
  (String.length suffix <=? String.length s)%nat
  && String.eqb
       (String.substring (String.length s - String.length suffix)
          (String.length suffix) s)
       suffix.

Section os_path.
Variable normalize : string → string.
Variables path_exists path_isfile : string → bool.

Definition validate_pdf_path (file_path : string) : bool * string :=
  if negb (str_truthy file_path) then (false, "No file path provided")
  else if negb (path_exists file_path) then (false, "File does not exist")
  else if negb (path_isfile file_path) then (false, "Path is not a file")
  else if negb (endswith (lower file_path) ".pdf") then (false, "File is not a PDF")
  else (true, "").

Definition is_duplicate_file (self : Validators.DuplicateValidator)
    (file_path : string) : bool :=
  bool_decide (normalize file_path ∈ Validators.file_paths self).

Definition add_file (self : Validators.DuplicateValidator) (file_path : string)
  : Validators.DuplicateValidator * bool :=
  let normalized_path := normalize file_path in
  if bool_decide (normalized_path ∈ Validators.file_paths self) then (self, false)
  else ({| Validators.file_paths := Validators.file_paths self ∪ {[normalized_path]};
           Validators.region_labels := Validators.region_labels self |}, true).

Definition remove_file (self : Validators.DuplicateValidator) (file_path : string)
  : Validators.DuplicateValidator * bool :=
  let normalized_path := normalize file_path in
  if bool_decide (normalized_path ∈ Validators.file_paths self) then
    ({| Validators.file_paths := Validators.file_paths self ∖ {[normalized_path]};
        Validators.region_labels := Validators.region_labels self |}, true)
  else (self, false).

End os_path.

Definition clear_files (self : Validators.DuplicateValidator)
  : Validators.DuplicateValidator :=
  {| Validators.file_paths := ∅;
     Validators.region_labels := Validators.region_labels self |}.

End ValidatorsFiles.

(** ** core/pdf_manager.py: the list of imported files

    [add_pdfs] takes the paths it is given, or those the file dialog
    returned when it is given none; the list box it may update is
    presentation and is left out.  [basename] stands for
    [os.path.basename]. *)
Module PDFFiles.

Definition ERROR_DUPLICATE_FILE : string := "This PDF file is already imported".

Record PDFManager : Type := mkPDFManager {
  pdf_files : list string;
  validator : Validators.DuplicateValidator;
  current_path : option string
}.

Definition init : PDFManager :=
  {| pdf_files := []; validator := Validators.init; current_path := None |}.

Section os_path.
Variable normalize : string → string.
Variables path_exists path_isfile : string → bool.
Variable basename : string → string.

(** The [for file_path in file_paths] loop of [add_pdfs]. *)
Fixpoint add_pdfs_loop (file_paths : list string) (self : PDFManager)
    (added_count : nat) (error_messages : list string)
  : PDFManager * (nat * list string) :=
  match file_paths with
  | [] => (self, (added_count, error_messages))
  | file_path :: rest =>
      let '(is_valid, error_msg) :=
        ValidatorsFiles.validate_pdf_path path_exists path_isfile file_path in
      if negb is_valid then
        add_pdfs_loop rest self added_count
          (error_messages ++ [basename file_path +:+ ": " +:+ error_msg])
      else if ValidatorsFiles.is_duplicate_file normalize (validator self) file_path then
        add_pdfs_loop rest self added_count
          (error_messages ++ [basename file_path +:+ ": " +:+ ERROR_DUPLICATE_FILE])
      else
        let '(validator', added) :=
          ValidatorsFiles.add_file normalize (validator self) file_path in
        if added then
          add_pdfs_loop rest
            (mkPDFManager (pdf_files self ++ [file_path]) validator' (current_path self))
            (S added_count) error_messages
        else
          add_pdfs_loop rest
            (mkPDFManager (pdf_files self) validator' (current_path self))
            added_count error_messages
  end.

Definition add_pdfs (self : PDFManager) (file_paths : list string)
  : PDFManager * (nat * list string) :=
  match file_paths with
  | [] => (self, (0%nat, []))
  | _ => add_pdfs_loop file_paths self 0 []
  end.

Definition remove_pdf (self : PDFManager) (index : Z) : PDFManager * bool :=
  if negb ((0 <=? index)%Z && (index <? Z.of_nat (length (pdf_files self)))%Z)
  then (self, false)
  else
    match pdf_files self !! Z.to_nat index with
    | None => (self, false)
    | Some file_path =>
        (mkPDFManager (base.delete (Z.to_nat index) (pdf_files self))
           (ValidatorsFiles.remove_file normalize (validator self) file_path).1
           (current_path self), true)
    end.

End os_path.

Definition clear_all_pdfs (self : PDFManager) : PDFManager :=
  mkPDFManager [] (ValidatorsFiles.clear_files (validator self)) (current_path self).

End PDFFiles.

(** ** tools/selection_tools.py: dragging and releasing

    What a tool's [handle_mouse_release] returns: the box tool returns a
    pair, the word tool (through the base class) the value [False]. *)
Module SelectionEvents.

Inductive release_result : Type :=
  | ReleaseFlag (handled : bool)
  | ReleasePair (handled : bool) (coords : option Rect).

Definition box_handle_mouse_drag (self : SelectionTools.BoxSelectionTool)
    (tr : CoordinateUtils.CoordinateTransformer) (canvas : Tk.Canvas) (cx cy : Qc)
  : SelectionTools.BoxSelectionTool * Tk.Canvas * bool :=
  if negb (SelectionTools.is_drawing self) then (self, canvas, false)
  else
    match SelectionTools.start_pos self with
    | None => (self, canvas, false)
    | Some (start_ix, start_iy) =>
        let '(ix, iy) := CoordinateUtils.canvas_to_image_coords tr cx cy in
        let '(x0c, y0c) := CoordinateUtils.image_to_canvas_coords tr start_ix start_iy in
        let '(x1c, y1c) := CoordinateUtils.image_to_canvas_coords tr ix iy in
        let '(self1, canvas1) := SelectionTools._clear_temp_rect self canvas in
        let '(canvas2, id) :=
          Tk.create_rectangle canvas1 x0c y0c x1c y1c Settings.REGION_COLOR_DEFAULT in
        (SelectionTools.mkBox (SelectionTools.start_pos self1) (Some id)
           (SelectionTools.is_drawing self1), canvas2, true)
    end.

Definition box_handle_mouse_release (self : SelectionTools.BoxSelectionTool)
    (tr : CoordinateUtils.CoordinateTransformer) (canvas : Tk.Canvas) (cx cy : Qc)
  : SelectionTools.BoxSelectionTool * Tk.Canvas * outcome (bool * option Rect) :=
  if negb (SelectionTools.is_drawing self) then (self, canvas, Return (false, None))
  else
    match SelectionTools.start_pos self with
    | None => (self, canvas, Return (false, None))
    | Some (start_ix, start_iy) =>
        let '(ix, iy) := CoordinateUtils.canvas_to_image_coords tr cx cy in
        let '(self1, canvas1) := SelectionTools._clear_temp_rect self canvas in
        let self2 := SelectionTools.mkBox None (SelectionTools.temp_rect self1) false in
        let '(x0, y0, x1, y1) := CoordinateUtils.normalize_rect start_ix start_iy ix iy in
        (self2, canvas1,
         '(px0, py0) ← CoordinateUtils.image_to_pdf_coords tr x0 y0;
         '(px1, py1) ← CoordinateUtils.image_to_pdf_coords tr x1 y1;
         Return (true, Some (px0, py0, px1, py1)))
    end.

(** [SelectionToolManager.handle_mouse_drag] and [handle_mouse_release]:
    the current tool's handler; the word tool has the base class's, which
    return [False]. *)
Definition handle_mouse_drag (self : SelectionTools.SelectionToolManager)
    (tr : CoordinateUtils.CoordinateTransformer) (canvas : Tk.Canvas) (cx cy : Qc)
  : SelectionTools.SelectionToolManager * Tk.Canvas * outcome bool :=
  if decide (SelectionTools.current_tool self = "box") then
    let '(box', canvas', handled) :=
      box_handle_mouse_drag (SelectionTools.box_tool self) tr canvas cx cy in
    (SelectionTools.mkSelection (SelectionTools.current_tool self) box', canvas',
     Return handled)
  else if decide (SelectionTools.current_tool self = "word") then
    (self, canvas, Return false)
  else (self, canvas, Raise (KeyError (SelectionTools.current_tool self))).

Definition handle_mouse_release (self : SelectionTools.SelectionToolManager)
    (tr : CoordinateUtils.CoordinateTransformer) (canvas : Tk.Canvas) (cx cy : Qc)
  : SelectionTools.SelectionToolManager * Tk.Canvas * outcome release_result :=
  if decide (SelectionTools.current_tool self = "box") then
    let '(box', canvas', r) :=
      box_handle_mouse_release (SelectionTools.box_tool self) tr canvas cx cy in
    (SelectionTools.mkSelection (SelectionTools.current_tool self) box', canvas',
     '(handled, coords) ← r; Return (ReleasePair handled coords))
  else if decide (SelectionTools.current_tool self = "word") then
    (self, canvas, Return (ReleaseFlag false))
  else (self, canvas, Raise (KeyError (SelectionTools.current_tool self))).

End SelectionEvents.

(** ** main.py: the drag and release handlers and the order buttons

    [reply] is what the label dialog returns when it is shown; [selection]
    is the tuple [curselection()] of the region list box, whose entries
    are rebuilt from [region_order] after every change. *)
Module AppEvents.

Definition on_mouse_drag (self : App.PDFExtractionApp) (x y : Qc)
  : App.PDFExtractionApp * outcome unit :=
  let tr := App.coord_transformer self in
  if decide (App.mode self = "resize") then
    let '(rm', canvas', r) :=
      ResizeTool.handle_mouse_drag (App.resize_tool self) tr (App.region_manager self)
        (App.canvas self) x y in
    (App.mkApp (App.mode self) tr (App.text_coords self) rm' canvas'
       (App.selection_tools self) (App.resize_tool self), r)
  else
    let '(sel', canvas', r) :=
      SelectionEvents.handle_mouse_drag (App.selection_tools self) tr (App.canvas self)
        x y in
    (App.mkApp (App.mode self) tr (App.text_coords self) (App.region_manager self)
       canvas' sel' (App.resize_tool self), r ≫= λ _, Return tt).

Definition on_mouse_release (self : App.PDFExtractionApp) (x y : Qc)
    (reply : option string) : App.PDFExtractionApp * outcome unit :=
  let tr := App.coord_transformer self in
  if decide (App.mode self = "resize") then
    let '(tool', canvas') :=
      ResizeTool.handle_mouse_release (App.resize_tool self) (App.region_manager self)
        (App.canvas self) in
    (App.mkApp (App.mode self) tr (App.text_coords self) (App.region_manager self)
       canvas' (App.selection_tools self) tool', Return tt)
  else if decide (App.mode self = "box") then
    let '(sel', canvas', r) :=
      SelectionEvents.handle_mouse_release (App.selection_tools self) tr
        (App.canvas self) x y in
    let self1 :=
      App.mkApp (App.mode self) tr (App.text_coords self) (App.region_manager self)
        canvas' sel' (App.resize_tool self) in
    match r with
    | Raise e => (self1, Raise e)
    | Return (SelectionEvents.ReleasePair true (Some coords)) =>
        match reply with
        | Some label =>
            if str_truthy label then
              let '(rm', canvas'', _) :=
                SelectionTools.create_box_region tr (App.region_manager self) canvas'
                  coords label in
              (App.mkApp (App.mode self) tr (App.text_coords self) rm'
                 (default canvas' canvas'') sel' (App.resize_tool self), Return tt)
            else (self1, Return tt)
        | None => (self1, Return tt)
        end
    | Return _ => (self1, Return tt)
    end
  else (self, Return tt).

(** [move_region_up] and [move_region_down]: the new store and the new
    selection of the list box. *)
Definition move_region_up (rm : RegionManager.RegionManager) (selection : list nat)
  : RegionManager.RegionManager * list nat :=
  match selection with
  | index :: _ =>
      if (0 <? index)%nat then
        let '(rm', success) :=
          RegionManager.move_region rm (Z.of_nat index) (Z.of_nat index - 1) in
        if success then (rm', [(index - 1)%nat]) else (rm', selection)
      else (rm, selection)
  | [] => (rm, selection)
  end.

Definition move_region_down (rm : RegionManager.RegionManager) (selection : list nat)
  : RegionManager.RegionManager * list nat :=
  match selection with
  | index :: _ =>
      if (Z.of_nat index <? Z.of_nat (length (RegionManager.region_order rm)) - 1)%Z then
        let '(rm', success) :=
          RegionManager.move_region rm (Z.of_nat index) (Z.of_nat index + 1) in
        if success then (rm', [(index + 1)%nat]) else (rm', selection)
      else (rm, selection)
  | [] => (rm, selection)
  end.

End AppEvents.

(** ** core/export_manager.py: extraction over the regions

    [extract_text_from_region] reads the document through PyMuPDF and
    catches its own exceptions, so it is a function from a path and a box
    to a string. *)
Module ExportManager.

Definition ERROR_NO_PDF : string := "Please load a PDF first".
Definition ERROR_NO_REGIONS : string := "Please define extraction regions first".

Section extraction.
Variable extract_text_from_region : string → Rect → string.

Definition extract_current_pdf (current_path : option string)
    (rm : RegionManager.RegionManager)
  : bool * string * option (list (string * string)) :=
  match current_path with
  | None => (false, ERROR_NO_PDF, None)
  | Some path =>
      if negb (str_truthy path) then (false, ERROR_NO_PDF, None)
      else
        match RegionManager.regions rm with
        | [] => (false, ERROR_NO_REGIONS, None)
        | _ =>
            let extracted_data :=
              foldl
                (λ data label,
                   match dict_get label (RegionManager.regions rm) with
                   | Some region_data =>
                       dict_set label
                         (extract_text_from_region path (RegionManager.coords region_data))
                         data
                   | None => dict_set label "" data
                   end)
                [] (RegionManager.region_order rm) in
            (true, "Extraction complete", Some extracted_data)
        end
  end.

End extraction.

End ExportManager.

(** ** Definitions used to state the properties *)

(** A label that [validate_label] accepts when no label is taken. *)
Definition valid_label (label : string) : Prop :=
  Validators.validate_label label ∅ = (true, "").

(** A string made of whitespace only. *)
Fixpoint all_space (s : string) : bool :=
  match s with
  | EmptyString => true
  | String c s' => Validators.isspace c && all_space s'
  end.

(** What is wrong with a label, if anything, given whether it is taken. *)
Definition label_problem (label : string) (taken : bool) : option string :=
  if decide (label = "") then Some "Label cannot be empty"
  else if all_space label then Some "Label cannot be only whitespace"
  else if decide (100 < String.length label)%nat then
    Some "Label too long (max 100 characters)"
  else if taken then Some "Label already exists"
  else None.

(** The four failure messages of [validate_label]. *)
Definition label_errors : list string :=
  ["Label cannot be empty"; "Label cannot be only whitespace";
   "Label too long (max 100 characters)"; "Label already exists"].

(** A box whose corners are in order. *)
Definition normalized (c : Rect) : Prop :=
  let '(x0, y0, x1, y1) := c in x0 ≤ x1 ∧ y0 ≤ y1.

(** The coordinates stored under a label. *)
Definition coords_of (self : RegionManager.RegionManager) (label : string)
  : option Rect :=
  RegionManager.coords <$> dict_get label (RegionManager.regions self).

(** The invariant of the store. *)
Record store_inv (self : RegionManager.RegionManager) : Prop := mkInv {
  inv_keys_nodup : NoDup (dict_keys (RegionManager.regions self));
  inv_order_perm :
    RegionManager.region_order self ≡ₚ dict_keys (RegionManager.regions self);
  inv_labels :
    ∀ l, l ∈ Validators.region_labels (RegionManager.validator self)
         ↔ l ∈ dict_keys (RegionManager.regions self);
  inv_selected :
    ∀ l, RegionManager.selected_region self = Some l
         → l ∈ dict_keys (RegionManager.regions self);
  inv_valid :
    ∀ l, l ∈ dict_keys (RegionManager.regions self) → valid_label l;
  inv_normalized :
    ∀ l r, (l, r) ∈ RegionManager.regions self
           → CoordinateUtils.normalize_coords (RegionManager.coords r)
             = RegionManager.coords r
}.

(** One operation on the store, with any arguments, any transformer
    state and with or without a canvas. *)
Inductive store_step : RegionManager.RegionManager → RegionManager.RegionManager → Prop :=
  | step_add_region tr self label c canvas :
      store_step self (RegionManager.add_region tr self label c canvas).1.1
  | step_update_region_label self old_label new_label :
      store_step self (RegionManager.update_region_label self old_label new_label).1
  | step_update_region_coords tr self label c canvas :
      store_step self (RegionManager.update_region_coords tr self label c canvas).1.1
  | step_remove_region self label canvas :
      store_step self (RegionManager.remove_region self label canvas).1.1
  | step_move_region self from_index to_index :
      store_step self (RegionManager.move_region self from_index to_index).1
  | step_select_region self label canvas :
      store_step self (RegionManager.select_region self label canvas).1.1
  | step_clear_selection self canvas :
      store_step self (RegionManager.clear_selection self canvas).1
  | step_redraw_all_regions tr self canvas :
      store_step self (RegionManager.redraw_all_regions tr self canvas).1
  | step_clear_all_regions self canvas :
      store_step self (RegionManager.clear_all_regions self canvas).1
  | step_load_from_file exn_str tr self filename canvas fs :
      store_step self
        (RegionManager.load_from_file exn_str tr self filename canvas fs).1.1.

(** The stores a sequence of operations reaches from the empty one. *)
Definition reachable (self : RegionManager.RegionManager) : Prop :=
  rtc store_step RegionManager.init self.

(** *** Partial loads *)

(** An entry of ["order"] that [load_from_file] can restore: a valid
    string label whose record holds four numbers. *)
Definition well_formed_entry (regions_data : list (string * Json.region_value))
    (l : Json.label_value) : option (string * Rect) :=
  match l with
  | Json.LabelNull => None
  | Json.LabelStr label =>
      if bool_decide (valid_label label) then
        match dict_get label regions_data with
        | Some (Json.RegionObject (Some (Json.CoordsArray
            [Json.CoordNum x0; Json.CoordNum y0; Json.CoordNum x1; Json.CoordNum y1]))) =>
            Some (label, (x0, y0, x1, y1))
        | _ => None
        end
      else None
  end.

(** An entry of ["order"] on which the loop raises: its record is listed
    but is not an object with an array under ["coords"], or its label is
    valid and that array is not four numbers. *)
Definition malformed_entry (regions_data : list (string * Json.region_value))
    (l : Json.label_value) : bool :=
  match l with
  | Json.LabelNull => false
  | Json.LabelStr label =>
      match dict_get label regions_data with
      | None => false
      | Some region_info =>
          match RegionManager.entry_coords region_info with
          | Raise _ => true
          | Return tuple =>
              bool_decide (valid_label label)
              && raises (RegionManager.unpack_coords tuple)
          end
      end
  end.

(** The entries listed before the first malformed one. *)
Fixpoint before_malformed (regions_data : list (string * Json.region_value))
    (order : list Json.label_value) : list Json.label_value :=
  match order with
  | [] => []
  | l :: rest =>
      if malformed_entry regions_data l then []
      else l :: before_malformed regions_data rest
  end.

(** The first occurrence of each label, in order. *)
Fixpoint first_occurrences {A} (seen : gset string) (l : list (string * A))
  : list (string * A) :=
  match l with
  | [] => []
  | (label, c) :: rest =>
      if bool_decide (label ∈ seen) then first_occurrences seen rest
      else (label, c) :: first_occurrences (seen ∪ {[label]}) rest
  end.

(** The well-formed, non-duplicate entries of a list of order entries. *)
Definition restorable (regions_data : list (string * Json.region_value))
    (order : list Json.label_value) : list (string * Rect) :=
  first_occurrences ∅ (omap (well_formed_entry regions_data) order).

(** Whether some entry of a list of order entries is malformed. *)
Definition has_malformed (regions_data : list (string * Json.region_value))
    (order : list Json.label_value) : bool :=
  existsb (malformed_entry regions_data) order.

(** The regions [items] hold the entries [entries]: same labels in the
    same order, each with the normalized box of its entry. *)
Definition restored (items : list (string * RegionManager.RegionData))
    (entries : list (string * Rect)) : Prop :=
  Forall2 (λ item entry,
             item.1 = entry.1
             ∧ RegionManager.coords item.2 = CoordinateUtils.normalize_coords entry.2)
    items entries.

(** A rendering of exceptions that shows no text, for examples in which
    the text does not matter. *)
Definition no_text (e : py_exn) : string := "".

(** *** The box [add_region] stores *)

(** [m] is the smaller, or the larger, of [x] and [y]. *)
Definition smaller_of (m x y : Qc) : Prop := m ≤ x ∧ m ≤ y ∧ (m = x ∨ m = y).
Definition larger_of (m x y : Qc) : Prop := x ≤ m ∧ y ≤ m ∧ (m = x ∨ m = y).

(** [box] is the min/max box of the corners [(x0, y0)] and [(x1, y1)]. *)
Definition min_max_box (box : Rect) (x0 y0 x1 y1 : Qc) : Prop :=
  let '(a, b, c, d) := box in
  smaller_of a x0 x1 ∧ smaller_of b y0 y1 ∧ larger_of c x0 x1 ∧ larger_of d y0 y1.

(** The four tuples that name the same two opposite corners, one for
    each direction of the drag. *)
Definition drag_directions (x0 y0 x1 y1 : Qc) : list Rect :=
  [(x0, y0, x1, y1); (x1, y1, x0, y0); (x0, y1, x1, y0); (x1, y0, x0, y1)].

(** *** Loading any JSON value *)

(** The box four values span, when [min] and [max] can compare the two
    values of each axis. *)
Definition span_values (tuple : list Py.value) : option DynRegionManager.Box :=
  match tuple with
  | [x0; y0; x1; y1] =>
      match Py.py_min x0 x1, Py.py_min y0 y1, Py.py_max x0 x1, Py.py_max y0 y1 with
      | Return a, Return b, Return c, Return d => Some (a, b, c, d)
      | _, _, _, _ => None
      end
  | _ => None
  end.

Definition is_number (v : Py.value) : bool :=
  match Py.number v with
  | Some _ => true
  | None => false
  end.

Definition all_numbers (box : DynRegionManager.Box) : bool :=
  let '(a, b, c, d) := box in
  is_number a && is_number b && is_number c && is_number d.








(** The labels of a set, or none. *)
Definition tracked_labels (tracked : option string) : gset string :=
  match tracked with
  | Some s => {[s]}
  | None => ∅
  end.

(** *** Region files as JSON values *)

(** The JSON value of a region file of [Json]: a number is written as
    a float, and a top-level value that is not an object as [null]. *)
Definition full_coord (c : Json.coord) : Py.value :=
  match c with
  | Json.CoordNum q => Py.Float q
  | Json.CoordNull => Py.Null
  end.

Definition full_region (r : Json.region_value) : Py.value :=
  match r with
  | Json.RegionObject (Some (Json.CoordsArray l)) =>
      Py.Obj [("coords", Py.Arr (full_coord <$> l))]
  | Json.RegionObject (Some Json.CoordsNull) => Py.Obj [("coords", Py.Null)]
  | Json.RegionObject None => Py.Obj []
  | Json.RegionNull => Py.Null
  end.

Definition full_label (l : Json.label_value) : Py.value :=
  match l with
  | Json.LabelStr s => Py.Str s
  | Json.LabelNull => Py.Null
  end.

Definition full_member {A} (key : string) (f : A → Py.value) (member : option A)
  : list (string * Py.value) :=
  match member with
  | Some a => [(key, f a)]
  | None => []
  end.

Definition full_value (v : Json.value) : Py.value :=
  match v with
  | Json.Object d =>
      Py.Obj
        (full_member "regions" (λ l, Py.Obj (prod_map id full_region <$> l))
           (Json.doc_regions d)
         ++ full_member "order" (λ l, Py.Arr (full_label <$> l)) (Json.doc_order d))
  | Json.NonObject => Py.Null
  end.

Definition full_content (c : Files.content) : DynRegionManager.content :=
  match c with
  | Files.JsonText v => DynRegionManager.JsonText (full_value v)
  | Files.NotJson => DynRegionManager.NotJson
  end.


Definition storing (self : DynRegionManager.RegionManager) (label : string)
    (box : DynRegionManager.Box) (rect_id : option nat)
  : DynRegionManager.RegionManager :=
  DynRegionManager.mkManager
    (Validators.mkValidator
       (Validators.file_paths (DynRegionManager.validator self))
       (Validators.region_labels (DynRegionManager.validator self) ∪ {[label]}))
    (dict_set label (DynRegionManager.mkRegionData box rect_id)
       (DynRegionManager.regions self))
    (DynRegionManager.region_order self ++ [label])
    (DynRegionManager.selected_region self).

(** *** Gestures *)

(** The motion events of one drag, delivered in order to
    [ResizeTool.handle_mouse_drag]. *)
Fixpoint drag (self : ResizeTool.ResizeTool)
    (tr : CoordinateUtils.CoordinateTransformer) (rm : RegionManager.RegionManager)
    (canvas : Tk.Canvas) (points : list (Qc * Qc))
  : RegionManager.RegionManager * Tk.Canvas * outcome unit :=
  match points with
  | [] => (rm, canvas, Return tt)
  | (x, y) :: rest =>
      match ResizeTool.handle_mouse_drag self tr rm canvas x y with
      | (rm', canvas', Return _) => drag self tr rm' canvas' rest
      | (rm', canvas', Raise e) => (rm', canvas', Raise e)
      end
  end.

(** The calls of [update_move] that the motion events of one move drag
    make, in order. *)
Fixpoint move_drag (self : ResizeTool.ResizeTool)
    (tr : CoordinateUtils.CoordinateTransformer) (rm : RegionManager.RegionManager)
    (canvas : Tk.Canvas) (points : list (Qc * Qc))
  : RegionManager.RegionManager * Tk.Canvas * outcome unit :=
  match points with
  | [] => (rm, canvas, Return tt)
  | (x, y) :: rest =>
      match ResizeTool.update_move self tr rm canvas x y with
      | (rm', canvas', Return _) => move_drag self tr rm' canvas' rest
      | (rm', canvas', Raise e) => (rm', canvas', Raise e)
      end
  end.

(** A box translated by [(dx, dy)]. *)
Definition translate (c : Rect) (dx dy : Qc) : Rect :=
  let '(x0, y0, x1, y1) := c in (x0 + dx, y0 + dy, x1 + dx, y1 + dy).

Definition width (c : Rect) : Qc := let '(x0, _, x1, _) := c in x1 - x0.
Definition height (c : Rect) : Qc := let '(_, y0, _, y1) := c in y1 - y0.

(** The region record [add_region] builds, and the canvas it leaves. *)
Definition drawn_region (tr : CoordinateUtils.CoordinateTransformer) (c : Rect)
    (canvas : option Tk.Canvas) : option Tk.Canvas * RegionManager.RegionData :=
  match canvas with
  | Some cv =>
      let '(cv', id) := RegionManager._draw_region tr cv (CoordinateUtils.normalize_coords c) in
      (Some cv', RegionManager.mkRegionData (CoordinateUtils.normalize_coords c) (Some id))
  | None => (None, RegionManager.mkRegionData (CoordinateUtils.normalize_coords c) None)
  end.

(** The corner opposite to the one being dragged. *)
Definition opposite_corner (corner : string) (c : Rect) : option (Qc * Qc) :=
  let '(x0, y0, x1, y1) := c in
  if decide (corner = "top-left") then Some (x1, y1)
  else if decide (corner = "top-right") then Some (x0, y1)
  else if decide (corner = "bottom-left") then Some (x1, y0)
  else if decide (corner = "bottom-right") then Some (x0, y0)
  else None.

(** The normalized box with corners [p] and [q]. *)
Definition span (p q : Qc * Qc) : Rect :=
  (py_min p.1 q.1, py_min p.2 q.2, py_max p.1 q.1, py_max p.2 q.2).

(** A box with integer corners. *)
Definition rect_of_Z (x0 y0 x1 y1 : Z) : Rect :=
  (Qc_of_Z x0, Qc_of_Z y0, Qc_of_Z x1, Qc_of_Z y1).

(** The store with the box of one region overwritten. *)
Definition with_coords (rm : RegionManager.RegionManager) (label : string)
    (c : Rect) (rect_id : option nat) : RegionManager.RegionManager :=
  RegionManager.mkManager (RegionManager.validator rm)
    (dict_set label (RegionManager.mkRegionData c rect_id) (RegionManager.regions rm))
    (RegionManager.region_order rm) (RegionManager.selected_region rm).

(** The tool is resizing [label] by [corner], having captured
    [original]. *)
Definition resizing (tool : ResizeTool.ResizeTool) (label corner : string)
    (original : Rect) : Prop :=
  ResizeTool.is_resizing tool = true
  ∧ ResizeTool.resize_region tool = Some label
  ∧ ResizeTool.resize_corner tool = Some corner
  ∧ ResizeTool.original_coords tool = Some original.

(** The tool is moving [label], having captured the press point and the
    canvas-space corners of the region. *)
Definition moving (tool : ResizeTool.ResizeTool) (label : string)
    (press : Qc * Qc) (corners : (Qc * Qc) * (Qc * Qc)) : Prop :=
  ResizeTool.is_moving tool = true
  ∧ ResizeTool.move_region tool = Some label
  ∧ ResizeTool.move_start_coords tool = Some press
  ∧ ResizeTool.original_coords_move_canvas tool = Some corners.

(** *** Press dispatch *)

(** [x] is the first element of [l] that passes the test [P]. *)
Definition first_match {A} (P : A → bool) (l : list A) (x : A) : Prop :=
  ∃ before after,
    l = before ++ x :: after ∧ (∀ y, y ∈ before → P y = false) ∧ P x = true.

(** No element of [l] passes the test [P]. *)
Definition no_match {A} (P : A → bool) (l : list A) : Prop :=
  ∀ y, y ∈ l → P y = false.

(** A region with a corner within the threshold of the pointer. *)
Definition has_near_corner (tr : CoordinateUtils.CoordinateTransformer) (x y : Qc)
    (item : string * RegionManager.RegionData) : bool :=
  existsb (ResizeTool.near_corner x y)
    (ResizeTool.corners_of tr (RegionManager.coords item.2)).

(** The canvas-space corners of a document-space box. *)
Definition canvas_corners (tr : CoordinateUtils.CoordinateTransformer) (c : Rect)
  : (Qc * Qc) * (Qc * Qc) :=
  let '(x0, y0, x1, y1) := c in
  (CoordinateUtils.pdf_to_canvas_coords tr x0 y0,
   CoordinateUtils.pdf_to_canvas_coords tr x1 y1).

(** A region whose canvas-space box holds the pointer. *)
Definition holds_pointer (tr : CoordinateUtils.CoordinateTransformer) (x y : Qc)
    (item : string * RegionManager.RegionData) : bool :=
  let '((cx0, cy0), (cx1, cy1)) := canvas_corners tr (RegionManager.coords item.2) in
  RegionManager.rect_contains (cx0, cy0, cx1, cy1) x y.

(** What the spec says of a press that matches no region in resize mode:
    the application after the press has been handed to the selection
    tools. *)
Definition press_forwarded (app : App.PDFExtractionApp) (x y : Qc)
  : App.PDFExtractionApp :=
  let '(sel, canvas, _) :=
    SelectionTools.handle_mouse_press (App.selection_tools app)
      (App.coord_transformer app) (App.text_coords app) (App.canvas app) x y in
  App.mkApp (App.mode app) (App.coord_transformer app) (App.text_coords app)
    (App.region_manager app) canvas sel (App.resize_tool app).

(** An application in resize mode that holds the region ["A"] with box
    [(0,0,10,10)] and whose last selection tool was the box tool. *)
Definition resize_mode_app : App.PDFExtractionApp :=
  let '(rm, canvas, _) :=
    RegionManager.add_region CoordinateUtils.init RegionManager.init "A"
      (rect_of_Z 0 0 10 10) (Some Tk.init) in
  App.mkApp "resize" CoordinateUtils.init [] rm (default Tk.init canvas)
    (SelectionTools.mkSelection "box" SelectionTools.box_init) ResizeTool.init.

(** *** Examples *)

(** A region record as [save_to_file] writes it. *)
Definition json_box (x0 y0 x1 y1 : Z) : Json.region_value :=
  Json.RegionObject (Some (Json.CoordsArray
    [Json.CoordNum (Qc_of_Z x0); Json.CoordNum (Qc_of_Z y0);
     Json.CoordNum (Qc_of_Z x1); Json.CoordNum (Qc_of_Z y1)])).

(** A file system that holds one file, ["regions.json"]. *)
Definition one_file (c : Files.content) : Files.FileSystem :=
  {| Files.files := {["regions.json" := c]}; Files.read_only := ∅ |}.

(** A file whose second entry, ["B"], has no ["coords"]; ["A"] and ["C"]
    are well formed. *)
Definition file_with_malformed_entry : Json.document :=
  {| Json.doc_regions :=
       Some [("A", json_box 0 0 1 1); ("B", Json.RegionObject None);
             ("C", json_box 2 2 3 3)];
     Json.doc_order := Some [Json.LabelStr "A"; Json.LabelStr "B"; Json.LabelStr "C"] |}.

(** A file that lists the label ["A"] twice. *)
Definition file_with_duplicate_label : Json.document :=
  {| Json.doc_regions := Some [("A", json_box 0 0 1 1); ("B", json_box 2 2 3 3)];
     Json.doc_order := Some [Json.LabelStr "A"; Json.LabelStr "A"; Json.LabelStr "B"] |}.

(** The store after adding ["A"], ["B"] and ["C"] and moving the first
    label to the end: its order is [B, C, A]. *)
Definition three_regions : RegionManager.RegionManager :=
  let s1 :=
    (RegionManager.add_region CoordinateUtils.init RegionManager.init "A"
       (rect_of_Z 0 0 10 10) None).1.1 in
  let s2 :=
    (RegionManager.add_region CoordinateUtils.init s1 "B" (rect_of_Z 5 5 1 1) None).1.1 in
  let s3 :=
    (RegionManager.add_region CoordinateUtils.init s2 "C" (rect_of_Z 2 3 4 5) None).1.1 in
  (RegionManager.move_region s3 0 2).1.

(** *** Example files *)

(** A region record holding four integers, and a region file. *)
Definition json_record (x0 y0 x1 y1 : Z) : Py.value :=
  Py.Obj [("coords", Py.Arr [Py.Int x0; Py.Int y0; Py.Int x1; Py.Int y1])].

Definition region_file (regions order : Py.value) : Py.value :=
  Py.Obj [("regions", regions); ("order", order)].

(** A file system that holds the one file ["regions.json"]. *)
Definition one_json (c : DynRegionManager.content) : gmap string DynRegionManager.content :=
  {["regions.json" := c]}.



(** Two records of which the first, ["A"], holds four strings. *)
Definition regions_with_strings : Py.value :=
  Py.Obj [("A", Py.Obj [("coords", Py.Arr [Py.Str "b"; Py.Str "d"; Py.Str "a"; Py.Str "c"])]);
          ("B", json_record 2 2 3 3)].

(** *** The list of imported files *)

(** The invariant of the file list: no two listed paths have the same
    normal form, and the validator tracks exactly the normal forms of the
    listed paths. *)
Definition pdf_inv (normalize : string → string) (self : PDFFiles.PDFManager) : Prop :=
  NoDup (normalize <$> PDFFiles.pdf_files self)
  ∧ ∀ p, p ∈ Validators.file_paths (PDFFiles.validator self)
         ↔ p ∈ normalize <$> PDFFiles.pdf_files self.

(** One operation on the file list, in any state of the file system. *)
Inductive pdf_step (normalize : string → string)
  : PDFFiles.PDFManager → PDFFiles.PDFManager → Prop :=
  | step_add_pdfs path_exists path_isfile basename self file_paths :
      pdf_step normalize self
        (PDFFiles.add_pdfs normalize path_exists path_isfile basename self file_paths).1
  | step_remove_pdf self index :
      pdf_step normalize self (PDFFiles.remove_pdf normalize self index).1
  | step_clear_all_pdfs self :
      pdf_step normalize self (PDFFiles.clear_all_pdfs self).

(** A file system in which every path is an existing file, and a
    normalization that leaves paths as they are. *)
Definition every_path (p : string) : bool := true.
Definition as_written (p : string) : string := p.

(** *** Box gestures *)

(** The motion events of one box drag, delivered in order to the box
    tool. *)
Fixpoint box_drag (self : SelectionTools.BoxSelectionTool)
    (tr : CoordinateUtils.CoordinateTransformer) (canvas : Tk.Canvas)
    (points : list (Qc * Qc)) : SelectionTools.BoxSelectionTool * Tk.Canvas :=
  match points with
  | [] => (self, canvas)
  | (x, y) :: rest =>
      let '(self', canvas', _) :=
        SelectionEvents.box_handle_mouse_drag self tr canvas x y in
      box_drag self' tr canvas' rest
  end.

(** The motion events of one drag, delivered in order to the
    application while no handler raises. *)
Fixpoint app_drag (app : App.PDFExtractionApp) (points : list (Qc * Qc))
  : App.PDFExtractionApp * outcome unit :=
  match points with
  | [] => (app, Return tt)
  | (x, y) :: rest =>
      match AppEvents.on_mouse_drag app x y with
      | (app', Return _) => app_drag app' rest
      | (app', Raise e) => (app', Raise e)
      end
  end.

(** The selection tools hold one of their two tools. *)
Definition known_tool (sel : SelectionTools.SelectionToolManager) : Prop :=
  SelectionTools.current_tool sel = "word" ∨ SelectionTools.current_tool sel = "box".

(** * Properties *)

(** ** Arithmetic of [min], [max] and [normalize_rect] *)

Lemma py_min_le (x y : Qc) : x ≤ y → py_min x y = x.
Proof.
  intros Hxy. unfold py_min. case_decide as Hlt; [|done].
  by apply Qclt_not_le in Hlt.
Qed.

Lemma py_max_le (x y : Qc) : x ≤ y → py_max x y = y.
Proof.
  intros Hxy. unfold py_max. case_decide as Hlt; [done|].
  apply Qcnot_lt_le in Hlt. by apply Qcle_antisym.
Qed.

Lemma py_min_ge (x y : Qc) : y < x → py_min x y = y.
Proof. intros Hlt. unfold py_min. by case_decide. Qed.

Lemma py_max_ge (x y : Qc) : y < x → py_max x y = x.
Proof.
  intros Hlt. unfold py_max. case_decide as Hxy; [|done].
  destruct (Qclt_not_le _ _ Hlt). by apply Qclt_le_weak.
Qed.

Lemma py_min_le_py_max (x y : Qc) : py_min x y ≤ py_max x y.
Proof.
  destruct (Qclt_le_dec y x) as [Hlt|Hle].
  - rewrite py_min_ge, py_max_ge by done. by apply Qclt_le_weak.
  - by rewrite py_min_le, py_max_le.
Qed.

Lemma normalize_rect_normalized (x0 y0 x1 y1 : Qc) :
  normalized (CoordinateUtils.normalize_rect x0 y0 x1 y1).
Proof. split; apply py_min_le_py_max. Qed.

Lemma normalize_coords_normalized (c : Rect) :
  normalized (CoordinateUtils.normalize_coords c).
Proof. destruct c as [[[x0 y0] x1] y1]. apply normalize_rect_normalized. Qed.

Lemma normalize_coords_fixed (c : Rect) :
  normalized c → CoordinateUtils.normalize_coords c = c.
Proof.
  destruct c as [[[x0 y0] x1] y1]. intros [Hx Hy]. simpl.
  unfold CoordinateUtils.normalize_rect.
  by rewrite !py_min_le, !py_max_le.
Qed.

Lemma normalize_coords_idem (c : Rect) :
  CoordinateUtils.normalize_coords (CoordinateUtils.normalize_coords c)
  = CoordinateUtils.normalize_coords c.
Proof. apply normalize_coords_fixed, normalize_coords_normalized. Qed.

Lemma normalized_fixed_iff (c : Rect) :
  CoordinateUtils.normalize_coords c = c ↔ normalized c.
Proof.
  split; [|apply normalize_coords_fixed].
  intros <-. apply normalize_coords_normalized.
Qed.

(** ** Dictionaries *)
Section dict_facts.
Context {V : Type}.
Implicit Types (d : list (string * V)) (k : string) (v : V).

Lemma dict_get_Some_elem k v d : dict_get k d = Some v → (k, v) ∈ d.
Proof.
  induction d as [|[k' v'] d IH]; simpl; [done|].
  case_decide as Hk; intros Hget.
  - simplify_eq. apply list_elem_of_here.
  - apply list_elem_of_further. by apply IH.
Qed.

Lemma dict_get_None k d : dict_get k d = None ↔ k ∉ dict_keys d.
Proof.
  unfold dict_keys. induction d as [|[k' v'] d IH]; simpl.
  - split; [intros _; apply not_elem_of_nil|done].
  - rewrite not_elem_of_cons. case_decide as Hk.
    + split; [done|]. intros [Hne _]. by destruct Hne.
    + rewrite IH. split; [|tauto]. intros Hd. split; [congruence|done].
Qed.

Lemma dict_get_is_Some k d : is_Some (dict_get k d) ↔ k ∈ dict_keys d.
Proof.
  rewrite <-not_eq_None_Some, dict_get_None.
  split; [apply dec_stable|tauto].
Qed.

Lemma dict_contains_true k d : dict_contains k d = true ↔ k ∈ dict_keys d.
Proof. unfold dict_contains. by rewrite bool_decide_eq_true, dict_get_is_Some. Qed.

Lemma dict_contains_false k d : dict_contains k d = false ↔ k ∉ dict_keys d.
Proof. unfold dict_contains. by rewrite bool_decide_eq_false, dict_get_is_Some. Qed.

Lemma dict_get_elem_nodup k v d :
  NoDup (dict_keys d) → (k, v) ∈ d → dict_get k d = Some v.
Proof.
  unfold dict_keys. induction d as [|[k' v'] d IH]; simpl.
  - intros _ Hin. by apply elem_of_nil in Hin.
  - rewrite NoDup_cons. intros [Hnotin Hnd] Hin.
    apply elem_of_cons in Hin as [Heq|Hin].
    + simplify_eq. by rewrite decide_True.
    + rewrite decide_False; [by apply IH|].
      intros ->. apply Hnotin. apply list_elem_of_fmap. by exists (k, v).
Qed.

Lemma dict_set_absent k v d : k ∉ dict_keys d → dict_set k v d = d ++ [(k, v)].
Proof.
  unfold dict_keys. induction d as [|[k' v'] d IH]; simpl; [done|].
  rewrite not_elem_of_cons. intros [Hne Hnotin].
  rewrite decide_False by congruence. by rewrite IH.
Qed.

Lemma dict_keys_set_present k v d :
  k ∈ dict_keys d → dict_keys (dict_set k v d) = dict_keys d.
Proof.
  unfold dict_keys. induction d as [|[k' v'] d IH]; simpl.
  - intros Hin. by apply elem_of_nil in Hin.
  - intros Hin. case_decide as Hk; simpl; [by subst|].
    f_equal. apply IH. apply elem_of_cons in Hin as [->|Hin]; done.
Qed.

Lemma dict_get_set_eq k v d : dict_get k (dict_set k v d) = Some v.
Proof.
  induction d as [|[k' v'] d IH]; simpl.
  - by rewrite decide_True.
  - case_decide as Hk; simpl; [by rewrite decide_True|by rewrite decide_False].
Qed.

Lemma dict_get_set_ne k k' v d :
  k ≠ k' → dict_get k' (dict_set k v d) = dict_get k' d.
Proof.
  intros Hne. induction d as [|[k0 v0] d IH]; simpl.
  - by rewrite decide_False.
  - case_decide as Hk; simpl.
    + subst. by rewrite !decide_False.
    + case_decide; [done|apply IH].
Qed.

Lemma dict_set_elem k v d x : x ∈ dict_set k v d → x = (k, v) ∨ x ∈ d.
Proof.
  induction d as [|[k' v'] d IH]; simpl.
  - intros Hin. left. by apply list_elem_of_singleton in Hin.
  - case_decide as Hk; rewrite !elem_of_cons; intros [->|Hin]; auto.
    destruct (IH Hin); auto.
Qed.

Lemma dict_del_elem k d x : x ∈ dict_del k d → x ∈ d.
Proof.
  induction d as [|[k' v'] d IH]; simpl; [done|].
  case_decide as Hk; rewrite ?elem_of_cons; [auto|].
  intros [->|Hin]; auto.
Qed.

Lemma dict_keys_del_perm k d :
  k ∈ dict_keys d → dict_keys d ≡ₚ k :: dict_keys (dict_del k d).
Proof.
  unfold dict_keys. induction d as [|[k' v'] d IH]; simpl.
  - intros Hin. by apply elem_of_nil in Hin.
  - intros Hin. case_decide as Hk; simpl; [by subst|].
    apply elem_of_cons in Hin as [->|Hin]; [done|].
    rewrite (IH Hin) at 1. apply Permutation_swap.
Qed.

Lemma dict_del_absent k d : k ∉ dict_keys d → dict_del k d = d.
Proof.
  unfold dict_keys. induction d as [|[k' v'] d IH]; simpl; [done|].
  rewrite not_elem_of_cons. intros [Hne Hnotin].
  rewrite decide_False by congruence. by rewrite IH.
Qed.

Lemma dict_keys_del_nodup k d :
  NoDup (dict_keys d) → NoDup (dict_keys (dict_del k d)) ∧ k ∉ dict_keys (dict_del k d).
Proof.
  intros Hnd. destruct (decide (k ∈ dict_keys d)) as [Hin|Hnotin].
  - pose proof (dict_keys_del_perm k d Hin) as Hp.
    rewrite Hp in Hnd. apply NoDup_cons in Hnd. tauto.
  - by rewrite dict_del_absent.
Qed.

Lemma dict_get_del_ne k k' d : k ≠ k' → dict_get k' (dict_del k d) = dict_get k' d.
Proof.
  intros Hne. induction d as [|[k0 v0] d IH]; simpl; [done|].
  case_decide as Hk; simpl.
  - subst. by rewrite decide_False.
  - case_decide; [done|apply IH].
Qed.

Lemma dict_get_del_eq k d : NoDup (dict_keys d) → dict_get k (dict_del k d) = None.
Proof. intros Hnd. apply dict_get_None. by apply dict_keys_del_nodup. Qed.

Lemma dict_keys_del_subset k k' d : k' ∈ dict_keys (dict_del k d) → k' ∈ dict_keys d.
Proof.
  unfold dict_keys. rewrite !list_elem_of_fmap.
  intros (x & -> & Hin). exists x. split; [done|]. by eapply dict_del_elem.
Qed.

Lemma dict_keys_set_nodup k v d :
  NoDup (dict_keys d) → NoDup (dict_keys (dict_set k v d)).
Proof.
  intros Hnd. destruct (decide (k ∈ dict_keys d)) as [Hin|Hnotin].
  - by rewrite dict_keys_set_present.
  - rewrite dict_set_absent by done. unfold dict_keys in *.
    rewrite fmap_app. simpl. apply NoDup_app. split_and!; [done| |apply NoDup_singleton].
    intros x Hx Hx'. apply list_elem_of_singleton in Hx'. by subst.
Qed.

Lemma dict_keys_set_elem k k' v d :
  k' ∈ dict_keys (dict_set k v d) ↔ k' = k ∨ k' ∈ dict_keys d.
Proof.
  destruct (decide (k ∈ dict_keys d)) as [Hin|Hnotin].
  - rewrite dict_keys_set_present by done. split; [auto|]. by intros [->|].
  - rewrite dict_set_absent by done. unfold dict_keys. rewrite fmap_app. simpl.
    rewrite elem_of_app, list_elem_of_singleton. tauto.
Qed.
End dict_facts.

(** ** Lists: [index], [remove], [insert] and item assignment *)

Lemma list_index_None (x : string) (l : list string) : list_index x l = None ↔ x ∉ l.
Proof.
  induction l as [|y l IH]; simpl.
  - split; [intros _; apply not_elem_of_nil|done].
  - rewrite not_elem_of_cons. case_decide as Hy.
    + split; [done|]. intros [Hne _]. by destruct Hne.
    + rewrite fmap_None, IH. split; [|tauto]. intros Hl. split; [congruence|done].
Qed.

Lemma list_index_Some (x : string) (l : list string) (i : nat) :
  list_index x l = Some i → l !! i = Some x.
Proof.
  revert i. induction l as [|y l IH]; intros i; simpl; [done|].
  case_decide as Hy.
  - intros [= <-]. by subst.
  - rewrite fmap_Some. intros (j & Hj & ->). by apply IH.
Qed.

Lemma list_index_elem (x : string) (l : list string) :
  x ∈ l → ∃ i, list_index x l = Some i.
Proof.
  intros Hin. destruct (list_index x l) as [i|] eqn:Hi; [by exists i|].
  by apply list_index_None in Hi.
Qed.

Lemma list_remove_None (x : string) (l : list string) : list_remove x l = None ↔ x ∉ l.
Proof.
  induction l as [|y l IH]; simpl.
  - split; [intros _; apply not_elem_of_nil|done].
  - rewrite not_elem_of_cons. case_decide as Hy.
    + split; [done|]. intros [Hne _]. by destruct Hne.
    + rewrite fmap_None, IH. split; [|tauto]. intros Hl. split; [congruence|done].
Qed.

Lemma list_remove_perm (x : string) (l l' : list string) :
  list_remove x l = Some l' → l ≡ₚ x :: l'.
Proof.
  revert l'. induction l as [|y l IH]; intros l'; simpl; [done|].
  case_decide as Hy.
  - intros [= <-]. by subst.
  - rewrite fmap_Some. intros (l0 & Hl0 & ->).
    rewrite (IH _ Hl0). apply Permutation_swap.
Qed.

Lemma list_assign_perm (l : list string) (i : nat) (x y : string) :
  l !! i = Some x → ∃ rest, l ≡ₚ x :: rest ∧ <[i := y]> l ≡ₚ y :: rest.
Proof.
  intros Hi. exists (take i l ++ drop (S i) l). split.
  - rewrite <-(take_drop_middle l i x Hi) at 1. by rewrite Permutation_middle.
  - rewrite insert_take_drop by (by eapply lookup_lt_Some).
    by rewrite Permutation_middle.
Qed.

Lemma list_pop_insert_perm {A} (l : list A) (i j : nat) (x : A) :
  l !! i = Some x → list_insert_at j x (base.delete i l) ≡ₚ l.
Proof.
  intros Hi. unfold list_insert_at.
  rewrite <-Permutation_middle, take_drop.
  rewrite delete_take_drop.
  rewrite <-(take_drop_middle l i x Hi) at 3. by rewrite Permutation_middle.
Qed.

(** ** Labels *)

Lemma validate_label_true (label : string) (existing : gset string) (msg : string) :
  Validators.validate_label label existing = (true, msg)
  → msg = "" ∧ valid_label label ∧ label ∉ existing.
Proof.
  unfold valid_label, Validators.validate_label.
  destruct (negb (str_truthy label)); [done|].
  destruct (negb (str_truthy (Validators.strip label))); [done|].
  destruct (100 <? String.length label)%nat; [done|].
  destruct (bool_decide (existing ≠ ∅) && bool_decide (label ∈ existing)) eqn:Hex;
    [done|].
  intros [= <-]. split; [done|]. split.
  - rewrite bool_decide_eq_false_2; [done|]. by intros [].
  - intros Hin. apply andb_false_iff in Hex as [Hex|Hex].
    + apply bool_decide_eq_false in Hex. apply Hex. intros ->. set_solver.
    + by apply bool_decide_eq_false in Hex.
Qed.

Lemma validate_label_false (label : string) (existing : gset string) (msg : string) :
  Validators.validate_label label existing = (false, msg) → msg ∈ label_errors.
Proof.
  unfold Validators.validate_label, label_errors.
  repeat (case_match; [intros [= <-]; set_solver|]). done.
Qed.

Lemma validate_label_valid (label : string) (existing : gset string) :
  valid_label label → label ∉ existing
  → Validators.validate_label label existing = (true, "").
Proof.
  unfold valid_label, Validators.validate_label. intros Hvalid Hnotin.
  destruct (negb (str_truthy label)); [done|].
  destruct (negb (str_truthy (Validators.strip label))); [done|].
  destruct (100 <? String.length label)%nat; [done|].
  by rewrite (bool_decide_eq_false_2 (label ∈ existing)), andb_false_r.
Qed.

Lemma validate_label_taken (label : string) (existing : gset string) :
  valid_label label → label ∈ existing
  → Validators.validate_label label existing = (false, "Label already exists").
Proof.
  unfold valid_label, Validators.validate_label. intros Hvalid Hin.
  destruct (negb (str_truthy label)); [done|].
  destruct (negb (str_truthy (Validators.strip label))); [done|].
  destruct (100 <? String.length label)%nat; [done|].
  rewrite (bool_decide_eq_true_2 (label ∈ existing)) by done.
  rewrite bool_decide_eq_true_2; [done|]. set_solver.
Qed.

Lemma validate_label_invalid (label : string) (existing : gset string) :
  ¬ valid_label label
  → Validators.validate_label label existing = Validators.validate_label label ∅
    ∧ (Validators.validate_label label ∅).1 = false.
Proof.
  unfold valid_label, Validators.validate_label. intros Hinv.
  destruct (negb (str_truthy label)); [done|].
  destruct (negb (str_truthy (Validators.strip label))); [done|].
  destruct (100 <? String.length label)%nat; [done|].
  destruct Hinv. rewrite bool_decide_eq_false_2; [done|]. by intros [].
Qed.

Lemma valid_label_A : valid_label "A".
Proof. by vm_compute. Qed.

(** ** The store operations, case by case *)

Lemma add_label_fresh (v : Validators.DuplicateValidator) (label : string) :
  label ∉ Validators.region_labels v
  → Validators.add_label v label
    = (Validators.mkValidator (Validators.file_paths v)
         (Validators.region_labels v ∪ {[label]}), true).
Proof. intros Hnotin. unfold Validators.add_label. by rewrite bool_decide_eq_false_2. Qed.

Lemma drawn_region_coords tr c canvas :
  RegionManager.coords (drawn_region tr c canvas).2 = CoordinateUtils.normalize_coords c.
Proof.
  unfold drawn_region. destruct canvas as [cv|]; [|done].
  by destruct (RegionManager._draw_region _ _ _).
Qed.

Lemma add_region_rejected tr self label c canvas msg :
  Validators.validate_label label
    (Validators.region_labels (RegionManager.validator self)) = (false, msg)
  → RegionManager.add_region tr self label c canvas = (self, canvas, (false, msg)).
Proof. intros Hv. unfold RegionManager.add_region. by rewrite Hv. Qed.

Lemma add_region_accepted tr self label c canvas :
  Validators.validate_label label
    (Validators.region_labels (RegionManager.validator self)) = (true, "")
  → RegionManager.add_region tr self label c canvas
    = (RegionManager.mkManager
         (Validators.mkValidator
            (Validators.file_paths (RegionManager.validator self))
            (Validators.region_labels (RegionManager.validator self) ∪ {[label]}))
         (dict_set label (drawn_region tr c canvas).2 (RegionManager.regions self))
         (RegionManager.region_order self ++ [label])
         (RegionManager.selected_region self),
       (drawn_region tr c canvas).1, (true, "")).
Proof.
  intros Hv. unfold RegionManager.add_region, drawn_region. rewrite Hv. simpl.
  apply validate_label_true in Hv as (_ & _ & Hnotin).
  rewrite (add_label_fresh _ _ Hnotin).
  destruct (CoordinateUtils.normalize_coords c) as [[[x0 y0] x1] y1].
  by destruct canvas as [cv|].
Qed.

Lemma validate_label_cases (label : string) (existing : gset string) :
  (∃ msg, Validators.validate_label label existing = (false, msg))
  ∨ Validators.validate_label label existing = (true, "").
Proof.
  destruct (Validators.validate_label label existing) as [[] msg] eqn:Hv; [|eauto].
  right. by apply validate_label_true in Hv as (-> & _).
Qed.

Lemma store_inv_init : store_inv RegionManager.init.
Proof.
  split; simpl.
  - apply NoDup_nil_2.
  - done.
  - intros l. set_solver.
  - done.
  - intros l Hin. by apply elem_of_nil in Hin.
  - intros l r Hin. by apply elem_of_nil in Hin.
Qed.

Lemma add_region_inv tr self label c canvas :
  store_inv self → store_inv (RegionManager.add_region tr self label c canvas).1.1.
Proof.
  intros Hinv.
  destruct (validate_label_cases label
    (Validators.region_labels (RegionManager.validator self))) as [[msg Hv]|Hv].
  { by rewrite (add_region_rejected _ _ _ _ _ _ Hv). }
  rewrite (add_region_accepted _ _ _ _ _ Hv). simpl.
  apply validate_label_true in Hv as (_ & Hvalid & Hnotin).
  destruct Hinv as [Hnd Hperm Hlab Hsel Hval Hnorm].
  assert (label ∉ dict_keys (RegionManager.regions self)) as Hfresh
    by (by rewrite <-Hlab).
  split; simpl.
  - by apply dict_keys_set_nodup.
  - rewrite dict_set_absent by done. unfold dict_keys in *.
    rewrite fmap_app. simpl. by rewrite Hperm.
  - intros l. rewrite dict_keys_set_elem, elem_of_union, elem_of_singleton, Hlab. tauto.
  - intros l Hl. apply dict_keys_set_elem. right. by apply Hsel.
  - intros l Hl. apply dict_keys_set_elem in Hl as [->|Hl]; [done|by apply Hval].
  - intros l r Hin. apply dict_set_elem in Hin as [Heq|Hin]; [|by eapply Hnorm].
    simplify_eq. rewrite drawn_region_coords. apply normalize_coords_idem.
Qed.

Lemma dict_keys_del_elem {V} (k k' : string) (d : list (string * V)) :
  NoDup (dict_keys d) → k' ∈ dict_keys (dict_del k d) ↔ k' ∈ dict_keys d ∧ k' ≠ k.
Proof.
  intros Hnd. destruct (dict_keys_del_nodup k d Hnd) as [_ Hnotin]. split.
  - intros Hin. split; [by eapply dict_keys_del_subset|]. by intros ->.
  - intros [Hin Hne]. destruct (decide (k ∈ dict_keys d)) as [Hk|Hk].
    + rewrite (dict_keys_del_perm k d Hk) in Hin.
      apply elem_of_cons in Hin as [?|?]; done.
    + by rewrite dict_del_absent.
Qed.

Lemma update_label_accepted (v : Validators.DuplicateValidator) (old_label new_label : string) :
  new_label ∉ Validators.region_labels v ∖ {[old_label]}
  → Validators.update_label v old_label new_label
    = (Validators.mkValidator (Validators.file_paths v)
         (Validators.region_labels v ∖ {[old_label]} ∪ {[new_label]}), true).
Proof.
  intros Hnotin. unfold Validators.update_label.
  destruct (bool_decide (new_label ∈ Validators.region_labels v)
            && bool_decide (new_label ≠ old_label)) eqn:Hdup.
  { apply andb_true_iff in Hdup as [Hin Hne].
    apply bool_decide_eq_true in Hin, Hne. set_solver. }
  clear Hdup. f_equal. f_equal.
  destruct (decide (old_label ∈ Validators.region_labels v)) as [Hold|Hold].
  - by rewrite bool_decide_eq_true_2.
  - rewrite bool_decide_eq_false_2 by done. f_equal.
    apply set_eq. intros x. rewrite elem_of_difference, elem_of_singleton.
    split; [|tauto]. intros Hx. split; [done|]. by intros ->.
Qed.

Lemma update_region_label_missing self old_label new_label :
  old_label ∉ dict_keys (RegionManager.regions self)
  → RegionManager.update_region_label self old_label new_label
    = (self, Return (false, "Region not found")).
Proof.
  intros Hnotin. unfold RegionManager.update_region_label.
  by rewrite (proj2 (dict_contains_false _ _) Hnotin).
Qed.

Lemma update_region_label_rejected self old_label new_label msg :
  old_label ∈ dict_keys (RegionManager.regions self)
  → Validators.validate_label new_label
      (Validators.region_labels (RegionManager.validator self) ∖ {[old_label]})
    = (false, msg)
  → RegionManager.update_region_label self old_label new_label
    = (self, Return (false, msg)).
Proof.
  intros Hin Hv. unfold RegionManager.update_region_label.
  by rewrite (proj2 (dict_contains_true _ _) Hin), Hv.
Qed.

Lemma update_region_label_accepted self old_label new_label region_data index :
  dict_get old_label (RegionManager.regions self) = Some region_data
  → list_index old_label (RegionManager.region_order self) = Some index
  → Validators.validate_label new_label
      (Validators.region_labels (RegionManager.validator self) ∖ {[old_label]})
    = (true, "")
  → RegionManager.update_region_label self old_label new_label
    = (RegionManager.mkManager
         (Validators.mkValidator
            (Validators.file_paths (RegionManager.validator self))
            (Validators.region_labels (RegionManager.validator self)
               ∖ {[old_label]} ∪ {[new_label]}))
         (dict_set new_label region_data
            (dict_del old_label (RegionManager.regions self)))
         (<[index := new_label]> (RegionManager.region_order self))
         (if decide (RegionManager.selected_region self = Some old_label)
          then Some new_label else RegionManager.selected_region self),
       Return (true, "")).
Proof.
  intros Hget Hidx Hv. unfold RegionManager.update_region_label.
  assert (old_label ∈ dict_keys (RegionManager.regions self)) as Hin
    by (apply dict_get_is_Some; eauto).
  rewrite (proj2 (dict_contains_true _ _) Hin), Hv. simpl.
  apply validate_label_true in Hv as (_ & _ & Hnotin).
  by rewrite (update_label_accepted _ _ _ Hnotin), Hget, Hidx.
Qed.

(** In a store that satisfies the invariant a present label is found in
    the dictionary and in the order list. *)
Lemma store_inv_lookup self label :
  store_inv self → label ∈ dict_keys (RegionManager.regions self)
  → ∃ region_data index,
      dict_get label (RegionManager.regions self) = Some region_data
      ∧ list_index label (RegionManager.region_order self) = Some index.
Proof.
  intros Hinv Hin.
  destruct (proj2 (dict_get_is_Some _ _) Hin) as [rd Hrd].
  destruct (list_index_elem label (RegionManager.region_order self)) as [i Hi].
  { by rewrite (inv_order_perm _ Hinv). }
  eauto.
Qed.

Lemma update_region_label_inv self old_label new_label :
  store_inv self
  → store_inv (RegionManager.update_region_label self old_label new_label).1.
Proof.
  intros Hinv.
  destruct (decide (old_label ∈ dict_keys (RegionManager.regions self))) as [Hin|Hnotin];
    [|by rewrite update_region_label_missing].
  destruct (validate_label_cases new_label
    (Validators.region_labels (RegionManager.validator self) ∖ {[old_label]}))
    as [[msg Hv]|Hv]; [by rewrite (update_region_label_rejected _ _ _ msg)|].
  destruct (store_inv_lookup _ _ Hinv Hin) as (rd & i & Hrd & Hi).
  rewrite (update_region_label_accepted _ _ _ _ _ Hrd Hi Hv). simpl.
  apply validate_label_true in Hv as (_ & Hvalid & Hnotin).
  destruct Hinv as [Hnd Hperm Hlab Hsel Hval Hnorm].
  destruct (dict_keys_del_nodup old_label _ Hnd) as [Hnd' Hold].
  assert (new_label ∉ dict_keys (dict_del old_label (RegionManager.regions self)))
    as Hfresh.
  { rewrite dict_keys_del_elem by done. intros [Hk Hne].
    apply Hnotin. apply elem_of_difference. rewrite Hlab, elem_of_singleton. done. }
  split; simpl.
  - by apply dict_keys_set_nodup.
  - rewrite dict_set_absent by done. unfold dict_keys in *. rewrite fmap_app. simpl.
    destruct (list_assign_perm _ _ _ new_label (list_index_Some _ _ _ Hi))
      as (rest & Hrest & ->).
    rewrite <-Permutation_cons_append. f_equiv.
    apply (Permutation_cons_inv (a := old_label)).
    rewrite <-Hrest, Hperm. by apply (dict_keys_del_perm (V := RegionManager.RegionData)).
  - intros l. rewrite dict_keys_set_elem, dict_keys_del_elem by done.
    rewrite elem_of_union, elem_of_difference, !elem_of_singleton, Hlab.
    destruct (decide (l = new_label)); tauto.
  - intros l. case_decide as Hs.
    + intros [= <-]. apply dict_keys_set_elem. by left.
    + intros Hl. apply dict_keys_set_elem. right. apply dict_keys_del_elem; [done|].
      split; [by apply Hsel|]. intros ->. done.
  - intros l Hl. apply dict_keys_set_elem in Hl as [->|Hl]; [done|].
    apply Hval. by eapply dict_keys_del_subset.
  - intros l r Hl. apply dict_set_elem in Hl as [Heq|Hl].
    + simplify_eq. apply (Hnorm old_label). by apply dict_get_Some_elem.
    + apply (Hnorm l). by eapply dict_del_elem.
Qed.

Lemma update_region_coords_inv tr self label c canvas :
  store_inv self
  → store_inv (RegionManager.update_region_coords tr self label c canvas).1.1.
Proof.
  intros Hinv. unfold RegionManager.update_region_coords.
  destruct (dict_get label (RegionManager.regions self)) as [rd|] eqn:Hrd; [|done].
  pose proof (normalize_coords_idem c) as Hidem.
  destruct (CoordinateUtils.normalize_coords c) as [[[x0 y0] x1] y1]. simpl.
  assert (label ∈ dict_keys (RegionManager.regions self)) as Hin
    by (apply dict_get_is_Some; eauto).
  destruct Hinv as [Hnd Hperm Hlab Hsel Hval Hnorm].
  split; simpl; rewrite ?dict_keys_set_present by done; try done.
  intros l r Hl. apply dict_set_elem in Hl as [Heq|Hl]; [|by eapply Hnorm].
  by simplify_eq.
Qed.

Lemma remove_region_inv self label canvas :
  store_inv self → store_inv (RegionManager.remove_region self label canvas).1.1.
Proof.
  intros Hinv. unfold RegionManager.remove_region.
  destruct (dict_get label (RegionManager.regions self)) as [rd|] eqn:Hrd; [|done].
  assert (label ∈ dict_keys (RegionManager.regions self)) as Hin
    by (apply dict_get_is_Some; eauto).
  destruct Hinv as [Hnd Hperm Hlab Hsel Hval Hnorm].
  destruct (list_remove label (RegionManager.region_order self)) as [order'|] eqn:Hrm.
  2:{ apply list_remove_None in Hrm. by rewrite Hperm in Hrm. }
  destruct (dict_keys_del_nodup label _ Hnd) as [Hnd' Hgone].
  split; simpl.
  - done.
  - apply (Permutation_cons_inv (a := label)).
    rewrite <-(list_remove_perm _ _ _ Hrm), Hperm.
    by apply (dict_keys_del_perm (V := RegionManager.RegionData)).
  - intros l. rewrite dict_keys_del_elem by done.
    unfold Validators.remove_label. case_bool_decide as Hl; simpl.
    + rewrite elem_of_difference, elem_of_singleton, Hlab. done.
    + by rewrite Hlab in Hl.
  - intros l. case_decide as Hs; [done|]. intros Hl.
    apply dict_keys_del_elem; [done|]. split; [by apply Hsel|]. by intros ->.
  - intros l Hl. apply Hval. by eapply dict_keys_del_subset.
  - intros l r Hl. apply (Hnorm l). by eapply dict_del_elem.
Qed.

Lemma move_region_inv self from_index to_index :
  store_inv self → store_inv (RegionManager.move_region self from_index to_index).1.
Proof.
  intros Hinv. unfold RegionManager.move_region.
  case_match; [done|].
  destruct (RegionManager.region_order self !! Z.to_nat from_index) as [label|] eqn:Hl;
    [|done].
  destruct Hinv as [Hnd Hperm Hlab Hsel Hval Hnorm].
  split; simpl; try done.
  by rewrite (list_pop_insert_perm _ _ _ _ Hl).
Qed.

Lemma select_region_inv self label canvas :
  store_inv self → store_inv (RegionManager.select_region self label canvas).1.1.
Proof.
  intros Hinv. unfold RegionManager.select_region.
  destruct (dict_contains label (RegionManager.regions self)) eqn:Hc; [|done].
  apply dict_contains_true in Hc.
  destruct Hinv as [Hnd Hperm Hlab Hsel Hval Hnorm].
  split; simpl; try done. by intros l [= <-].
Qed.

Lemma clear_selection_inv self canvas :
  store_inv self → store_inv (RegionManager.clear_selection self canvas).1.
Proof. intros [Hnd Hperm Hlab Hsel Hval Hnorm]. by split. Qed.

Lemma clear_all_regions_store self canvas :
  (RegionManager.clear_all_regions self canvas).1
  = RegionManager.mkManager
      (Validators.clear_labels (RegionManager.validator self)) [] [] None.
Proof. done. Qed.

Lemma store_inv_cleared (v : Validators.DuplicateValidator) :
  store_inv (RegionManager.mkManager (Validators.clear_labels v) [] [] None).
Proof.
  split; simpl.
  - apply NoDup_nil_2.
  - done.
  - intros l. set_solver.
  - done.
  - intros l Hin. by apply elem_of_nil in Hin.
  - intros l r Hin. by apply elem_of_nil in Hin.
Qed.

Lemma clear_all_regions_inv self canvas :
  store_inv (RegionManager.clear_all_regions self canvas).1.
Proof. rewrite clear_all_regions_store. apply store_inv_cleared. Qed.

Lemma redraw_region_inv tr self canvas label :
  store_inv self → store_inv (RegionManager.redraw_region tr self canvas label).1.
Proof.
  intros Hinv. unfold RegionManager.redraw_region.
  destruct (dict_get label (RegionManager.regions self)) as [rd|] eqn:Hrd; [|done].
  destruct (RegionManager._draw_region tr _ (RegionManager.coords rd)) as [canvas2 id].
  simpl.
  assert (label ∈ dict_keys (RegionManager.regions self)) as Hin
    by (apply dict_get_is_Some; eauto).
  destruct Hinv as [Hnd Hperm Hlab Hsel Hval Hnorm].
  split; simpl; rewrite ?dict_keys_set_present by done; try done.
  intros l r Hl. apply dict_set_elem in Hl as [Heq|Hl]; [|by eapply Hnorm].
  simplify_eq. simpl. apply (Hnorm label). by apply dict_get_Some_elem.
Qed.

Lemma redraw_loop_inv tr (labels : list string) self canvas :
  store_inv self
  → store_inv
      (foldl (λ '(s, c) label, RegionManager.redraw_region tr s c label)
         (self, canvas) labels).1.
Proof.
  revert self canvas. induction labels as [|label labels IH]; intros self canvas Hinv;
    simpl; [done|].
  pose proof (redraw_region_inv tr self canvas label Hinv) as Hstep.
  destruct (RegionManager.redraw_region tr self canvas label) as [self' canvas'].
  by apply IH.
Qed.

Lemma redraw_all_regions_inv tr self canvas :
  store_inv self → store_inv (RegionManager.redraw_all_regions tr self canvas).1.
Proof.
  intros Hinv. unfold RegionManager.redraw_all_regions.
  destruct canvas as [cv|]; [|done].
  pose proof (redraw_loop_inv tr (RegionManager.region_order self) self cv Hinv) as Hloop.
  by destruct (foldl _ _ _).
Qed.

Lemma add_region_tuple_inv tr self label tuple canvas :
  store_inv self
  → store_inv (RegionManager.add_region_tuple tr self label tuple canvas).1.1.
Proof.
  intros Hinv. unfold RegionManager.add_region_tuple.
  destruct (Validators.validate_label label _) as [[] msg]; simpl; [|done].
  destruct (RegionManager.unpack_coords tuple) as [c|e]; [|done].
  pose proof (add_region_inv tr self label c canvas Hinv) as Hadd.
  by destruct (RegionManager.add_region tr self label c canvas) as [[self' canvas'] r].
Qed.

Lemma load_loop_inv tr regions_data order self canvas loaded_count :
  store_inv self
  → store_inv (RegionManager.load_loop tr regions_data order self canvas loaded_count).1.1.
Proof.
  revert self canvas loaded_count.
  induction order as [|[label|] order IH]; intros self canvas n Hinv; simpl;
    [done| |by apply IH].
  destruct (dict_get label regions_data) as [region_info|]; [|by apply IH].
  destruct (RegionManager.entry_coords region_info) as [tuple|e]; [|done].
  pose proof (add_region_tuple_inv tr self label tuple canvas Hinv) as Hadd.
  destruct (RegionManager.add_region_tuple tr self label tuple canvas)
    as [[self' canvas'] [[success msg]|e]]; [|done].
  by apply IH.
Qed.

Lemma load_from_file_inv exn_str tr self filename canvas fs :
  store_inv self
  → store_inv (RegionManager.load_from_file exn_str tr self filename canvas fs).1.1.
Proof.
  intros Hinv. unfold RegionManager.load_from_file.
  destruct (Files.read_json fs filename) as [[d|]|e]; [| |done].
  - pose proof (clear_all_regions_inv self canvas) as Hclear.
    destruct (RegionManager.clear_all_regions self canvas) as [self1 canvas1].
    pose proof (load_loop_inv tr (default [] (Json.doc_regions d))
                  (default [] (Json.doc_order d)) self1 canvas1 0 Hclear) as Hloop.
    by destruct (RegionManager.load_loop _ _ _ _ _ _) as [[self2 canvas2] [n|e]].
  - pose proof (clear_all_regions_inv self canvas) as Hclear.
    by destruct (RegionManager.clear_all_regions self canvas) as [self1 canvas1].
Qed.

Lemma store_step_inv self self' : store_step self self' → store_inv self → store_inv self'.
Proof.
  destruct 1; intros Hinv.
  - by apply add_region_inv.
  - by apply update_region_label_inv.
  - by apply update_region_coords_inv.
  - by apply remove_region_inv.
  - by apply move_region_inv.
  - by apply select_region_inv.
  - by apply clear_selection_inv.
  - by apply redraw_all_regions_inv.
  - apply clear_all_regions_inv.
  - by apply load_from_file_inv.
Qed.

Lemma reachable_inv self : reachable self → store_inv self.
Proof.
  unfold reachable. revert self.
  apply (rtc_ind_r (R := store_step) store_inv).
  - apply store_inv_init.
  - intros s s' _ Hstep Hinv. by eapply store_step_inv.
Qed.

(** C1. After any sequence of store operations from the empty store,
    [region_order] is a permutation of the keys of [regions] without
    duplicates, and [selected_region], when set, is a key of [regions]. *)
Theorem C1_order_is_permutation_of_keys (self : RegionManager.RegionManager) :
  reachable self
  → RegionManager.region_order self ≡ₚ dict_keys (RegionManager.regions self)
    ∧ NoDup (RegionManager.region_order self)
    ∧ NoDup (dict_keys (RegionManager.regions self))
    ∧ ∀ label, RegionManager.selected_region self = Some label
               → label ∈ dict_keys (RegionManager.regions self).
Proof.
  intros Hreach. destruct (reachable_inv self Hreach) as [Hnd Hperm _ Hsel _ _].
  split_and!; [done| |done|done]. by rewrite Hperm.
Qed.

(** ** [add_region] *)

Lemma lstrip_empty (s : string) : Validators.lstrip s = "" ↔ all_space s = true.
Proof.
  induction s as [|c s IH]; simpl; [done|].
  destruct (Validators.isspace c); simpl; [done|]. split; discriminate.
Qed.

Lemma lstrip_head (s : string) (c : ascii) (t : string) :
  Validators.lstrip s = String c t → Validators.isspace c = false.
Proof.
  induction s as [|c' s IH]; simpl; [done|].
  destruct (Validators.isspace c') eqn:Hc; [done|]. by intros [= <- _].
Qed.

Lemma rstrip_empty (s : string) : Validators.rstrip s = "" ↔ all_space s = true.
Proof.
  induction s as [|c s IH]; simpl; [done|].
  destruct (Validators.rstrip s) as [|c' t].
  - destruct (Validators.isspace c); simpl; [tauto|]. split; discriminate.
  - split; [discriminate|]. rewrite andb_true_iff. intros [_ Hs].
    by apply IH in Hs.
Qed.

Lemma strip_empty (s : string) :
  str_truthy (Validators.strip s) = false ↔ all_space s = true.
Proof.
  unfold Validators.strip. rewrite <-lstrip_empty.
  destruct (Validators.lstrip s) as [|c t] eqn:Hl; [done|].
  apply lstrip_head in Hl. simpl. destruct (Validators.rstrip t); rewrite ?Hl; done.
Qed.

Lemma validate_label_problem (label : string) (existing : gset string) :
  Validators.validate_label label existing
  = match label_problem label (bool_decide (label ∈ existing)) with
    | Some err => (false, err)
    | None => (true, "")
    end.
Proof.
  unfold Validators.validate_label, label_problem.
  destruct label as [|c label]; [done|].
  rewrite decide_False by done. cbn [str_truthy negb].
  destruct (all_space (String c label)) eqn:Hsp.
  { by rewrite (proj2 (strip_empty _) Hsp). }
  destruct (str_truthy (Validators.strip (String c label))) eqn:Hst.
  2:{ apply strip_empty in Hst. congruence. }
  cbn [negb]. case_decide as Hlen.
  { by rewrite (proj2 (Nat.ltb_lt _ _) Hlen). }
  rewrite (proj2 (Nat.ltb_ge _ _)) by lia.
  destruct (bool_decide (String c label ∈ existing)) eqn:Hin;
    [|by rewrite andb_false_r].
  rewrite bool_decide_eq_true_2; [done|].
  apply bool_decide_eq_true in Hin. set_solver.
Qed.

Lemma valid_label_problem (label : string) :
  valid_label label ↔ label_problem label false = None.
Proof.
  unfold valid_label. rewrite validate_label_problem.
  rewrite bool_decide_eq_false_2 by set_solver.
  destruct (label_problem label false); split; congruence.
Qed.

Lemma label_problem_taken (label : string) (taken : bool) :
  label_problem label taken
  = match label_problem label false with
    | Some err => Some err
    | None => if taken then Some "Label already exists" else None
    end.
Proof. unfold label_problem. by repeat case_match. Qed.

(** ** [update_region_label] *)

Lemma rename_fresh_key self old_label new_label :
  store_inv self
  → new_label ∉ Validators.region_labels (RegionManager.validator self) ∖ {[old_label]}
  → new_label ∉ dict_keys (dict_del old_label (RegionManager.regions self)).
Proof.
  intros Hinv Hnotin. rewrite dict_keys_del_elem by apply Hinv. intros [Hk Hne].
  apply Hnotin. apply elem_of_difference.
  rewrite (inv_labels _ Hinv), elem_of_singleton. done.
Qed.

Lemma rename_problem self old_label new_label :
  store_inv self
  → Validators.validate_label new_label
      (Validators.region_labels (RegionManager.validator self) ∖ {[old_label]})
    = match label_problem new_label
              (bool_decide (new_label ∈ dict_keys (RegionManager.regions self)
                            ∧ new_label ≠ old_label)) with
      | Some err => (false, err)
      | None => (true, "")
      end.
Proof.
  intros Hinv. rewrite validate_label_problem.
  rewrite (bool_decide_ext _ (new_label ∈ dict_keys (RegionManager.regions self)
                              ∧ new_label ≠ old_label)); [done|].
  rewrite elem_of_difference, elem_of_singleton, (inv_labels _ Hinv). done.
Qed.

(** C6. [update_region_label] checks the new label against every label
    but the old one.  When the old label is absent or the new one is
    refused it returns the failure and the store is unchanged; otherwise
    the region moves to the new key, the label takes the place of the old
    one in [region_order], and a selection of the old label follows.
    Renaming a region to its own label succeeds and leaves the order,
    the selection, the validator and every lookup as they were. *)
Theorem C6_rename_is_atomic (self : RegionManager.RegionManager)
    (old_label new_label : string) :
  store_inv self
  → match (if bool_decide (old_label ∈ dict_keys (RegionManager.regions self))
           then label_problem new_label
                  (bool_decide (new_label ∈ dict_keys (RegionManager.regions self)
                                ∧ new_label ≠ old_label))
           else Some "Region not found") with
    | Some err =>
        RegionManager.update_region_label self old_label new_label
        = (self, Return (false, err))
    | None =>
        ∃ self' region index,
          RegionManager.update_region_label self old_label new_label
          = (self', Return (true, ""))
          ∧ dict_get old_label (RegionManager.regions self) = Some region
          ∧ RegionManager.region_order self !! index = Some old_label
          ∧ RegionManager.regions self'
            = dict_del old_label (RegionManager.regions self) ++ [(new_label, region)]
          ∧ RegionManager.region_order self'
            = <[index := new_label]> (RegionManager.region_order self)
          ∧ RegionManager.selected_region self'
            = (if decide (RegionManager.selected_region self = Some old_label)
               then Some new_label else RegionManager.selected_region self)
          ∧ Validators.region_labels (RegionManager.validator self')
            = Validators.region_labels (RegionManager.validator self)
                ∖ {[old_label]} ∪ {[new_label]}
    end
    ∧ (old_label ∈ dict_keys (RegionManager.regions self)
       → ∃ self',
           RegionManager.update_region_label self old_label old_label
           = (self', Return (true, ""))
           ∧ RegionManager.region_order self' = RegionManager.region_order self
           ∧ RegionManager.selected_region self' = RegionManager.selected_region self
           ∧ RegionManager.validator self' = RegionManager.validator self
           ∧ ∀ label, dict_get label (RegionManager.regions self')
                      = dict_get label (RegionManager.regions self)).
Proof.
  intros Hinv. split.
  - case_bool_decide as Hold; [|by apply update_region_label_missing].
    pose proof (rename_problem self old_label new_label Hinv) as Hv.
    destruct (label_problem new_label _) as [err|];
      [by apply update_region_label_rejected|].
    destruct (store_inv_lookup _ _ Hinv Hold) as (rd & i & Hrd & Hi).
    eexists _, rd, i.
    split; [by apply (update_region_label_accepted _ _ _ rd i)|]. simpl.
    split_and!; try done; [by apply list_index_Some|].
    apply dict_set_absent, rename_fresh_key; [done|].
    by apply validate_label_true in Hv as (_ & _ & ?).
  - intros Hold.
    destruct (store_inv_lookup _ _ Hinv Hold) as (rd & i & Hrd & Hi).
    assert (Validators.validate_label old_label
              (Validators.region_labels (RegionManager.validator self) ∖ {[old_label]})
            = (true, "")) as Hv.
    { apply validate_label_valid; [by apply (inv_valid _ Hinv)|].
      rewrite elem_of_difference, elem_of_singleton. tauto. }
    eexists. split; [by apply (update_region_label_accepted _ _ _ rd i)|]. simpl.
    split_and!.
    + apply list_insert_id. by apply list_index_Some.
    + by case_decide.
    + destruct (RegionManager.validator self) as [fp labels] eqn:Hval. simpl. f_equal.
      apply set_eq. intros x.
      rewrite elem_of_union, elem_of_difference, elem_of_singleton.
      split; [|destruct (decide (x = old_label)); tauto].
      intros [[? _]| ->]; [done|].
      apply (inv_labels _ Hinv) in Hold. by rewrite Hval in Hold.
    + intros label. destruct (decide (label = old_label)) as [->|Hne].
      * by rewrite dict_get_set_eq.
      * by rewrite dict_get_set_ne, dict_get_del_ne.
Qed.

(** ** Coordinate conversions *)

Lemma py_div_nonzero (x y : Qc) : y ≠ 0 → py_div x y = Return (x / y).
Proof. intros Hy. unfold py_div. by rewrite decide_False. Qed.

Lemma py_div_zero (x : Qc) : py_div x 0 = Raise ZeroDivisionError.
Proof. done. Qed.

Lemma image_to_pdf_coords_degenerate tr (img_x img_y : Qc) :
  CoordinateUtils.zoom tr * CoordinateUtils.scale tr = 0
  → CoordinateUtils.image_to_pdf_coords tr img_x img_y = Return (0, 0).
Proof. intros Hf. unfold CoordinateUtils.image_to_pdf_coords. by rewrite decide_True. Qed.

Lemma image_to_pdf_coords_regular tr (img_x img_y : Qc) :
  CoordinateUtils.zoom tr * CoordinateUtils.scale tr ≠ 0
  → CoordinateUtils.image_to_pdf_coords tr img_x img_y
    = Return (img_x / (CoordinateUtils.zoom tr * CoordinateUtils.scale tr),
              img_y / (CoordinateUtils.zoom tr * CoordinateUtils.scale tr)).
Proof.
  intros Hf. unfold CoordinateUtils.image_to_pdf_coords.
  rewrite decide_False by done. by rewrite !py_div_nonzero.
Qed.

(** The point conversions return for every transformer state. *)
Lemma image_to_pdf_coords_returns tr (img_x img_y : Qc) :
  ∃ p, CoordinateUtils.image_to_pdf_coords tr img_x img_y = Return p.
Proof.
  destruct (decide (CoordinateUtils.zoom tr * CoordinateUtils.scale tr = 0)) as [Hf|Hf].
  - rewrite image_to_pdf_coords_degenerate by done. eauto.
  - rewrite image_to_pdf_coords_regular by done. eauto.
Qed.

Lemma canvas_to_pdf_coords_returns tr (canvas_x canvas_y : Qc) :
  ∃ p, CoordinateUtils.canvas_to_pdf_coords tr canvas_x canvas_y = Return p.
Proof. unfold CoordinateUtils.canvas_to_pdf_coords. simpl. apply image_to_pdf_coords_returns. Qed.

Lemma canvas_to_pdf_coords_regular tr (canvas_x canvas_y : Qc) :
  CoordinateUtils.zoom tr * CoordinateUtils.scale tr ≠ 0
  → CoordinateUtils.canvas_to_pdf_coords tr canvas_x canvas_y
    = Return ((canvas_x - CoordinateUtils.offset_x tr)
              / (CoordinateUtils.zoom tr * CoordinateUtils.scale tr),
              (canvas_y - CoordinateUtils.offset_y tr)
              / (CoordinateUtils.zoom tr * CoordinateUtils.scale tr)).
Proof.
  intros Hf. unfold CoordinateUtils.canvas_to_pdf_coords. simpl.
  by apply image_to_pdf_coords_regular.
Qed.

Lemma canvas_to_pdf_delta_regular tr (dx dy : Qc) :
  CoordinateUtils.scale tr ≠ 0
  → CoordinateUtils.canvas_to_pdf_delta tr dx dy
    = Return (dx / CoordinateUtils.scale tr, dy / CoordinateUtils.scale tr).
Proof.
  intros Hs. unfold CoordinateUtils.canvas_to_pdf_delta. by rewrite !py_div_nonzero.
Qed.

(** With a zero [scale] the delta conversion divides by zero, whatever
    the delta. *)
Lemma canvas_to_pdf_delta_zero_scale tr (dx dy : Qc) :
  CoordinateUtils.scale tr = 0
  → CoordinateUtils.canvas_to_pdf_delta tr dx dy = Raise ZeroDivisionError.
Proof. intros Hs. unfold CoordinateUtils.canvas_to_pdf_delta. by rewrite Hs. Qed.

(** C5. On the transformer [zoom = 2, scale = 0] the delta conversion
    [canvas_to_pdf_delta(1, 1)] raises [ZeroDivisionError], while
    [image_to_pdf_coords] on the same transformer returns [(0, 0)]. *)
Theorem C5_canvas_to_pdf_delta_raises :
  let tr := CoordinateUtils.set_transform_params CoordinateUtils.init 2 0 0 0 in
  CoordinateUtils.canvas_to_pdf_delta tr 1 1 = Raise ZeroDivisionError
  ∧ CoordinateUtils.image_to_pdf_coords tr 1 1 = Return (0, 0).
Proof. done. Qed.

(** C7. When [zoom * scale] is not zero, converting a document point to
    image space and back gives the point again. *)
Theorem C7_pdf_image_round_trip (tr : CoordinateUtils.CoordinateTransformer)
    (pdf_x pdf_y : Qc) :
  CoordinateUtils.zoom tr * CoordinateUtils.scale tr ≠ 0
  → let '(img_x, img_y) := CoordinateUtils.pdf_to_image_coords tr pdf_x pdf_y in
    CoordinateUtils.image_to_pdf_coords tr img_x img_y = Return (pdf_x, pdf_y).
Proof.
  intros Hf. simpl. rewrite image_to_pdf_coords_regular by done.
  generalize dependent (CoordinateUtils.zoom tr * CoordinateUtils.scale tr).
  intros f Hf. f_equal. f_equal; field; exact Hf.
Qed.

(** ** Resizing and moving by dragging *)

Lemma py_min_comm (x y : Qc) : py_min x y = py_min y x.
Proof.
  destruct (Qclt_le_dec y x) as [Hlt|Hle].
  - rewrite (py_min_ge x y), (py_min_le y x); [done| |done]. by apply Qclt_le_weak.
  - rewrite (py_min_le x y) by done.
    destruct (Qclt_le_dec x y) as [Hlt|Hle']; [by rewrite py_min_ge|].
    rewrite py_min_le by done. by apply Qcle_antisym.
Qed.

Lemma py_max_comm (x y : Qc) : py_max x y = py_max y x.
Proof.
  destruct (Qclt_le_dec y x) as [Hlt|Hle].
  - rewrite (py_max_ge x y), (py_max_le y x); [done| |done]. by apply Qclt_le_weak.
  - rewrite (py_max_le x y) by done.
    destruct (Qclt_le_dec x y) as [Hlt|Hle']; [by rewrite py_max_ge|].
    rewrite py_max_le by done. by apply Qcle_antisym.
Qed.

Lemma span_normalized (p q : Qc * Qc) : normalized (span p q).
Proof. split; apply py_min_le_py_max. Qed.

Lemma valid_label_nonempty (label : string) : valid_label label → str_truthy label = true.
Proof. by destruct label. Qed.

Lemma update_region_coords_found tr rm label c canvas region :
  dict_get label (RegionManager.regions rm) = Some region
  → ∃ canvas',
      RegionManager.update_region_coords tr rm label c (Some canvas)
      = (with_coords rm label (CoordinateUtils.normalize_coords c)
           (RegionManager.rect_id region), Some canvas', true).
Proof.
  intros Hget. unfold RegionManager.update_region_coords, with_coords. rewrite Hget.
  destruct (CoordinateUtils.normalize_coords c) as [[[x0 y0] x1] y1].
  destruct (RegionManager.rect_id region) as [[|n]|]; eauto.
Qed.

Lemma with_coords_lookup rm label c rect_id :
  dict_get label (RegionManager.regions (with_coords rm label c rect_id))
  = Some (RegionManager.mkRegionData c rect_id).
Proof. apply dict_get_set_eq. Qed.

Lemma with_coords_coords_of rm label c rect_id :
  coords_of (with_coords rm label c rect_id) label = Some c.
Proof. unfold coords_of. by rewrite with_coords_lookup. Qed.

(** The box [update_resize] builds is the box spanned by the pointer and
    the opposite corner. *)
Lemma resized_coords_span corner original anchor (px py : Qc) :
  opposite_corner corner original = Some anchor
  → ∃ new_coords,
      ResizeTool.resized_coords (Some corner) original px py = Some new_coords
      ∧ CoordinateUtils.normalize_coords new_coords = span (px, py) anchor.
Proof.
  destruct original as [[[ox0 oy0] ox1] oy1].
  unfold opposite_corner, ResizeTool.resized_coords, span.
  destruct (decide (corner = "top-left")) as [->|Hne1].
  { intros [= <-]. rewrite decide_True by done. eauto. }
  rewrite (decide_False (P := Some corner = Some "top-left")) by congruence.
  destruct (decide (corner = "top-right")) as [->|Hne2].
  { intros [= <-]. rewrite decide_True by done. eexists. split; [done|]. simpl.
    unfold CoordinateUtils.normalize_rect.
    by rewrite (py_min_comm ox0), (py_max_comm ox0). }
  rewrite (decide_False (P := Some corner = Some "top-right")) by congruence.
  destruct (decide (corner = "bottom-left")) as [->|Hne3].
  { intros [= <-]. rewrite decide_True by done. eexists. split; [done|]. simpl.
    unfold CoordinateUtils.normalize_rect.
    by rewrite (py_min_comm oy0), (py_max_comm oy0). }
  rewrite (decide_False (P := Some corner = Some "bottom-left")) by congruence.
  destruct (decide (corner = "bottom-right")) as [->|Hne4]; [|done].
  intros [= <-]. rewrite decide_True by done. eexists. split; [done|]. simpl.
  unfold CoordinateUtils.normalize_rect.
  by rewrite (py_min_comm ox0), (py_max_comm ox0), (py_min_comm oy0), (py_max_comm oy0).
Qed.

Lemma opposite_corner_known corner original anchor :
  opposite_corner corner original = Some anchor → corner ∈ Settings.RESIZE_CORNERS.
Proof.
  destruct original as [[[ox0 oy0] ox1] oy1]. unfold opposite_corner, Settings.RESIZE_CORNERS.
  repeat (case_decide; [subst; intros _; set_solver|]). done.
Qed.

Lemma start_resize_started tool0 rm canvas label corner (x y : Qc) region :
  dict_get label (RegionManager.regions rm) = Some region
  → corner ∈ Settings.RESIZE_CORNERS
  → ∃ tool canvas',
      ResizeTool.start_resize tool0 rm canvas label corner x y = (tool, canvas', true)
      ∧ resizing tool label corner (RegionManager.coords region).
Proof.
  intros Hget Hcorner. unfold ResizeTool.start_resize. rewrite Hget.
  rewrite bool_decide_eq_true_2 by done. simpl. eexists _, _. split; [done|].
  by repeat split.
Qed.

Lemma update_resize_resizing tool tr rm canvas (x y px py : Qc)
    label corner original anchor region :
  resizing tool label corner original
  → str_truthy label = true
  → opposite_corner corner original = Some anchor
  → dict_get label (RegionManager.regions rm) = Some region
  → CoordinateUtils.canvas_to_pdf_coords tr x y = Return (px, py)
  → ∃ canvas',
      ResizeTool.update_resize tool tr rm canvas x y
      = (with_coords rm label (span (px, py) anchor) (RegionManager.rect_id region),
         canvas', Return true).
Proof.
  intros (Hres & Hlabel & Hcorner & Horig) Hne Hopp Hget Hpdf.
  unfold ResizeTool.update_resize. rewrite Hres, Hlabel, Horig, Hcorner, Hpdf. simpl.
  rewrite Hne. simpl.
  destruct (resized_coords_span _ _ _ px py Hopp) as (new_coords & -> & Hspan).
  destruct (update_region_coords_found tr rm label new_coords canvas region Hget)
    as [canvas' ->].
  rewrite Hspan. eauto.
Qed.

Lemma drag_resizing tool tr label corner original anchor
    (points : list (Qc * Qc)) (x y px py : Qc) :
  resizing tool label corner original
  → str_truthy label = true
  → opposite_corner corner original = Some anchor
  → CoordinateUtils.canvas_to_pdf_coords tr x y = Return (px, py)
  → ∀ rm canvas region,
      dict_get label (RegionManager.regions rm) = Some region
      → ∃ rm' canvas',
          drag tool tr rm canvas (points ++ [(x, y)]) = (rm', canvas', Return tt)
          ∧ coords_of rm' label = Some (span (px, py) anchor)
          ∧ RegionManager.region_order rm' = RegionManager.region_order rm
          ∧ dict_keys (RegionManager.regions rm') = dict_keys (RegionManager.regions rm).
Proof.
  intros Hres Hne Hopp Hpdf.
  assert (∀ rm canvas region (qx qy qpx qpy : Qc),
            dict_get label (RegionManager.regions rm) = Some region
            → CoordinateUtils.canvas_to_pdf_coords tr qx qy = Return (qpx, qpy)
            → ∃ canvas',
                ResizeTool.handle_mouse_drag tool tr rm canvas qx qy
                = (with_coords rm label (span (qpx, qpy) anchor)
                     (RegionManager.rect_id region), canvas', Return tt)) as Hstep.
  { intros rm canvas region qx qy qpx qpy Hget Hq.
    unfold ResizeTool.handle_mouse_drag. rewrite (proj1 Hres).
    destruct (update_resize_resizing _ _ _ canvas _ _ _ _ _ _ _ _ _ Hres Hne Hopp Hget Hq)
      as [canvas' ->]. eauto. }
  induction points as [|[qx qy] points IH]; intros rm canvas region Hget; simpl.
  - destruct (Hstep rm canvas region x y px py Hget Hpdf) as [canvas' ->].
    eexists _, _. split; [done|]. rewrite with_coords_coords_of. split_and!; [done..|].
    simpl. apply dict_keys_set_present, dict_get_is_Some. eauto.
  - destruct (canvas_to_pdf_coords_returns tr qx qy) as [[qpx qpy] Hq].
    destruct (Hstep rm canvas region qx qy qpx qpy Hget Hq) as [canvas1 ->].
    destruct (IH _ canvas1 _
                (with_coords_lookup rm label (span (qpx, qpy) anchor)
                   (RegionManager.rect_id region)))
      as (rm' & canvas' & -> & Hc & Ho & Hk).
    eexists _, _. split; [done|]. split_and!; [done..|].
    rewrite Hk. simpl. apply dict_keys_set_present, dict_get_is_Some. eauto.
Qed.

Lemma coords_of_lookup rm label c :
  coords_of rm label = Some c
  → ∃ region, dict_get label (RegionManager.regions rm) = Some region
              ∧ RegionManager.coords region = c.
Proof.
  unfold coords_of. destruct (dict_get label _) as [region|]; [|done].
  intros [= <-]. eauto.
Qed.

Lemma store_inv_label_truthy rm label region :
  store_inv rm → dict_get label (RegionManager.regions rm) = Some region
  → str_truthy label = true.
Proof.
  intros Hinv Hget. apply valid_label_nonempty, (inv_valid _ Hinv).
  apply dict_get_is_Some. eauto.
Qed.

(** C8. While a corner is dragged, whatever the earlier motion events,
    the stored box is the normalized box spanned by the pointer's
    document position and the corner opposite to the dragged one in the
    coordinates captured at the press.  Dragging the bottom-right corner
    of [(0,0,10,10)] to [(15,20)] stores [(0,0,15,20)], and to [(-5,-5)]
    stores [(-5,-5,0,0)]. *)
Theorem C8_resize_spans_pointer_and_opposite_corner
    (tr : CoordinateUtils.CoordinateTransformer) (rm : RegionManager.RegionManager)
    (canvas : Tk.Canvas) (tool0 : ResizeTool.ResizeTool) (label corner : string)
    (press_x press_y : Qc) (original : Rect) (anchor : Qc * Qc)
    (points : list (Qc * Qc)) (x y px py : Qc) :
  store_inv rm
  → coords_of rm label = Some original
  → opposite_corner corner original = Some anchor
  → CoordinateUtils.canvas_to_pdf_coords tr x y = Return (px, py)
  → ∃ tool canvas0 rm' canvas',
      ResizeTool.start_resize tool0 rm canvas label corner press_x press_y
      = (tool, canvas0, true)
      ∧ ResizeTool.original_coords tool = Some original
      ∧ drag tool tr rm canvas0 (points ++ [(x, y)]) = (rm', canvas', Return tt)
      ∧ coords_of rm' label = Some (span (px, py) anchor)
      ∧ normalized (span (px, py) anchor)
      ∧ (corner = "bottom-right" → original = rect_of_Z 0 0 10 10
         → (px, py) = (Qc_of_Z 15, Qc_of_Z 20)
         → coords_of rm' label = Some (rect_of_Z 0 0 15 20))
      ∧ (corner = "bottom-right" → original = rect_of_Z 0 0 10 10
         → (px, py) = (Qc_of_Z (-5), Qc_of_Z (-5))
         → coords_of rm' label = Some (rect_of_Z (-5) (-5) 0 0)).
Proof.
  intros Hinv Hcoords Hopp Hpdf.
  destruct (coords_of_lookup _ _ _ Hcoords) as (region & Hget & Hreg).
  destruct (start_resize_started tool0 rm canvas label corner press_x press_y region
              Hget (opposite_corner_known _ _ _ Hopp)) as (tool & canvas0 & Hstart & Hres).
  rewrite Hreg in Hres.
  destruct (drag_resizing tool tr label corner original anchor points x y px py Hres
              (store_inv_label_truthy _ _ _ Hinv Hget) Hopp Hpdf rm canvas0 region Hget)
    as (rm' & canvas' & Hdrag & Hc & _).
  exists tool, canvas0, rm', canvas'.
  split_and!; [done|apply Hres|done|done|apply span_normalized| |].
  - intros -> -> [= -> ->]. rewrite Hc. by injection Hopp as <-.
  - intros -> -> [= -> ->]. rewrite Hc. by injection Hopp as <-.
Qed.

Lemma translate_normalized (c : Rect) (dx dy : Qc) :
  normalized c → normalized (translate c dx dy).
Proof.
  destruct c as [[[x0 y0] x1] y1]. intros [Hx Hy].
  split; by apply Qcplus_le_mono_r.
Qed.

Lemma translate_size (c : Rect) (dx dy : Qc) :
  width (translate c dx dy) = width c ∧ height (translate c dx dy) = height c.
Proof. destruct c as [[[x0 y0] x1] y1]. simpl. split; ring. Qed.

Lemma moved_corner_to_pdf tr (pdf_x pdf_y dx dy : Qc) :
  CoordinateUtils.zoom tr * CoordinateUtils.scale tr ≠ 0
  → CoordinateUtils.canvas_to_pdf_coords tr
      ((CoordinateUtils.pdf_to_canvas_coords tr pdf_x pdf_y).1 + dx)
      ((CoordinateUtils.pdf_to_canvas_coords tr pdf_x pdf_y).2 + dy)
    = Return (pdf_x + dx / (CoordinateUtils.zoom tr * CoordinateUtils.scale tr),
              pdf_y + dy / (CoordinateUtils.zoom tr * CoordinateUtils.scale tr)).
Proof.
  intros Hf. rewrite canvas_to_pdf_coords_regular by done. simpl.
  generalize dependent (CoordinateUtils.zoom tr * CoordinateUtils.scale tr).
  intros f Hf. f_equal. f_equal; field; exact Hf.
Qed.

Lemma start_move_started tool0 tr rm canvas label (x y : Qc) region :
  dict_get label (RegionManager.regions rm) = Some region
  → ∃ tool canvas',
      ResizeTool.start_move tool0 tr rm canvas label x y = (tool, canvas', true)
      ∧ moving tool label (x, y)
          (let '(x0, y0, x1, y1) := RegionManager.coords region in
           (CoordinateUtils.pdf_to_canvas_coords tr x0 y0,
            CoordinateUtils.pdf_to_canvas_coords tr x1 y1))
      ∧ ResizeTool.original_coords_move_pdf tool = Some (RegionManager.coords region).
Proof.
  intros Hget. unfold ResizeTool.start_move. rewrite Hget.
  destruct (RegionManager.coords region) as [[[x0 y0] x1] y1].
  eexists _, _. split; [done|]. by repeat split.
Qed.

Lemma update_move_moving tool tr rm canvas (x y press_x press_y : Qc)
    label original region :
  CoordinateUtils.zoom tr * CoordinateUtils.scale tr ≠ 0
  → normalized original
  → moving tool label (press_x, press_y)
      (let '(x0, y0, x1, y1) := original in
       (CoordinateUtils.pdf_to_canvas_coords tr x0 y0,
        CoordinateUtils.pdf_to_canvas_coords tr x1 y1))
  → str_truthy label = true
  → dict_get label (RegionManager.regions rm) = Some region
  → ∃ canvas',
      ResizeTool.update_move tool tr rm canvas x y
      = (with_coords rm label
           (translate original
              ((x - press_x) / (CoordinateUtils.zoom tr * CoordinateUtils.scale tr))
              ((y - press_y) / (CoordinateUtils.zoom tr * CoordinateUtils.scale tr)))
           (RegionManager.rect_id region),
         canvas', Return true).
Proof.
  intros Hf Hnorm (Hmov & Hlabel & Hstart & Hcorners) Hne Hget.
  destruct original as [[[x0 y0] x1] y1].
  unfold ResizeTool.update_move. rewrite Hmov, Hlabel, Hstart, Hcorners. simpl.
  rewrite Hne. cbn [negb orb].
  pose proof (moved_corner_to_pdf tr x0 y0 (x - press_x) (y - press_y) Hf) as H0.
  pose proof (moved_corner_to_pdf tr x1 y1 (x - press_x) (y - press_y) Hf) as H1.
  simpl in H0, H1. rewrite H0, H1.
  destruct (update_region_coords_found tr rm label
              (x0 + (x - press_x) / (CoordinateUtils.zoom tr * CoordinateUtils.scale tr),
               y0 + (y - press_y) / (CoordinateUtils.zoom tr * CoordinateUtils.scale tr),
               x1 + (x - press_x) / (CoordinateUtils.zoom tr * CoordinateUtils.scale tr),
               y1 + (y - press_y) / (CoordinateUtils.zoom tr * CoordinateUtils.scale tr))
              canvas region Hget) as [canvas' Hupd].
  rewrite Hupd. simpl. eexists. do 2 f_equal.
  f_equal. apply (normalize_coords_fixed (translate (x0, y0, x1, y1) _ _)).
  by apply translate_normalized.
Qed.

Lemma move_drag_moving tool tr label original (press_x press_y : Qc)
    (points : list (Qc * Qc)) (x y : Qc) :
  CoordinateUtils.zoom tr * CoordinateUtils.scale tr ≠ 0
  → normalized original
  → moving tool label (press_x, press_y)
      (let '(x0, y0, x1, y1) := original in
       (CoordinateUtils.pdf_to_canvas_coords tr x0 y0,
        CoordinateUtils.pdf_to_canvas_coords tr x1 y1))
  → str_truthy label = true
  → ∀ rm canvas region,
      dict_get label (RegionManager.regions rm) = Some region
      → ∃ rm' canvas',
          move_drag tool tr rm canvas (points ++ [(x, y)]) = (rm', canvas', Return tt)
          ∧ coords_of rm' label
            = Some (translate original
                      ((x - press_x) / (CoordinateUtils.zoom tr * CoordinateUtils.scale tr))
                      ((y - press_y) / (CoordinateUtils.zoom tr * CoordinateUtils.scale tr)))
          ∧ RegionManager.region_order rm' = RegionManager.region_order rm
          ∧ dict_keys (RegionManager.regions rm') = dict_keys (RegionManager.regions rm).
Proof.
  intros Hf Hnorm Hmov Hne.
  induction points as [|[qx qy] points IH]; intros rm canvas region Hget; simpl.
  - destruct (update_move_moving tool tr rm canvas x y press_x press_y label
                original region Hf Hnorm Hmov Hne Hget) as [canvas' ->].
    eexists _, _. split; [done|]. rewrite with_coords_coords_of. split_and!; [done..|].
    simpl. apply dict_keys_set_present, dict_get_is_Some. eauto.
  - destruct (update_move_moving tool tr rm canvas qx qy press_x press_y label
                original region Hf Hnorm Hmov Hne Hget) as [canvas1 ->].
    destruct (IH _ canvas1 _
                (with_coords_lookup rm label
                   (translate original
                      ((qx - press_x)
                       / (CoordinateUtils.zoom tr * CoordinateUtils.scale tr))
                      ((qy - press_y)
                       / (CoordinateUtils.zoom tr * CoordinateUtils.scale tr)))
                   (RegionManager.rect_id region)))
      as (rm' & canvas' & -> & Hc & Ho & Hk).
    eexists _, _. split; [done|]. split_and!; [done..|].
    rewrite Hk. simpl. apply dict_keys_set_present, dict_get_is_Some. eauto.
Qed.

(** While no resize is in progress, a motion event is one call of
    [update_move]. *)
Lemma handle_mouse_drag_moves tool tr rm canvas (x y : Qc) :
  ResizeTool.is_resizing tool = false
  → ResizeTool.is_moving tool = true
  → ResizeTool.handle_mouse_drag tool tr rm canvas x y
    = let '(rm', canvas', r) := ResizeTool.update_move tool tr rm canvas x y in
      (rm', canvas', r ≫= λ _, Return tt).
Proof. intros Hidle Hmoving. unfold ResizeTool.handle_mouse_drag. by rewrite Hidle, Hmoving. Qed.

(** C10. With [zoom * scale] not zero, after a press that starts a move
    and any run of [update_move] calls, the region holds the box captured
    at the press translated by the pointer's total canvas displacement
    divided by [zoom * scale]; its width and height are those of the
    captured box. *)
Theorem C10_move_translates_and_keeps_size
    (tr : CoordinateUtils.CoordinateTransformer) (rm : RegionManager.RegionManager)
    (canvas : Tk.Canvas) (tool0 : ResizeTool.ResizeTool) (label : string)
    (press_x press_y : Qc) (original : Rect) (points : list (Qc * Qc)) (x y : Qc) :
  CoordinateUtils.zoom tr * CoordinateUtils.scale tr ≠ 0
  → store_inv rm
  → coords_of rm label = Some original
  → ∃ tool canvas0 rm' canvas' moved,
      ResizeTool.start_move tool0 tr rm canvas label press_x press_y
      = (tool, canvas0, true)
      ∧ ResizeTool.original_coords_move_pdf tool = Some original
      ∧ move_drag tool tr rm canvas0 (points ++ [(x, y)]) = (rm', canvas', Return tt)
      ∧ coords_of rm' label = Some moved
      ∧ moved
        = translate original
            ((x - press_x) / (CoordinateUtils.zoom tr * CoordinateUtils.scale tr))
            ((y - press_y) / (CoordinateUtils.zoom tr * CoordinateUtils.scale tr))
      ∧ width moved = width original
      ∧ height moved = height original.
Proof.
  intros Hf Hinv Hcoords.
  destruct (coords_of_lookup _ _ _ Hcoords) as (region & Hget & Hreg).
  destruct (start_move_started tool0 tr rm canvas label press_x press_y region Hget)
    as (tool & canvas0 & Hstart & Hmov & Hpdf).
  rewrite Hreg in Hmov, Hpdf.
  assert (normalized original) as Hnorm.
  { apply normalized_fixed_iff. rewrite <-Hreg.
    apply (inv_normalized _ Hinv label). by apply dict_get_Some_elem. }
  destruct (move_drag_moving tool tr label original press_x press_y points x y Hf Hnorm
              Hmov (store_inv_label_truthy _ _ _ Hinv Hget) rm canvas0 region Hget)
    as (rm' & canvas' & Hdrag & Hc & _).
  eexists tool, canvas0, rm', canvas', _.
  split_and!; [done|done|done|exact Hc|done|apply translate_size..].
Qed.

(** ** Press dispatch in resize mode *)

Lemma find_first_match {A} (P : A → bool) (l : list A) :
  match List.find P l with
  | Some x => first_match P l x
  | None => no_match P l
  end.
Proof.
  induction l as [|a l IH]; simpl.
  - intros y Hy. by apply elem_of_nil in Hy.
  - destruct (P a) eqn:Ha.
    + exists [], l. split_and!; [done| |done]. intros y Hy. by apply elem_of_nil in Hy.
    + destruct (List.find P l) as [x|].
      * destruct IH as (before & after & -> & Hbefore & Hx).
        exists (a :: before), after. split_and!; [done| |done].
        intros y Hy. apply elem_of_cons in Hy as [->|Hy]; auto.
      * intros y Hy. apply elem_of_cons in Hy as [->|Hy]; auto.
Qed.

Lemma first_match_cons {A} (P : A → bool) (a : A) (l : list A) (x : A) :
  P a = false → first_match P l x → first_match P (a :: l) x.
Proof.
  intros Ha (before & after & -> & Hbefore & Hx).
  exists (a :: before), after. split_and!; [done| |done].
  intros y Hy. apply elem_of_cons in Hy as [->|Hy]; auto.
Qed.

Lemma first_match_here {A} (P : A → bool) (a : A) (l : list A) :
  P a = true → first_match P (a :: l) a.
Proof.
  intros Ha. exists [], l. split_and!; [done| |done].
  intros y Hy. by apply elem_of_nil in Hy.
Qed.

Lemma no_match_cons {A} (P : A → bool) (a : A) (l : list A) :
  P a = false → no_match P l → no_match P (a :: l).
Proof. intros Ha Hl y Hy. apply elem_of_cons in Hy as [->|Hy]; auto. Qed.

Lemma find_existsb {A} (P : A → bool) (l : list A) :
  existsb P l = bool_decide (is_Some (List.find P l)).
Proof.
  induction l as [|a l IH]; simpl; [done|].
  by destruct (P a).
Qed.

Lemma corners_of_names tr (c : Rect) :
  (ResizeTool.corners_of tr c).*1 = Settings.RESIZE_CORNERS.
Proof. by destruct c as [[[x0 y0] x1] y1]. Qed.

Lemma near_corner_named tr (c : Rect) (x y : Qc) corner pt :
  List.find (ResizeTool.near_corner x y) (ResizeTool.corners_of tr c) = Some (corner, pt)
  → corner ∈ Settings.RESIZE_CORNERS.
Proof.
  intros Hfind. rewrite <-(corners_of_names tr c).
  apply list_elem_of_fmap. exists (corner, pt). split; [done|].
  apply list_elem_of_In. by apply find_some in Hfind as [? _].
Qed.

Lemma resize_corner_truthy corner :
  corner ∈ Settings.RESIZE_CORNERS → str_truthy corner = true.
Proof.
  unfold Settings.RESIZE_CORNERS. rewrite !elem_of_cons, elem_of_nil.
  intros [->|[->|[->|[->|[]]]]]; done.
Qed.

Lemma find_corner_spec tr rm (x y : Qc) items :
  (∀ l r, (l, r) ∈ items → dict_get l (RegionManager.regions rm) = Some r)
  → match ResizeTool.find_corner tr rm x y items with
    | Some (label, corner) =>
        ∃ region pt,
          first_match (has_near_corner tr x y) items (label, region)
          ∧ first_match (ResizeTool.near_corner x y)
              (ResizeTool.corners_of tr (RegionManager.coords region)) (corner, pt)
    | None => no_match (has_near_corner tr x y) items
    end.
Proof.
  induction items as [|[l r] items IH]; intros Hitems; simpl.
  { intros y0 Hy. by apply elem_of_nil in Hy. }
  unfold ResizeTool.check_corner_proximity.
  rewrite (Hitems l r) by apply list_elem_of_here.
  pose proof (find_first_match (ResizeTool.near_corner x y)
                (ResizeTool.corners_of tr (RegionManager.coords r))) as Hfirst.
  assert (has_near_corner tr x y (l, r)
          = bool_decide (is_Some (List.find (ResizeTool.near_corner x y)
                                    (ResizeTool.corners_of tr (RegionManager.coords r)))))
    as Hnear by apply find_existsb.
  destruct (List.find _ _) as [[corner pt]|] eqn:Hfind; simpl.
  - rewrite (resize_corner_truthy corner) by by eapply near_corner_named.
    exists r, pt. split; [|done]. apply first_match_here.
    rewrite Hnear. by apply bool_decide_eq_true_2.
  - assert (has_near_corner tr x y (l, r) = false) as Hno.
    { rewrite Hnear. apply bool_decide_eq_false_2. by intros []. }
    specialize (IH (λ l' r' Hin, Hitems l' r' (list_elem_of_further _ _ _ Hin))).
    destruct (ResizeTool.find_corner tr rm x y items) as [[label corner]|].
    + destruct IH as (region & pt & Hfm & Hcorner). exists region, pt.
      split; [by apply first_match_cons|done].
    + by apply no_match_cons.
Qed.

Lemma find_containing_spec tr (x y : Qc) items :
  match ResizeTool.find_containing tr x y items with
  | Some label => ∃ region, first_match (holds_pointer tr x y) items (label, region)
  | None => no_match (holds_pointer tr x y) items
  end.
Proof.
  induction items as [|[l r] items IH]; simpl.
  { intros y0 Hy. by apply elem_of_nil in Hy. }
  assert (holds_pointer tr x y (l, r)
          = let '(x0, y0, x1, y1) := RegionManager.coords r in
            let '(cx0, cy0) := CoordinateUtils.pdf_to_canvas_coords tr x0 y0 in
            let '(cx1, cy1) := CoordinateUtils.pdf_to_canvas_coords tr x1 y1 in
            RegionManager.rect_contains (cx0, cy0, cx1, cy1) x y) as Hholds.
  { unfold holds_pointer, canvas_corners. simpl.
    by destruct (RegionManager.coords r) as [[[x0 y0] x1] y1]. }
  destruct (RegionManager.coords r) as [[[x0 y0] x1] y1].
  simpl in Hholds |- *. rewrite <-Hholds.
  destruct (holds_pointer tr x y (l, r)) eqn:Hh.
  - exists r. by apply first_match_here.
  - destruct (ResizeTool.find_containing tr x y items) as [label|].
    + destruct IH as [region Hfm]. exists region. by apply first_match_cons.
    + by apply no_match_cons.
Qed.

Lemma first_match_elem {A} (P : A → bool) (l : list A) (x : A) :
  first_match P l x → x ∈ l.
Proof. intros (before & after & -> & _). apply elem_of_app. right. apply list_elem_of_here. Qed.

Lemma first_match_corner_named tr (c : Rect) (x y : Qc) corner pt :
  first_match (ResizeTool.near_corner x y) (ResizeTool.corners_of tr c) (corner, pt)
  → corner ∈ Settings.RESIZE_CORNERS.
Proof.
  intros Hfm. rewrite <-(corners_of_names tr c).
  apply list_elem_of_fmap. exists (corner, pt). split; [done|].
  by eapply first_match_elem.
Qed.

Lemma handle_mouse_press_dispatch tool tr rm canvas (x y : Qc) :
  NoDup (dict_keys (RegionManager.regions rm))
  → let tool' := (ResizeTool.handle_mouse_press tool tr rm canvas x y).1 in
    (∃ label region corner pt,
       first_match (has_near_corner tr x y) (RegionManager.regions rm) (label, region)
       ∧ first_match (ResizeTool.near_corner x y)
           (ResizeTool.corners_of tr (RegionManager.coords region)) (corner, pt)
       ∧ resizing tool' label corner (RegionManager.coords region)
       ∧ ResizeTool.start_coords tool' = Some (x, y))
    ∨ (no_match (has_near_corner tr x y) (RegionManager.regions rm)
       ∧ ∃ label region,
           first_match (holds_pointer tr x y) (RegionManager.regions rm) (label, region)
           ∧ ResizeTool.is_moving tool' = true
           ∧ ResizeTool.move_region tool' = Some label
           ∧ ResizeTool.move_start_coords tool' = Some (x, y)
           ∧ ResizeTool.original_coords_move_pdf tool'
             = Some (RegionManager.coords region)
           ∧ ResizeTool.original_coords_move_canvas tool'
             = Some (canvas_corners tr (RegionManager.coords region)))
    ∨ (no_match (has_near_corner tr x y) (RegionManager.regions rm)
       ∧ no_match (holds_pointer tr x y) (RegionManager.regions rm)
       ∧ ResizeTool.handle_mouse_press tool tr rm canvas x y = (tool, canvas)).
Proof.
  intros Hnd. unfold ResizeTool.handle_mouse_press.
  pose proof (find_corner_spec tr rm x y (RegionManager.regions rm)
                (λ l r, dict_get_elem_nodup l r _ Hnd)) as Hcorner.
  destruct (ResizeTool.find_corner tr rm x y (RegionManager.regions rm))
    as [[label corner]|].
  { left. destruct Hcorner as (region & pt & Hfm & Hfc).
    exists label, region, corner, pt. split_and!; [done..| |].
    - destruct (start_resize_started tool rm canvas label corner x y region)
        as (tool' & canvas' & -> & Hres); [|by eapply first_match_corner_named|done].
      apply dict_get_elem_nodup; [done|]. by eapply first_match_elem.
    - unfold ResizeTool.start_resize.
      rewrite (dict_get_elem_nodup label region _ Hnd) by by eapply first_match_elem.
      rewrite bool_decide_eq_true_2 by by eapply first_match_corner_named. done. }
  right. pose proof (find_containing_spec tr x y (RegionManager.regions rm)) as Hcont.
  destruct (ResizeTool.find_containing tr x y (RegionManager.regions rm)) as [label|].
  - left. split; [done|]. destruct Hcont as [region Hfm]. exists label, region.
    split; [done|]. unfold ResizeTool.start_move, canvas_corners.
    rewrite (dict_get_elem_nodup label region _ Hnd) by by eapply first_match_elem.
    by destruct (RegionManager.coords region) as [[[x0 y0] x1] y1].
  - by right.
Qed.

(** C9 (as amended). A press in resize mode leaves the store and the
    selection tools untouched and does one of three things: (a) when some
    region has a corner near the pointer, it starts resizing the first
    such region of the [regions] dictionary by the first near corner in
    the order top-left, top-right, bottom-left, bottom-right, capturing
    the region's coordinates; (b) when no corner is near and some
    region's canvas box holds the pointer, it starts moving the first
    such region, capturing its coordinates in document and canvas space;
    (c) otherwise it changes nothing. *)
Theorem C9_press_dispatch_in_resize_mode (app : App.PDFExtractionApp) (x y : Qc)
    (reply : option string) :
  App.mode app = "resize"
  → store_inv (App.region_manager app)
  → let tr := App.coord_transformer app in
    let items := RegionManager.regions (App.region_manager app) in
    let app' := (App.on_mouse_press app x y reply).1 in
    (App.on_mouse_press app x y reply).2 = Return tt
    ∧ App.region_manager app' = App.region_manager app
    ∧ App.selection_tools app' = App.selection_tools app
    ∧ ((∃ label region corner pt,
          first_match (has_near_corner tr x y) items (label, region)
          ∧ first_match (ResizeTool.near_corner x y)
              (ResizeTool.corners_of tr (RegionManager.coords region)) (corner, pt)
          ∧ resizing (App.resize_tool app') label corner (RegionManager.coords region)
          ∧ ResizeTool.start_coords (App.resize_tool app') = Some (x, y))
       ∨ (no_match (has_near_corner tr x y) items
          ∧ ∃ label region,
              first_match (holds_pointer tr x y) items (label, region)
              ∧ ResizeTool.is_moving (App.resize_tool app') = true
              ∧ ResizeTool.move_region (App.resize_tool app') = Some label
              ∧ ResizeTool.move_start_coords (App.resize_tool app') = Some (x, y)
              ∧ ResizeTool.original_coords_move_pdf (App.resize_tool app')
                = Some (RegionManager.coords region)
              ∧ ResizeTool.original_coords_move_canvas (App.resize_tool app')
                = Some (canvas_corners tr (RegionManager.coords region)))
       ∨ (no_match (has_near_corner tr x y) items
          ∧ no_match (holds_pointer tr x y) items
          ∧ app' = app)).
Proof.
  intros Hmode Hinv tr items app'. subst tr items app'.
  unfold App.on_mouse_press. rewrite decide_True by done.
  pose proof (handle_mouse_press_dispatch (App.resize_tool app) (App.coord_transformer app)
                (App.region_manager app) (App.canvas app) x y (inv_keys_nodup _ Hinv))
    as Hdispatch.
  destruct (ResizeTool.handle_mouse_press _ _ _ _ x y) as [tool' canvas'].
  simpl in *. split_and!; [done..|].
  destruct Hdispatch as [Ha|[Hb|(Hno1 & Hno2 & [= -> ->])]]; [by left|by right; left|].
  right; right. split_and!; [done..|]. destruct app. simpl in *. by subst.
Qed.

(** C9 (as stated) fails: in resize mode a press at canvas point
    [(200, 200)], with the one region far away, matches neither a corner
    nor a box, and the application is left exactly as it was; had the
    press been forwarded to the active selection tool, the box tool would
    now be drawing. *)
Lemma C9_unmatched_press_is_not_forwarded :
  let app := resize_mode_app in
  let x := Qc_of_Z 200 in
  let y := Qc_of_Z 200 in
  let items := RegionManager.regions (App.region_manager app) in
  existsb (has_near_corner (App.coord_transformer app) x y) items = false
  ∧ existsb (holds_pointer (App.coord_transformer app) x y) items = false
  ∧ App.on_mouse_press app x y None = (app, Return tt)
  ∧ SelectionTools.is_drawing
      (SelectionTools.box_tool (App.selection_tools (press_forwarded app x y))) = true
  ∧ SelectionTools.is_drawing
      (SelectionTools.box_tool
         (App.selection_tools (App.on_mouse_press app x y None).1)) = false.
Proof. by vm_compute. Qed.

(** ** Loading a configuration file *)

Lemma unpack_coords_Return (tuple : list Json.coord) (c : Rect) :
  RegionManager.unpack_coords tuple = Return c
  ↔ tuple = [Json.CoordNum c.1.1.1; Json.CoordNum c.1.1.2;
             Json.CoordNum c.1.2; Json.CoordNum c.2].
Proof.
  destruct c as [[[x0 y0] x1] y1]. simpl. split; [|by intros ->].
  destruct tuple as [|[q0|] [|[q1|] [|[q2|] [|[q3|] [|? ?]]]]]; simpl; try done.
  by intros [= -> -> -> ->].
Qed.

Lemma entry_coords_Return (info : Json.region_value) (tuple : list Json.coord) :
  RegionManager.entry_coords info = Return tuple
  ↔ info = Json.RegionObject (Some (Json.CoordsArray tuple)).
Proof.
  split; [|by intros ->].
  destruct info as [[[l|]|]|]; simpl; try done. by intros [= ->].
Qed.

Lemma entry_exception_not_missing_file (info : Json.region_value) (e : py_exn) :
  RegionManager.entry_coords info = Raise e → e ≠ FileNotFoundError.
Proof. destruct info as [[[l|]|]|]; simpl; intros [= <-]; done. Qed.

Lemma unpack_exception_not_missing_file (tuple : list Json.coord) (e : py_exn) :
  RegionManager.unpack_coords tuple = Raise e → e ≠ FileNotFoundError.
Proof.
  destruct tuple as [|[q0|] [|[q1|] [|[q2|] [|[q3|] [|? ?]]]]]; simpl;
    intros [= <-]; done.
Qed.

Lemma well_formed_entry_intro regions_data label info tuple c :
  valid_label label
  → dict_get label regions_data = Some info
  → RegionManager.entry_coords info = Return tuple
  → RegionManager.unpack_coords tuple = Return c
  → well_formed_entry regions_data (Json.LabelStr label) = Some (label, c).
Proof.
  intros Hvalid Hget Hinfo Htuple. unfold well_formed_entry.
  rewrite bool_decide_eq_true_2, Hget by done.
  apply entry_coords_Return in Hinfo as ->.
  apply unpack_coords_Return in Htuple as ->.
  by destruct c as [[[x0 y0] x1] y1].
Qed.

Lemma well_formed_entry_inv regions_data label entry :
  well_formed_entry regions_data (Json.LabelStr label) = Some entry
  → entry.1 = label ∧ valid_label label
    ∧ ∃ info tuple,
        dict_get label regions_data = Some info
        ∧ RegionManager.entry_coords info = Return tuple
        ∧ RegionManager.unpack_coords tuple = Return entry.2.
Proof.
  unfold well_formed_entry. case_bool_decide as Hvalid; [|done].
  destruct (dict_get label regions_data) as [info|]; [|done].
  destruct info as [[[tuple|]|]|]; try done.
  destruct tuple as [|[q0|] [|[q1|] [|[q2|] [|[q3|] [|? ?]]]]]; try done.
  intros [= <-]. split_and!; [done..|]. by eexists _, _.
Qed.

Lemma well_formed_entry_invalid regions_data label :
  ¬ valid_label label → well_formed_entry regions_data (Json.LabelStr label) = None.
Proof. intros Hinv. unfold well_formed_entry. by rewrite bool_decide_eq_false_2. Qed.

Lemma well_formed_entry_unlisted regions_data label :
  dict_get label regions_data = None
  → well_formed_entry regions_data (Json.LabelStr label) = None.
Proof. intros Hget. unfold well_formed_entry. rewrite Hget. by case_bool_decide. Qed.

Lemma add_region_tuple_rejected tr self label tuple canvas msg :
  Validators.validate_label label
    (Validators.region_labels (RegionManager.validator self)) = (false, msg)
  → RegionManager.add_region_tuple tr self label tuple canvas
    = (self, canvas, Return (false, msg)).
Proof. intros Hv. unfold RegionManager.add_region_tuple. by rewrite Hv. Qed.

Lemma add_region_tuple_raises tr self label tuple canvas e :
  Validators.validate_label label
    (Validators.region_labels (RegionManager.validator self)) = (true, "")
  → RegionManager.unpack_coords tuple = Raise e
  → RegionManager.add_region_tuple tr self label tuple canvas = (self, canvas, Raise e).
Proof. intros Hv He. unfold RegionManager.add_region_tuple. by rewrite Hv, He. Qed.

Lemma add_region_tuple_accepted tr self label tuple canvas c :
  Validators.validate_label label
    (Validators.region_labels (RegionManager.validator self)) = (true, "")
  → RegionManager.unpack_coords tuple = Return c
  → RegionManager.add_region_tuple tr self label tuple canvas
    = (RegionManager.mkManager
         (Validators.mkValidator
            (Validators.file_paths (RegionManager.validator self))
            (Validators.region_labels (RegionManager.validator self) ∪ {[label]}))
         (dict_set label (drawn_region tr c canvas).2 (RegionManager.regions self))
         (RegionManager.region_order self ++ [label])
         (RegionManager.selected_region self),
       (drawn_region tr c canvas).1, Return (true, "")).
Proof.
  intros Hv Hc. unfold RegionManager.add_region_tuple. rewrite Hv, Hc. simpl.
  by rewrite (add_region_accepted _ _ _ _ _ Hv).
Qed.

Lemma has_malformed_false regions_data order :
  has_malformed regions_data order = false
  → before_malformed regions_data order = order.
Proof.
  unfold has_malformed. induction order as [|l order IH]; simpl; [done|].
  destruct (malformed_entry regions_data l); simpl; [done|].
  intros Hrest. by rewrite IH.
Qed.

#[local] Arguments well_formed_entry : simpl never.

Lemma restored_nil : restored [] [].
Proof. constructor. Qed.

Lemma omap_cons_unfold {A B} (f : A → option B) (x : A) (l : list A) :
  omap f (x :: l) = match f x with
                    | Some y => y :: omap f l
                    | None => omap f l
                    end.
Proof. done. Qed.

Lemma load_loop_spec tr regions_data order :
  ∀ self canvas loaded_count,
    store_inv self
    → (∀ s, s ∈ Validators.region_labels (RegionManager.validator self)
            → is_Some (well_formed_entry regions_data (Json.LabelStr s)))
    → ∃ self' canvas' items,
        let added :=
          first_occurrences (Validators.region_labels (RegionManager.validator self))
            (omap (well_formed_entry regions_data)
               (before_malformed regions_data order)) in
        let result :=
          RegionManager.load_loop tr regions_data order self canvas loaded_count in
        result.1 = (self', canvas')
        ∧ RegionManager.regions self' = RegionManager.regions self ++ items
        ∧ restored items added
        ∧ RegionManager.region_order self' = RegionManager.region_order self ++ added.*1
        ∧ RegionManager.selected_region self' = RegionManager.selected_region self
        ∧ if has_malformed regions_data order
          then ∃ e, result.2 = Raise e ∧ e ≠ FileNotFoundError
          else result.2 = Return (loaded_count + length added)%nat.
Proof.
  induction order as [|[label|] order IH]; intros self canvas n Hinv Hgood.
  - exists self, canvas, []. simpl. rewrite !app_nil_r, Nat.add_0_r.
    split_and!; try done. apply restored_nil.
  - (* a string label *)
    unfold has_malformed. simpl.
    destruct (dict_get label regions_data) as [info|] eqn:Hget.
    2:{ rewrite ?omap_cons_unfold, (well_formed_entry_unlisted _ _ Hget).
        apply (IH _ _ _ Hinv Hgood). }
    destruct (RegionManager.entry_coords info) as [tuple|e] eqn:Hinfo.
    2:{ exists self, canvas, []. simpl. rewrite !app_nil_r.
        split_and!; try done; [apply restored_nil|].
        exists e. split; [done|]. by eapply entry_exception_not_missing_file. }
    destruct (decide (valid_label label)) as [Hvalid|Hinvalid].
    2:{ rewrite (bool_decide_eq_false_2 _ Hinvalid). simpl.
        rewrite ?omap_cons_unfold, (well_formed_entry_invalid _ _ Hinvalid).
        destruct (validate_label_invalid label
          (Validators.region_labels (RegionManager.validator self)) Hinvalid) as [Heq Hno].
        destruct (Validators.validate_label label ∅) as [ok msg] eqn:Hv0.
        simpl in Hno. subst ok.
        rewrite (add_region_tuple_rejected _ _ _ _ _ msg Heq).
        apply (IH _ _ _ Hinv Hgood). }
    rewrite (bool_decide_eq_true_2 _ Hvalid). simpl.
    destruct (decide (label ∈ Validators.region_labels (RegionManager.validator self)))
      as [Hseen|Hnew].
    { (* a label that is already loaded *)
      destruct (Hgood _ Hseen) as [entry Hentry].
      destruct (well_formed_entry_inv _ _ _ Hentry)
        as (Hlabel & _ & info' & tuple' & Hget' & Hinfo' & Htuple').
      assert (tuple' = tuple) as -> by congruence.
      rewrite Htuple'. simpl. rewrite ?omap_cons_unfold, Hentry.
      rewrite (add_region_tuple_rejected _ _ _ _ _ _
                 (validate_label_taken _ _ Hvalid Hseen)).
      destruct entry as [lbl c]. simpl in Hlabel. subst lbl. simpl.
      rewrite (bool_decide_eq_true_2 _ Hseen). apply (IH _ _ _ Hinv Hgood). }
    pose proof (validate_label_valid _ _ Hvalid Hnew) as Hv.
    destruct (RegionManager.unpack_coords tuple) as [c|e] eqn:Htuple; simpl.
    2:{ rewrite (add_region_tuple_raises _ _ _ _ _ _ Hv Htuple).
        exists self, canvas, []. simpl. rewrite !app_nil_r.
        split_and!; try done; [apply restored_nil|].
        exists e. split; [done|]. by eapply unpack_exception_not_missing_file. }
    rewrite ?omap_cons_unfold, (well_formed_entry_intro _ _ _ _ _ Hvalid Hget Hinfo Htuple).
    simpl. rewrite (bool_decide_eq_false_2 _ Hnew).
    pose proof (add_region_tuple_inv tr self label tuple canvas Hinv) as Hinv1.
    rewrite (add_region_tuple_accepted _ _ _ _ _ _ Hv Htuple) in Hinv1 |- *.
    simpl in Hinv1.
    set (self1 := RegionManager.mkManager _ _ _ _) in *.
    destruct (IH self1 (drawn_region tr c canvas).1 (S n) Hinv1)
      as (self' & canvas' & items & Hres & Hregions & Hrestored & Horder & Hsel & Hout).
    { subst self1. simpl. intros s Hs. apply elem_of_union in Hs as [Hs|Hs]; [by apply Hgood|].
      apply elem_of_singleton in Hs as ->.
      by rewrite (well_formed_entry_intro _ _ _ _ _ Hvalid Hget Hinfo Htuple). }
    exists self', canvas', ((label, (drawn_region tr c canvas).2) :: items).
    subst self1. simpl in *. split_and!.
    + done.
    + rewrite Hregions, dict_set_absent, <-app_assoc; [done|].
      by rewrite <-(inv_labels _ Hinv).
    + constructor; [|done]. split; [done|]. apply drawn_region_coords.
    + by rewrite Horder, <-app_assoc.
    + done.
    + unfold has_malformed in Hout.
      destruct (existsb _ order); [done|]. rewrite Hout. f_equal.
      by rewrite Nat.add_succ_r.
  - (* a null label *)
    apply (IH _ _ _ Hinv Hgood).
Qed.

Lemma load_loop_from_cleared tr regions_data order
    (v : Validators.DuplicateValidator) canvas :
  let result :=
    RegionManager.load_loop tr regions_data order
      (RegionManager.mkManager (Validators.clear_labels v) [] [] None) canvas 0 in
  let loaded := restorable regions_data (before_malformed regions_data order) in
  RegionManager.region_order result.1.1 = loaded.*1
  ∧ restored (RegionManager.regions result.1.1) loaded
  ∧ RegionManager.selected_region result.1.1 = None
  ∧ if has_malformed regions_data order
    then ∃ e, result.2 = Raise e ∧ e ≠ FileNotFoundError
    else loaded = restorable regions_data order
         ∧ result.2 = Return (length loaded).
Proof.
  destruct (load_loop_spec tr regions_data order
              (RegionManager.mkManager (Validators.clear_labels v) [] [] None) canvas 0
              (store_inv_cleared v))
    as (self' & canvas' & items & Hres & Hregions & Hrestored & Horder & Hsel & Hout).
  { simpl. intros s Hs. by apply not_elem_of_empty in Hs. }
  simpl in *. rewrite Hres. simpl. unfold restorable.
  split_and!; [done|by rewrite Hregions|done|].
  destruct (has_malformed regions_data order) eqn:Hmal; [done|].
  split; [|done]. by rewrite (has_malformed_false _ _ Hmal).
Qed.

(** ** Saving and loading again *)

Lemma dict_get_saved (label : string) (d : list (string * RegionManager.RegionData)) :
  dict_get label (map (λ '(l, region), (l, RegionManager.to_dict region)) d)
  = RegionManager.to_dict <$> dict_get label d.
Proof.
  induction d as [|[l r] d IH]; simpl; [done|]. by case_decide.
Qed.

Lemma to_dict_unpacks (region : RegionManager.RegionData) :
  ∃ tuple, RegionManager.entry_coords (RegionManager.to_dict region) = Return tuple
           ∧ RegionManager.unpack_coords tuple = Return (RegionManager.coords region).
Proof.
  unfold RegionManager.to_dict.
  destruct (RegionManager.coords region) as [[[x0 y0] x1] y1]. by eexists.
Qed.

Lemma first_occurrences_nodup (seen : gset string) (l : list (string * Rect)) :
  NoDup l.*1 → (∀ x, x ∈ l.*1 → x ∉ seen) → first_occurrences seen l = l.
Proof.
  revert seen. induction l as [|[label c] l IH]; intros seen Hnd Hseen; simpl; [done|].
  simpl in Hnd. apply NoDup_cons in Hnd as [Hnotin Hnd].
  rewrite bool_decide_eq_false_2 by (apply Hseen; simpl; apply list_elem_of_here).
  f_equal. apply IH; [done|]. intros x Hx.
  rewrite elem_of_union, elem_of_singleton. intros [Hs| ->]; [|done].
  by apply (Hseen x); [apply list_elem_of_further|].
Qed.

(** The entries a store writes: each label of [region_order] with its
    box. *)
Lemma saved_entries self (labels : list string) :
  store_inv self
  → (∀ l, l ∈ labels → l ∈ dict_keys (RegionManager.regions self))
  → let regions_data :=
      map (λ '(l, region), (l, RegionManager.to_dict region)) (RegionManager.regions self) in
    ∃ entries,
      omap (well_formed_entry regions_data) (Json.LabelStr <$> labels) = entries
      ∧ entries.*1 = labels
      ∧ Forall (λ entry, coords_of self entry.1 = Some entry.2) entries
      ∧ has_malformed regions_data (Json.LabelStr <$> labels) = false.
Proof.
  intros Hinv. induction labels as [|l labels IH]; intros Hkeys regions_data.
  { by exists []. }
  destruct IH as (entries & Hentries & Hfst & Hcoords & Hmal).
  { intros l' Hl'. apply Hkeys. by apply list_elem_of_further. }
  assert (l ∈ dict_keys (RegionManager.regions self)) as Hl
    by apply Hkeys, list_elem_of_here.
  destruct (proj2 (dict_get_is_Some _ _) Hl) as [region Hget].
  destruct (to_dict_unpacks region) as (tuple & Hinfo & Htuple).
  assert (dict_get l regions_data = Some (RegionManager.to_dict region)) as Hsaved.
  { subst regions_data. by rewrite dict_get_saved, Hget. }
  pose proof (well_formed_entry_intro regions_data l _ _ _
                (inv_valid _ Hinv l Hl) Hsaved Hinfo Htuple) as Hwf.
  exists ((l, RegionManager.coords region) :: entries).
  rewrite fmap_cons, omap_cons_unfold, Hwf. fold regions_data. split_and!.
  - by rewrite <-Hentries.
  - by rewrite fmap_cons, Hfst.
  - constructor; [|done]. unfold coords_of. simpl. by rewrite Hget.
  - unfold has_malformed in *. cbn [existsb malformed_entry].
    rewrite Hsaved, Hinfo, Htuple. cbn [raises]. by rewrite andb_false_r.
Qed.

Lemma restored_keys items entries : restored items entries → dict_keys items = entries.*1.
Proof.
  unfold dict_keys. induction 1 as [|item entry items entries [Hk _] _ IH]; [done|].
  by rewrite !fmap_cons, Hk, IH.
Qed.

Lemma restored_elem items entries label c :
  restored items entries → (label, c) ∈ entries
  → ∃ region, (label, region) ∈ items
              ∧ RegionManager.coords region = CoordinateUtils.normalize_coords c.
Proof.
  induction 1 as [|[k region] entry items entries [Hk Hc] _ IH]; intros Hin.
  - by apply elem_of_nil in Hin.
  - apply elem_of_cons in Hin as [<-|Hin].
    + simpl in *. subst k. exists region. split; [apply list_elem_of_here|done].
    + destruct (IH Hin) as (region' & Hin' & Hc'). exists region'.
      split; [by apply list_elem_of_further|done].
Qed.

Lemma save_to_file_written exn_str self filename fs :
  (RegionManager.save_to_file exn_str self filename fs).2.1 = true
  → Files.files (RegionManager.save_to_file exn_str self filename fs).1 !! filename
    = Some (Files.JsonText (Json.Object
        {| Json.doc_regions :=
             Some (map (λ '(l, region), (l, RegionManager.to_dict region))
                     (RegionManager.regions self));
           Json.doc_order := Some (Json.LabelStr <$> RegionManager.region_order self) |})).
Proof.
  unfold RegionManager.save_to_file, Files.write_json.
  case_bool_decide; simpl; [done|]. intros _. apply lookup_insert_eq.
Qed.

Lemma load_saved_store tr self (v : Validators.DuplicateValidator) canvas :
  store_inv self
  → let result :=
      RegionManager.load_loop tr
        (map (λ '(l, region), (l, RegionManager.to_dict region))
           (RegionManager.regions self))
        (Json.LabelStr <$> RegionManager.region_order self)
        (RegionManager.mkManager (Validators.clear_labels v) [] [] None) canvas 0 in
    result.2 = Return (length (RegionManager.region_order self))
    ∧ RegionManager.region_order result.1.1 = RegionManager.region_order self
    ∧ dict_keys (RegionManager.regions result.1.1) = RegionManager.region_order self
    ∧ ∀ label, coords_of result.1.1 label = coords_of self label.
Proof.
  intros Hinv.
  destruct (saved_entries self (RegionManager.region_order self) Hinv)
    as (entries & Hentries & Hfst & Hcoords & Hmal).
  { intros l Hl. by rewrite <-(inv_order_perm _ Hinv). }
  pose proof (load_loop_from_cleared tr
                (map (λ '(l, region), (l, RegionManager.to_dict region))
                   (RegionManager.regions self))
                (Json.LabelStr <$> RegionManager.region_order self) v canvas) as Hloop.
  simpl in Hloop. rewrite Hmal in Hloop.
  destruct Hloop as (Horder & Hrestored & _ & Hall & Hout).
  assert (NoDup (RegionManager.region_order self)) as Hnd.
  { rewrite (inv_order_perm _ Hinv). apply Hinv. }
  assert (restorable
            (map (λ '(l, region), (l, RegionManager.to_dict region))
               (RegionManager.regions self))
            (Json.LabelStr <$> RegionManager.region_order self) = entries) as Hloaded.
  { unfold restorable. rewrite Hentries. apply first_occurrences_nodup.
    - by rewrite Hfst.
    - intros x _. apply not_elem_of_empty. }
  rewrite Hall, Hloaded in Horder, Hrestored, Hout.
  pose proof (restored_keys _ _ Hrestored) as Hkeys. rewrite Hfst in Hkeys.
  simpl. split_and!.
  - rewrite Hout. by rewrite <-Hfst, length_fmap.
  - by rewrite Horder.
  - done.
  - intros label. unfold coords_of at 1.
    destruct (decide (label ∈ RegionManager.region_order self)) as [Hin|Hnotin].
    + rewrite <-Hfst in Hin. apply list_elem_of_fmap in Hin as ([l c] & -> & Hin).
      simpl. pose proof (proj1 (Forall_forall _ _) Hcoords _ Hin) as Hc. simpl in Hc.
      destruct (restored_elem _ _ _ _ Hrestored Hin) as (region & Hregion & Hnorm).
      rewrite (dict_get_elem_nodup l region) by (by rewrite ?Hkeys).
      simpl. rewrite Hnorm, Hc. f_equal.
      destruct (coords_of_lookup _ _ _ Hc) as (r & Hr & <-).
      apply (inv_normalized _ Hinv l). by apply dict_get_Some_elem.
    + rewrite (proj2 (dict_get_None label _)) by (by rewrite Hkeys). simpl.
      unfold coords_of. rewrite (proj2 (dict_get_None label _)); [done|].
      by rewrite <-(inv_order_perm _ Hinv).
Qed.

(** C3. When a reachable store is saved and the file is loaded again,
    into any store, the load succeeds and reports one region per label,
    the result has the same [region_order] and the same coordinates
    under every label; its regions are keyed in that order, so an empty
    store comes back empty. *)
Theorem C3_save_then_load_round_trip (exn_str : py_exn → string)
    (tr : CoordinateUtils.CoordinateTransformer)
    (self other : RegionManager.RegionManager) (filename : string)
    (canvas : option Tk.Canvas) (fs : Files.FileSystem) :
  reachable self
  → (RegionManager.save_to_file exn_str self filename fs).2.1 = true
  → let saved := (RegionManager.save_to_file exn_str self filename fs).1 in
    let result := RegionManager.load_from_file exn_str tr other filename canvas saved in
    result.2
    = (true, "Loaded " +:+ pretty (length (RegionManager.region_order self))
             +:+ " regions from " +:+ filename)
    ∧ RegionManager.region_order result.1.1 = RegionManager.region_order self
    ∧ (∀ label, coords_of result.1.1 label = coords_of self label)
    ∧ dict_keys (RegionManager.regions result.1.1) = RegionManager.region_order self
    ∧ (RegionManager.regions self = []
       → RegionManager.regions result.1.1 = []
         ∧ RegionManager.region_order result.1.1 = []).
Proof.
  intros Hreach Hsave saved result. subst saved result.
  pose proof (reachable_inv _ Hreach) as Hinv.
  unfold RegionManager.load_from_file, Files.read_json.
  rewrite (save_to_file_written _ _ _ _ Hsave). simpl.
  pose proof (load_saved_store tr self (RegionManager.validator other)
                (foldl (λ c entry, RegionManager.delete_visual c entry.2) canvas
                   (RegionManager.regions other)) Hinv) as Hload.
  simpl in Hload.
  destruct (RegionManager.load_loop _ _ _ _ _ _) as [[self2 canvas2] [n|e]];
    simpl in *; destruct Hload as (Hout & Horder & Hkeys & Hcoords); [|done].
  injection Hout as ->. split_and!; [done..|].
  intros Hempty.
  assert (RegionManager.region_order self = []) as Hnil.
  { apply Permutation_nil_r. rewrite (inv_order_perm _ Hinv). by rewrite Hempty. }
  rewrite Hnil in Hkeys, Horder. split; [|done].
  by destruct (RegionManager.regions self2).
Qed.

(** ** Loading any JSON value *)

Lemma dyn_validate_label_str (s : string) (existing : gset string) :
  DynRegionManager.validate_label (Py.Str s) existing
  = Return (Validators.validate_label s existing).
Proof.
  unfold DynRegionManager.validate_label. simpl.
  destruct s as [|c s]; [|done]. done.
Qed.


Lemma normalize_coords_span (tuple : list Py.value) :
  DynRegionManager.normalize_coords tuple
  = match span_values tuple with
    | Some box => Return box
    | None => Raise TypeError
    end.
Proof.
  destruct tuple as [|x0 [|y0 [|x1 [|y1 [|? ?]]]]]; try done.
  unfold DynRegionManager.normalize_coords, DynRegionManager.normalize_rect,
    span_values, Py.py_min, Py.py_max.
  destruct (Py.py_lt x1 x0), (Py.py_lt y1 y0), (Py.py_lt x0 x1), (Py.py_lt y0 y1); done.
Qed.



Lemma dyn_add_region_rejected tr self s tuple canvas msg :
  Validators.validate_label s
    (Validators.region_labels (DynRegionManager.validator self)) = (false, msg)
  → DynRegionManager.add_region tr self (Py.Str s) tuple canvas
    = (self, canvas, Return (false, msg)).
Proof.
  intros Hv. unfold DynRegionManager.add_region.
  by rewrite dyn_validate_label_str, Hv.
Qed.


Lemma dyn_add_region_unspanned tr self s tuple canvas :
  Validators.validate_label s
    (Validators.region_labels (DynRegionManager.validator self)) = (true, "")
  → span_values tuple = None
  → DynRegionManager.add_region tr self (Py.Str s) tuple canvas
    = (self, canvas, Raise TypeError).
Proof.
  intros Hv Hspan. unfold DynRegionManager.add_region.
  by rewrite dyn_validate_label_str, Hv, normalize_coords_span, Hspan.
Qed.

Lemma dyn_add_region_stored tr self s tuple box :
  Validators.validate_label s
    (Validators.region_labels (DynRegionManager.validator self)) = (true, "")
  → span_values tuple = Some box
  → DynRegionManager.add_region tr self (Py.Str s) tuple None
    = (storing self s box None, None, Return (true, "")).
Proof.
  intros Hv Hspan. unfold DynRegionManager.add_region.
  rewrite dyn_validate_label_str, Hv, normalize_coords_span, Hspan.
  apply validate_label_true in Hv as (_ & _ & Hnotin).
  by rewrite (add_label_fresh _ _ Hnotin).
Qed.







Lemma dyn_load_loop_unlisted tr regions_data label rest self canvas n :
  Py.lookup_record regions_data label = Return None
  → DynRegionManager.load_loop tr regions_data (label :: rest) self canvas n
    = DynRegionManager.load_loop tr regions_data rest self canvas n.
Proof. intros H. cbn [DynRegionManager.load_loop]. by rewrite H. Qed.


Lemma dyn_load_loop_record_raises tr regions_data label rest self canvas n info e :
  Py.lookup_record regions_data label = Return (Some info)
  → Py.coords_member info ≫= Py.iter = Raise e
  → DynRegionManager.load_loop tr regions_data (label :: rest) self canvas n
    = (self, canvas, Raise e).
Proof. intros H1 H2. cbn [DynRegionManager.load_loop]. by rewrite H1, H2. Qed.

Lemma dyn_load_loop_listed tr regions_data label rest self canvas n info tuple :
  Py.lookup_record regions_data label = Return (Some info)
  → Py.coords_member info ≫= Py.iter = Return tuple
  → DynRegionManager.load_loop tr regions_data (label :: rest) self canvas n
    = match DynRegionManager.add_region tr self label tuple canvas with
      | (self', canvas', Raise e) => (self', canvas', Raise e)
      | (self', canvas', Return (success, _)) =>
          DynRegionManager.load_loop tr regions_data rest self' canvas'
            (if success then S n else n)
      end.
Proof. intros H1 H2. cbn [DynRegionManager.load_loop]. by rewrite H1, H2. Qed.


Lemma tracked_labels_None : tracked_labels None = ∅.
Proof. done. Qed.











(** ** The store of numbers inside the store of values *)

Lemma py_min_float (x y : Qc) :
  Py.py_min (Py.Float x) (Py.Float y) = Return (Py.Float (py_min x y)).
Proof.
  unfold Py.py_min, py_min. cbn [Py.py_lt Py.number].
  destruct (decide (y < x)) as [H|H];
    [rewrite (bool_decide_eq_true_2 _ H)|rewrite (bool_decide_eq_false_2 _ H)]; done.
Qed.

Lemma py_max_float (x y : Qc) :
  Py.py_max (Py.Float x) (Py.Float y) = Return (Py.Float (py_max x y)).
Proof.
  unfold Py.py_max, py_max. cbn [Py.py_lt Py.number].
  destruct (decide (x < y)) as [H|H];
    [rewrite (bool_decide_eq_true_2 _ H)|rewrite (bool_decide_eq_false_2 _ H)]; done.
Qed.

Lemma span_values_floats (c : Rect) :
  span_values [Py.Float c.1.1.1; Py.Float c.1.1.2; Py.Float c.1.2; Py.Float c.2]
  = Some (DynRegionManager.float_box (CoordinateUtils.normalize_coords c)).
Proof.
  destruct c as [[[x0 y0] x1] y1]. unfold span_values. cbn [fst snd].
  by rewrite !py_min_float, !py_max_float.
Qed.

Lemma all_numbers_floats (c : Rect) : all_numbers (DynRegionManager.float_box c) = true.
Proof. by destruct c as [[[x0 y0] x1] y1]. Qed.

Lemma dyn_draw_region_floats tr cv (c : Rect) :
  DynRegionManager._draw_region tr cv (DynRegionManager.float_box c)
  = Return (RegionManager._draw_region tr cv c).
Proof. by destruct c as [[[x0 y0] x1] y1]. Qed.

Lemma dict_set_fmap {A B} (f : A → B) (k : string) (v : A) (d : list (string * A)) :
  prod_map id f <$> dict_set k v d = dict_set k (f v) (prod_map id f <$> d).
Proof.
  induction d as [|[k' v'] d IH]; [done|]. simpl.
  destruct (decide (k' = k)); simpl; [done|]. f_equal. apply IH.
Qed.

Lemma dict_get_fmap {A B} (f : A → B) (k : string) (d : list (string * A)) :
  dict_get k (prod_map id f <$> d) = f <$> dict_get k d.
Proof.
  induction d as [|[k' v'] d IH]; [done|]. simpl.
  by destruct (decide (k' = k)).
Qed.

(** On a string label and four numbers, [add_region] on values is
    [add_region] on numbers. *)
Lemma add_region_typed tr self label (c : Rect) canvas :
  DynRegionManager.add_region tr (DynRegionManager.of_typed self) (Py.Str label)
    [Py.Float c.1.1.1; Py.Float c.1.1.2; Py.Float c.1.2; Py.Float c.2] canvas
  = (DynRegionManager.of_typed (RegionManager.add_region tr self label c canvas).1.1,
     (RegionManager.add_region tr self label c canvas).1.2,
     Return (RegionManager.add_region tr self label c canvas).2).
Proof.
  destruct (validate_label_cases label
              (Validators.region_labels (RegionManager.validator self))) as [[msg Hv]|Hv].
  { rewrite (add_region_rejected _ _ _ _ _ _ Hv).
    by rewrite (dyn_add_region_rejected tr (DynRegionManager.of_typed self) _ _ _ _ Hv). }
  rewrite (add_region_accepted _ _ _ _ _ Hv). cbn [fst snd].
  pose proof (span_values_floats c) as Hspan.
  unfold drawn_region. destruct canvas as [cv|].
  - unfold DynRegionManager.add_region.
    rewrite dyn_validate_label_str. cbn [DynRegionManager.of_typed DynRegionManager.validator].
    rewrite Hv, normalize_coords_span, Hspan.
    apply validate_label_true in Hv as (_ & _ & Hnotin).
    rewrite (add_label_fresh _ _ Hnotin). cbn [negb].
    rewrite dyn_draw_region_floats.
    destruct (RegionManager._draw_region tr cv (CoordinateUtils.normalize_coords c))
      as [cv' id]. cbn [fst snd]. unfold DynRegionManager.of_typed. cbn.
    by rewrite dict_set_fmap.
  - rewrite (dyn_add_region_stored tr (DynRegionManager.of_typed self) _ _ _ Hv Hspan).
    unfold storing, DynRegionManager.of_typed. cbn. by rewrite dict_set_fmap.
Qed.

Lemma span_values_unpack (tuple : list Json.coord) :
  span_values (full_coord <$> tuple)
  = match RegionManager.unpack_coords tuple with
    | Return c => Some (DynRegionManager.float_box (CoordinateUtils.normalize_coords c))
    | Raise _ => None
    end.
Proof.
  destruct tuple as [|[q0|] [|[q1|] [|[q2|] [|[q3|] [|? ?]]]]]; try done.
  apply (span_values_floats (q0, q1, q2, q3)).
Qed.

Lemma unpack_coords_exception (tuple : list Json.coord) (e : py_exn) :
  RegionManager.unpack_coords tuple = Raise e → e = TypeError.
Proof.
  destruct tuple as [|[q0|] [|[q1|] [|[q2|] [|[q3|] [|? ?]]]]]; simpl; by intros [= <-].
Qed.

Lemma add_region_tuple_typed tr self label (tuple : list Json.coord) canvas :
  DynRegionManager.add_region tr (DynRegionManager.of_typed self) (Py.Str label)
    (full_coord <$> tuple) canvas
  = (DynRegionManager.of_typed
       (RegionManager.add_region_tuple tr self label tuple canvas).1.1,
     (RegionManager.add_region_tuple tr self label tuple canvas).1.2,
     (RegionManager.add_region_tuple tr self label tuple canvas).2).
Proof.
  destruct (validate_label_cases label
              (Validators.region_labels (RegionManager.validator self))) as [[msg Hv]|Hv].
  { rewrite (add_region_tuple_rejected _ _ _ _ _ _ Hv).
    by rewrite (dyn_add_region_rejected tr (DynRegionManager.of_typed self) _ _ _ _ Hv). }
  pose proof (span_values_unpack tuple) as Hspan.
  destruct (RegionManager.unpack_coords tuple) as [c|e] eqn:Hc.
  - unfold RegionManager.add_region_tuple. rewrite Hv, Hc. cbn [negb].
    apply unpack_coords_Return in Hc as ->. cbn [fmap list_fmap full_coord].
    rewrite (add_region_typed tr self label c canvas).
    by destruct (RegionManager.add_region tr self label c canvas) as [[s' cv'] r].
  - rewrite (add_region_tuple_raises _ _ _ _ _ _ Hv Hc).
    apply unpack_coords_exception in Hc as ->.
    by rewrite (dyn_add_region_unspanned tr (DynRegionManager.of_typed self) _ _ _ Hv Hspan).
Qed.

Lemma record_tuple_typed (info : Json.region_value) :
  Py.coords_member (full_region info) ≫= Py.iter
  = match RegionManager.entry_coords info with
    | Return tuple => Return (full_coord <$> tuple)
    | Raise e => Raise e
    end.
Proof. by destruct info as [[[l|]|]|]. Qed.

Lemma load_loop_typed tr regions_data order :
  ∀ self canvas n,
    DynRegionManager.load_loop tr (Py.Obj (prod_map id full_region <$> regions_data))
      (full_label <$> order) (DynRegionManager.of_typed self) canvas n
    = (DynRegionManager.of_typed
         (RegionManager.load_loop tr regions_data order self canvas n).1.1,
       (RegionManager.load_loop tr regions_data order self canvas n).1.2,
       (RegionManager.load_loop tr regions_data order self canvas n).2).
Proof.
  induction order as [|[label|] order IH]; intros self canvas n; [done| |].
  - rewrite fmap_cons. cbn [full_label RegionManager.load_loop].
    assert (Py.lookup_record (Py.Obj (prod_map id full_region <$> regions_data))
              (Py.Str label)
            = Return (full_region <$> dict_get label regions_data)) as Hlook.
    { simpl. by rewrite dict_get_fmap. }
    destruct (dict_get label regions_data) as [info|].
    2:{ rewrite (dyn_load_loop_unlisted _ _ _ _ _ _ _ Hlook). apply IH. }
    pose proof (record_tuple_typed info) as Htuple.
    destruct (RegionManager.entry_coords info) as [tuple|e].
    2:{ by rewrite (dyn_load_loop_record_raises _ _ _ _ _ _ _ _ _ Hlook Htuple). }
    rewrite (dyn_load_loop_listed _ _ _ _ _ _ _ _ _ Hlook Htuple).
    rewrite add_region_tuple_typed.
    destruct (RegionManager.add_region_tuple tr self label tuple canvas)
      as [[self' canvas'] [[success msg]|e]]; cbn [fst snd]; [|done].
    apply IH.
  - rewrite fmap_cons. cbn [full_label RegionManager.load_loop].
    rewrite dyn_load_loop_unlisted by done. apply IH.
Qed.

Lemma clear_all_regions_typed self canvas :
  DynRegionManager.clear_all_regions (DynRegionManager.of_typed self) canvas
  = (DynRegionManager.of_typed (RegionManager.clear_all_regions self canvas).1,
     (RegionManager.clear_all_regions self canvas).2).
Proof.
  unfold DynRegionManager.clear_all_regions, RegionManager.clear_all_regions.
  cbn [fst snd DynRegionManager.of_typed DynRegionManager.regions
       DynRegionManager.validator]. f_equal.
  generalize (RegionManager.regions self). intros l. revert canvas.
  induction l as [|[k r] l IH]; intros canvas; [done|]. rewrite fmap_cons.
  cbn [foldl]. by rewrite <-IH.
Qed.

(** On the region files of [Json], read as JSON values, loading into
    the store of values is loading into the store of numbers. *)
Lemma load_from_file_typed exn_str tr self filename canvas fs :
  DynRegionManager.load_from_file exn_str tr (DynRegionManager.of_typed self) filename
    canvas (full_content <$> Files.files fs)
  = (DynRegionManager.of_typed
       (RegionManager.load_from_file exn_str tr self filename canvas fs).1.1,
     (RegionManager.load_from_file exn_str tr self filename canvas fs).1.2,
     (RegionManager.load_from_file exn_str tr self filename canvas fs).2).
Proof.
  unfold DynRegionManager.load_from_file, RegionManager.load_from_file,
    DynRegionManager.read_json, Files.read_json.
  rewrite lookup_fmap.
  destruct (Files.files fs !! filename) as [[v|]|]; [|done..].
  cbn [fmap option_fmap option_map full_content].
  rewrite clear_all_regions_typed.
  destruct (RegionManager.clear_all_regions self canvas) as [self1 canvas1].
  cbn [fst snd]. destruct v as [d|]; [|done].
  assert (dict_get "regions"
            (full_member "regions" (λ l, Py.Obj (prod_map id full_region <$> l))
               (Json.doc_regions d)
             ++ full_member "order" (λ l, Py.Arr (full_label <$> l)) (Json.doc_order d))
          = (λ l, Py.Obj (prod_map id full_region <$> l)) <$> Json.doc_regions d)
    as Hregions.
  { by destruct (Json.doc_regions d), (Json.doc_order d). }
  assert (dict_get "order"
            (full_member "regions" (λ l, Py.Obj (prod_map id full_region <$> l))
               (Json.doc_regions d)
             ++ full_member "order" (λ l, Py.Arr (full_label <$> l)) (Json.doc_order d))
          = (λ l, Py.Arr (full_label <$> l)) <$> Json.doc_order d)
    as Horder.
  { by destruct (Json.doc_regions d), (Json.doc_order d). }
  cbn [full_value]. rewrite Hregions, Horder.
  assert (default (Py.Obj [])
            ((λ l, Py.Obj (prod_map id full_region <$> l)) <$> Json.doc_regions d)
          = Py.Obj (prod_map id full_region <$> default [] (Json.doc_regions d))) as ->
    by (by destruct (Json.doc_regions d)).
  assert (default (Py.Arr []) ((λ l, Py.Arr (full_label <$> l)) <$> Json.doc_order d)
          = Py.Arr (full_label <$> default [] (Json.doc_order d))) as ->
    by (by destruct (Json.doc_order d)).
  cbn [Py.iter]. rewrite load_loop_typed.
  by destruct (RegionManager.load_loop tr _ _ self1 canvas1 0) as [[self2 canvas2] [n|e]].
Qed.

(** ** [add_region] on every store *)

Lemma py_min_smaller (x y : Qc) : smaller_of (py_min x y) x y.
Proof.
  unfold smaller_of, py_min. destruct (decide (y < x)) as [H|H].
  - split_and!; [by apply Qclt_le_weak|apply Qcle_refl|by right].
  - split_and!; [apply Qcle_refl|by apply Qcnot_lt_le|by left].
Qed.

Lemma py_max_larger (x y : Qc) : larger_of (py_max x y) x y.
Proof.
  unfold larger_of, py_max. destruct (decide (x < y)) as [H|H].
  - split_and!; [by apply Qclt_le_weak|apply Qcle_refl|by right].
  - split_and!; [apply Qcle_refl|by apply Qcnot_lt_le|by left].
Qed.

Lemma normalize_rect_min_max (x0 y0 x1 y1 : Qc) :
  min_max_box (CoordinateUtils.normalize_rect x0 y0 x1 y1) x0 y0 x1 y1.
Proof.
  unfold min_max_box, CoordinateUtils.normalize_rect.
  split_and!; [apply py_min_smaller..|apply py_max_larger|apply py_max_larger].
Qed.

Lemma normalize_drag_direction (x0 y0 x1 y1 : Qc) (c : Rect) :
  c ∈ drag_directions x0 y0 x1 y1
  → CoordinateUtils.normalize_coords c = CoordinateUtils.normalize_rect x0 y0 x1 y1.
Proof.
  unfold drag_directions. rewrite !elem_of_cons, elem_of_nil.
  unfold CoordinateUtils.normalize_coords, CoordinateUtils.normalize_rect.
  intros [-> | [-> | [-> | [-> | []]]]]; [done|..].
  - by rewrite (py_min_comm x1), (py_min_comm y1), (py_max_comm x1), (py_max_comm y1).
  - by rewrite (py_min_comm y1), (py_max_comm y1).
  - by rewrite (py_min_comm x1), (py_max_comm x1).
Qed.

Lemma drawn_region_record tr c canvas :
  ∃ rect_id,
    (drawn_region tr c canvas).2
    = RegionManager.mkRegionData (CoordinateUtils.normalize_coords c) rect_id.
Proof.
  unfold drawn_region. destruct canvas as [cv|]; [|by exists None].
  destruct (RegionManager._draw_region _ _ _) as [cv' id]. by exists (Some id).
Qed.

Lemma add_region_again tr self label box box2 canvas :
  valid_label label
  → let first := RegionManager.add_region tr self label box canvas in
    RegionManager.add_region tr first.1.1 label box2 first.1.2
    = (first.1.1, first.1.2, (false, "Label already exists")).
Proof.
  intros Hvalid first. subst first.
  destruct (decide (label ∈ Validators.region_labels (RegionManager.validator self)))
    as [Hin|Hnotin].
  - pose proof (validate_label_taken _ _ Hvalid Hin) as Hv.
    rewrite (add_region_rejected _ _ _ box _ _ Hv). simpl.
    by apply add_region_rejected.
  - pose proof (validate_label_valid _ _ Hvalid Hnotin) as Hv.
    rewrite (add_region_accepted _ _ _ box _ Hv). simpl.
    apply add_region_rejected. simpl. apply validate_label_taken; [done|].
    apply elem_of_union_r. by apply elem_of_singleton.
Qed.

(** C2. On every store [add_region] fails with the message for the
    first of: empty label, whitespace-only label, label over 100
    characters, label tracked by the store, and then leaves the store
    and the canvas as they were, whatever the coordinates.  Otherwise it
    succeeds: it stores under the label the min/max box of the two
    corners, the same box for each direction of the drag, with the
    smaller value of each axis first; it appends the label to
    [region_order] and tracks it, and a label that had no region is
    appended to [regions].  On a store that satisfies the invariant the
    tracked labels are the keys of [regions] and the invariant is kept.
    It is what [add_region] on values of any type does on four numbers.
    Adding ["A"] twice makes the second call fail with the
    duplicate-label message and change nothing. *)
Theorem C2_add_region_validates (tr : CoordinateUtils.CoordinateTransformer)
    (self : RegionManager.RegionManager) (label : string) (x0 y0 x1 y1 : Qc)
    (canvas : option Tk.Canvas) :
  let labels := Validators.region_labels (RegionManager.validator self) in
  match label_problem label (bool_decide (label ∈ labels)) with
  | Some err =>
      err ∈ label_errors
      ∧ ∀ c, RegionManager.add_region tr self label c canvas = (self, canvas, (false, err))
  | None =>
      ∃ box,
        min_max_box box x0 y0 x1 y1
        ∧ normalized box
        ∧ box = span (x0, y0) (x1, y1)
        ∧ ∀ c, c ∈ drag_directions x0 y0 x1 y1
               → ∃ self' canvas' rect_id,
                   RegionManager.add_region tr self label c canvas
                   = (self', canvas', (true, ""))
                   ∧ RegionManager.regions self'
                     = dict_set label (RegionManager.mkRegionData box rect_id)
                         (RegionManager.regions self)
                   ∧ (label ∉ dict_keys (RegionManager.regions self)
                      → RegionManager.regions self'
                        = RegionManager.regions self
                          ++ [(label, RegionManager.mkRegionData box rect_id)])
                   ∧ coords_of self' label = Some box
                   ∧ (∀ other, other ≠ label
                               → coords_of self' other = coords_of self other)
                   ∧ RegionManager.region_order self'
                     = RegionManager.region_order self ++ [label]
                   ∧ RegionManager.selected_region self'
                     = RegionManager.selected_region self
                   ∧ Validators.region_labels (RegionManager.validator self')
                     = labels ∪ {[label]}
                   ∧ Validators.file_paths (RegionManager.validator self')
                     = Validators.file_paths (RegionManager.validator self)
  end
  ∧ (store_inv self
     → (label ∈ labels ↔ label ∈ dict_keys (RegionManager.regions self))
       ∧ store_inv
           (RegionManager.add_region tr self label (x0, y0, x1, y1) canvas).1.1)
  ∧ DynRegionManager.add_region tr (DynRegionManager.of_typed self) (Py.Str label)
      [Py.Float x0; Py.Float y0; Py.Float x1; Py.Float y1] canvas
    = (DynRegionManager.of_typed
         (RegionManager.add_region tr self label (x0, y0, x1, y1) canvas).1.1,
       (RegionManager.add_region tr self label (x0, y0, x1, y1) canvas).1.2,
       Return (RegionManager.add_region tr self label (x0, y0, x1, y1) canvas).2)
  ∧ ∀ box box2,
      let first := RegionManager.add_region tr self "A" box canvas in
      RegionManager.add_region tr first.1.1 "A" box2 first.1.2
      = (first.1.1, first.1.2, (false, "Label already exists")).
Proof.
  intros labels. subst labels. split_and!.
  - pose proof (validate_label_problem label
      (Validators.region_labels (RegionManager.validator self))) as Hv.
    destruct (label_problem label _) as [err|] eqn:Hp.
    { split; [by eapply validate_label_false|]. intros c. by apply add_region_rejected. }
    exists (CoordinateUtils.normalize_rect x0 y0 x1 y1).
    split; [apply normalize_rect_min_max|].
    split; [apply normalize_rect_normalized|]. split; [done|].
    intros c Hc. rewrite (add_region_accepted _ _ _ c _ Hv).
    destruct (drawn_region_record tr c canvas) as [rect_id Hrecord].
    rewrite Hrecord, (normalize_drag_direction _ _ _ _ _ Hc).
    eexists _, _, rect_id. split; [reflexivity|]. cbn.
    split_and!; try done.
    + intros Hfresh. by apply dict_set_absent.
    + unfold coords_of. cbn. by rewrite dict_get_set_eq.
    + intros other Hother. unfold coords_of. cbn. by rewrite dict_get_set_ne.
  - intros Hinv. split; [apply (inv_labels _ Hinv)|by apply add_region_inv].
  - apply (add_region_typed tr self label (x0, y0, x1, y1) canvas).
  - intros box box2. by apply add_region_again, valid_label_A.
Qed.

(** Adding ["A"] to the empty store with a box dragged from
    bottom-right to top-left, or in any other direction. *)
Lemma C2_witness :
  ∃ box,
    min_max_box box (Qc_of_Z 10) (Qc_of_Z 10) (Qc_of_Z 0) (Qc_of_Z 0)
    ∧ normalized box
    ∧ box = span (Qc_of_Z 10, Qc_of_Z 10) (Qc_of_Z 0, Qc_of_Z 0)
    ∧ ∀ c, c ∈ drag_directions (Qc_of_Z 10) (Qc_of_Z 10) (Qc_of_Z 0) (Qc_of_Z 0)
           → ∃ self' canvas' rect_id,
               RegionManager.add_region CoordinateUtils.init RegionManager.init "A" c None
               = (self', canvas', (true, ""))
               ∧ RegionManager.regions self'
                 = dict_set "A" (RegionManager.mkRegionData box rect_id) []
               ∧ ("A" ∉ dict_keys (RegionManager.regions RegionManager.init)
                  → RegionManager.regions self'
                    = [] ++ [("A", RegionManager.mkRegionData box rect_id)])
               ∧ coords_of self' "A" = Some box
               ∧ (∀ other, other ≠ "A"
                           → coords_of self' other = coords_of RegionManager.init other)
               ∧ RegionManager.region_order self' = [] ++ ["A"]
               ∧ RegionManager.selected_region self' = None
               ∧ Validators.region_labels (RegionManager.validator self') = ∅ ∪ {["A"]}
               ∧ Validators.file_paths (RegionManager.validator self') = ∅.
Proof.
  exact (proj1 (C2_add_region_validates CoordinateUtils.init RegionManager.init "A"
                  (Qc_of_Z 10) (Qc_of_Z 10) (Qc_of_Z 0) (Qc_of_Z 0) None)).
Defined.

(** ** The claims on concrete inputs *)

(** A file with a duplicate label: the later duplicate is dropped and
    two regions are reported. *)
Example load_drops_later_duplicate :
  let result :=
    RegionManager.load_from_file no_text CoordinateUtils.init three_regions
      "regions.json" None
      (one_file (Files.JsonText (Json.Object file_with_duplicate_label))) in
  RegionManager.region_order result.1.1 = ["A"; "B"]
  ∧ result.2 = (true, "Loaded 2 regions from regions.json").
Proof. by vm_compute. Qed.

(** Four strings are four values that [min] and [max] compare: without
    a canvas they are stored, in order, and the load goes on. *)
Example load_stores_four_strings :
  let result :=
    DynRegionManager.load_from_file no_text CoordinateUtils.init DynRegionManager.init
      "regions.json" None
      (one_json (DynRegionManager.JsonText
         (region_file regions_with_strings (Py.Arr [Py.Str "A"; Py.Str "B"])))) in
  DynRegionManager.region_order result.1.1 = ["A"; "B"]
  ∧ DynRegionManager.coords <$> dict_get "A" (DynRegionManager.regions result.1.1)
    = Some (Py.Str "a", Py.Str "c", Py.Str "b", Py.Str "d")
  ∧ result.2 = (true, "Loaded 2 regions from regions.json").
Proof. by vm_compute. Qed.

(** With a canvas the same file raises when the strings are drawn: no
    region is stored, the entry after it is not loaded, and the label
    ["A"] is left in the validator. *)
Example load_draws_no_strings :
  let result :=
    DynRegionManager.load_from_file no_text CoordinateUtils.init DynRegionManager.init
      "regions.json" (Some Tk.init)
      (one_json (DynRegionManager.JsonText
         (region_file regions_with_strings (Py.Arr [Py.Str "A"; Py.Str "B"])))) in
  DynRegionManager.region_order result.1.1 = []
  ∧ DynRegionManager.regions result.1.1 = []
  ∧ elements (Validators.region_labels (DynRegionManager.validator result.1.1)) = ["A"]
  ∧ result.2 = (false, "Failed to load: ").
Proof. by vm_compute. Qed.

(** [null] under ["regions"] fails at the first entry of ["order"],
    after the store was cleared. *)
Example load_null_regions :
  let result :=
    DynRegionManager.load_from_file no_text CoordinateUtils.init
      (DynRegionManager.of_typed three_regions) "regions.json" None
      (one_json (DynRegionManager.JsonText
         (region_file Py.Null (Py.Arr [Py.Str "A"])))) in
  DynRegionManager.region_order result.1.1 = []
  ∧ DynRegionManager.regions result.1.1 = []
  ∧ result.2 = (false, "Failed to load: ").
Proof. by vm_compute. Qed.


Lemma reachable_step self self' : reachable self → store_step self self' → reachable self'.
Proof. intros Hreach Hstep. by eapply rtc_r. Qed.

Lemma three_regions_reachable : reachable three_regions.
Proof.
  unfold three_regions.
  eapply reachable_step; [|apply step_move_region].
  eapply reachable_step; [|apply step_add_region].
  eapply reachable_step; [|apply step_add_region].
  eapply reachable_step; [|apply step_add_region].
  apply rtc_refl.
Qed.

Lemma Qc_two_nonzero : (2 * 1 : Qc) ≠ 0.
Proof. intros H. by apply (f_equal Qcanon.this) in H. Qed.

(** The store with three regions in a custom order satisfies C1. *)
Lemma C1_witness :
  reachable three_regions
  ∧ (RegionManager.region_order three_regions
       ≡ₚ dict_keys (RegionManager.regions three_regions)
     ∧ NoDup (RegionManager.region_order three_regions)
     ∧ NoDup (dict_keys (RegionManager.regions three_regions))
     ∧ ∀ label, RegionManager.selected_region three_regions = Some label
                → label ∈ dict_keys (RegionManager.regions three_regions)).
Proof.
  split; [exact three_regions_reachable|].
  exact (C1_order_is_permutation_of_keys three_regions three_regions_reachable).
Defined.

(** Three regions in the custom order [B, C, A], saved and loaded again
    into an empty store. *)
Lemma C3_witness :
  reachable three_regions
  ∧ (RegionManager.save_to_file no_text three_regions "regions.json"
       (Files.mkFS ∅ ∅)).2.1 = true
  ∧ (let saved :=
       (RegionManager.save_to_file no_text three_regions "regions.json"
          (Files.mkFS ∅ ∅)).1 in
     let result :=
       RegionManager.load_from_file no_text CoordinateUtils.init RegionManager.init
         "regions.json" None saved in
     RegionManager.region_order result.1.1 = ["B"; "C"; "A"]
     ∧ ∀ label, coords_of result.1.1 label = coords_of three_regions label).
Proof.
  split; [exact three_regions_reachable|]. split; [reflexivity|].
  pose proof (C3_save_then_load_round_trip no_text CoordinateUtils.init three_regions
                RegionManager.init "regions.json" None (Files.mkFS ∅ ∅)
                three_regions_reachable eq_refl) as H.
  exact (conj (proj1 (proj2 H)) (proj1 (proj2 (proj2 H)))).
Defined.

(** Renaming ["A"] to itself among three regions. *)
Lemma C6_witness :
  store_inv three_regions
  ∧ "A" ∈ dict_keys (RegionManager.regions three_regions)
  ∧ ∃ self',
      RegionManager.update_region_label three_regions "A" "A" = (self', Return (true, ""))
      ∧ RegionManager.region_order self' = RegionManager.region_order three_regions
      ∧ RegionManager.selected_region self' = RegionManager.selected_region three_regions
      ∧ RegionManager.validator self' = RegionManager.validator three_regions
      ∧ ∀ label, dict_get label (RegionManager.regions self')
                 = dict_get label (RegionManager.regions three_regions).
Proof.
  assert ("A" ∈ dict_keys (RegionManager.regions three_regions)) as Hin.
  { apply list_elem_of_In. vm_compute. tauto. }
  split; [exact (reachable_inv _ three_regions_reachable)|]. split; [exact Hin|].
  exact (proj2 (C6_rename_is_atomic three_regions "A" "A"
                  (reachable_inv _ three_regions_reachable)) Hin).
Defined.

(** The point [(3, 4)] under the default transformer (zoom 2, scale 1). *)
Lemma C7_witness :
  CoordinateUtils.zoom CoordinateUtils.init * CoordinateUtils.scale CoordinateUtils.init ≠ 0
  ∧ (let '(img_x, img_y) :=
       CoordinateUtils.pdf_to_image_coords CoordinateUtils.init (Qc_of_Z 3) (Qc_of_Z 4) in
     CoordinateUtils.image_to_pdf_coords CoordinateUtils.init img_x img_y
     = Return (Qc_of_Z 3, Qc_of_Z 4)).
Proof.
  split; [exact Qc_two_nonzero|].
  exact (C7_pdf_image_round_trip CoordinateUtils.init (Qc_of_Z 3) (Qc_of_Z 4)
           Qc_two_nonzero).
Defined.

Lemma resize_mode_app_inv : store_inv (App.region_manager resize_mode_app).
Proof.
  exact (add_region_inv CoordinateUtils.init RegionManager.init "A"
           (rect_of_Z 0 0 10 10) (Some Tk.init) store_inv_init).
Qed.

Lemma pointer_30_40 :
  CoordinateUtils.canvas_to_pdf_coords CoordinateUtils.init (Qc_of_Z 30) (Qc_of_Z 40)
  = Return (Qc_of_Z 15, Qc_of_Z 20).
Proof.
  rewrite canvas_to_pdf_coords_regular by exact Qc_two_nonzero.
  f_equal. f_equal; by apply Qc_is_canon.
Qed.

(** Under the default transformer the canvas point [(30, 40)] is the
    document point [(15, 20)]: dragging the bottom-right corner of
    [(0,0,10,10)] there, by way of [(25, 25)], stores [(0,0,15,20)]. *)
Lemma C8_witness :
  store_inv (App.region_manager resize_mode_app)
  ∧ coords_of (App.region_manager resize_mode_app) "A" = Some (rect_of_Z 0 0 10 10)
  ∧ opposite_corner "bottom-right" (rect_of_Z 0 0 10 10) = Some (Qc_of_Z 0, Qc_of_Z 0)
  ∧ CoordinateUtils.canvas_to_pdf_coords CoordinateUtils.init (Qc_of_Z 30) (Qc_of_Z 40)
    = Return (Qc_of_Z 15, Qc_of_Z 20)
  ∧ ∃ tool canvas0 rm' canvas',
      ResizeTool.start_resize ResizeTool.init (App.region_manager resize_mode_app)
        (App.canvas resize_mode_app) "A" "bottom-right" (Qc_of_Z 20) (Qc_of_Z 20)
      = (tool, canvas0, true)
      ∧ drag tool CoordinateUtils.init (App.region_manager resize_mode_app) canvas0
          ([(Qc_of_Z 25, Qc_of_Z 25)] ++ [(Qc_of_Z 30, Qc_of_Z 40)])
        = (rm', canvas', Return tt)
      ∧ coords_of rm' "A" = Some (rect_of_Z 0 0 15 20).
Proof.
  split; [exact resize_mode_app_inv|]. split; [reflexivity|]. split; [reflexivity|].
  split; [exact pointer_30_40|].
  destruct (C8_resize_spans_pointer_and_opposite_corner CoordinateUtils.init
              (App.region_manager resize_mode_app) (App.canvas resize_mode_app)
              ResizeTool.init "A" "bottom-right" (Qc_of_Z 20) (Qc_of_Z 20)
              (rect_of_Z 0 0 10 10) (Qc_of_Z 0, Qc_of_Z 0)
              [(Qc_of_Z 25, Qc_of_Z 25)] (Qc_of_Z 30) (Qc_of_Z 40)
              (Qc_of_Z 15) (Qc_of_Z 20)
              resize_mode_app_inv eq_refl eq_refl pointer_30_40)
    as (tool & canvas0 & rm' & canvas' & Hstart & _ & Hdrag & _ & _ & Hexample & _).
  exists tool, canvas0, rm', canvas'.
  exact (conj Hstart (conj Hdrag (Hexample eq_refl eq_refl eq_refl))).
Defined.

(** A press on the bottom-right corner of the one region. *)
Lemma C9_witness :
  App.mode resize_mode_app = "resize"
  ∧ store_inv (App.region_manager resize_mode_app)
  ∧ (App.on_mouse_press resize_mode_app (Qc_of_Z 20) (Qc_of_Z 20) None).2 = Return tt
  ∧ App.region_manager
      (App.on_mouse_press resize_mode_app (Qc_of_Z 20) (Qc_of_Z 20) None).1
    = App.region_manager resize_mode_app
  ∧ App.selection_tools
      (App.on_mouse_press resize_mode_app (Qc_of_Z 20) (Qc_of_Z 20) None).1
    = App.selection_tools resize_mode_app.
Proof.
  split; [reflexivity|]. split; [exact resize_mode_app_inv|].
  pose proof (C9_press_dispatch_in_resize_mode resize_mode_app (Qc_of_Z 20) (Qc_of_Z 20)
                None eq_refl resize_mode_app_inv) as H.
  exact (conj (proj1 H) (conj (proj1 (proj2 H)) (proj1 (proj2 (proj2 H))))).
Defined.

(** Moving the region [(0,0,10,10)] from a press at canvas point
    [(10, 10)] to [(14, 16)], by way of [(11, 12)]. *)
Lemma C10_witness :
  CoordinateUtils.zoom CoordinateUtils.init * CoordinateUtils.scale CoordinateUtils.init ≠ 0
  ∧ store_inv (App.region_manager resize_mode_app)
  ∧ coords_of (App.region_manager resize_mode_app) "A" = Some (rect_of_Z 0 0 10 10)
  ∧ ∃ tool canvas0 rm' canvas' moved,
      ResizeTool.start_move ResizeTool.init CoordinateUtils.init
        (App.region_manager resize_mode_app) (App.canvas resize_mode_app) "A"
        (Qc_of_Z 10) (Qc_of_Z 10)
      = (tool, canvas0, true)
      ∧ move_drag tool CoordinateUtils.init (App.region_manager resize_mode_app) canvas0
          ([(Qc_of_Z 11, Qc_of_Z 12)] ++ [(Qc_of_Z 14, Qc_of_Z 16)])
        = (rm', canvas', Return tt)
      ∧ coords_of rm' "A" = Some moved
      ∧ width moved = width (rect_of_Z 0 0 10 10)
      ∧ height moved = height (rect_of_Z 0 0 10 10).
Proof.
  split; [exact Qc_two_nonzero|]. split; [exact resize_mode_app_inv|].
  split; [reflexivity|].
  destruct (C10_move_translates_and_keeps_size CoordinateUtils.init
              (App.region_manager resize_mode_app) (App.canvas resize_mode_app)
              ResizeTool.init "A" (Qc_of_Z 10) (Qc_of_Z 10) (rect_of_Z 0 0 10 10)
              [(Qc_of_Z 11, Qc_of_Z 12)] (Qc_of_Z 14) (Qc_of_Z 16)
              Qc_two_nonzero resize_mode_app_inv eq_refl)
    as (tool & canvas0 & rm' & canvas' & moved & Hstart & _ & Hdrag & Hc & _ & Hw & Hh).
  exists tool, canvas0, rm', canvas', moved.
  exact (conj Hstart (conj Hdrag (conj Hc (conj Hw Hh)))).
Defined.

(** ** [normalize_rect] and the conversions between the three spaces *)

(** X1 ([normalize_rect]): for any four numbers the result has its
    corners in order on both axes, holds on each axis the two values it
    was given (swapped or not), and is left unchanged by a second
    normalization. *)
Theorem normalize_rect_orders_corners (x0 y0 x1 y1 : Qc) :
  let '(a0, b0, a1, b1) := CoordinateUtils.normalize_rect x0 y0 x1 y1 in
  a0 ≤ a1 ∧ b0 ≤ b1
  ∧ ((a0 = x0 ∧ a1 = x1) ∨ (a0 = x1 ∧ a1 = x0))
  ∧ ((b0 = y0 ∧ b1 = y1) ∨ (b0 = y1 ∧ b1 = y0))
  ∧ CoordinateUtils.normalize_rect a0 b0 a1 b1 = (a0, b0, a1, b1).
Proof.
  unfold CoordinateUtils.normalize_rect.
  split_and!; try apply py_min_le_py_max.
  - destruct (Qclt_le_dec x1 x0) as [Hlt|Hle].
    + right. by rewrite py_min_ge, py_max_ge.
    + left. by rewrite py_min_le, py_max_le.
  - destruct (Qclt_le_dec y1 y0) as [Hlt|Hle].
    + right. by rewrite py_min_ge, py_max_ge.
    + left. by rewrite py_min_le, py_max_le.
  - pose proof (py_min_le_py_max x0 x1) as Hx.
    pose proof (py_min_le_py_max y0 y1) as Hy.
    by rewrite (py_min_le _ _ Hx), (py_max_le _ _ Hx),
      (py_min_le _ _ Hy), (py_max_le _ _ Hy).
Qed.

(** X2 ([canvas_to_image_coords], [image_to_canvas_coords]): the two
    conversions between canvas space and image space are inverse to each
    other, in both directions and for every offset. *)
Theorem canvas_image_inverse (tr : CoordinateUtils.CoordinateTransformer) (x y : Qc) :
  (let '(ix, iy) := CoordinateUtils.canvas_to_image_coords tr x y in
   CoordinateUtils.image_to_canvas_coords tr ix iy) = (x, y)
  ∧ (let '(cx, cy) := CoordinateUtils.image_to_canvas_coords tr x y in
     CoordinateUtils.canvas_to_image_coords tr cx cy) = (x, y).
Proof.
  unfold CoordinateUtils.canvas_to_image_coords, CoordinateUtils.image_to_canvas_coords.
  split; f_equal; ring.
Qed.

(** X3 ([canvas_to_pdf_coords], [pdf_to_canvas_coords]): when the
    transform factor [zoom * scale] is not zero, converting a document
    point to the canvas and back returns it, and so does converting a
    canvas point to the document and back. *)
Theorem canvas_pdf_inverse (tr : CoordinateUtils.CoordinateTransformer) (x y : Qc) :
  CoordinateUtils.zoom tr * CoordinateUtils.scale tr ≠ 0
  → (let '(cx, cy) := CoordinateUtils.pdf_to_canvas_coords tr x y in
     CoordinateUtils.canvas_to_pdf_coords tr cx cy) = Return (x, y)
    ∧ ∃ px py,
        CoordinateUtils.canvas_to_pdf_coords tr x y = Return (px, py)
        ∧ CoordinateUtils.pdf_to_canvas_coords tr px py = (x, y).
Proof.
  intros Hf. split.
  - unfold CoordinateUtils.pdf_to_canvas_coords, CoordinateUtils.pdf_to_image_coords,
      CoordinateUtils.image_to_canvas_coords.
    rewrite canvas_to_pdf_coords_regular by done.
    generalize dependent (CoordinateUtils.zoom tr * CoordinateUtils.scale tr).
    intros f Hf. do 2 f_equal; field; exact Hf.
  - eexists _, _. split; [by apply canvas_to_pdf_coords_regular|].
    unfold CoordinateUtils.pdf_to_canvas_coords, CoordinateUtils.pdf_to_image_coords,
      CoordinateUtils.image_to_canvas_coords.
    generalize dependent (CoordinateUtils.zoom tr * CoordinateUtils.scale tr).
    intros f Hf. f_equal; field; exact Hf.
Qed.

Lemma canvas_pdf_inverse_witness :
  CoordinateUtils.zoom CoordinateUtils.init * CoordinateUtils.scale CoordinateUtils.init ≠ 0
  ∧ CoordinateUtils.canvas_to_pdf_coords CoordinateUtils.init
      (CoordinateUtils.pdf_to_canvas_coords CoordinateUtils.init (Qc_of_Z 3) (Qc_of_Z 4)).1
      (CoordinateUtils.pdf_to_canvas_coords CoordinateUtils.init (Qc_of_Z 3) (Qc_of_Z 4)).2
    = Return (Qc_of_Z 3, Qc_of_Z 4).
Proof.
  assert (CoordinateUtils.zoom CoordinateUtils.init
          * CoordinateUtils.scale CoordinateUtils.init ≠ 0) as Hf.
  { intros H. by apply (f_equal Qcanon.this) in H. }
  split; [exact Hf|].
  exact (proj1 (canvas_pdf_inverse CoordinateUtils.init (Qc_of_Z 3) (Qc_of_Z 4) Hf)).
Defined.

(** X4 ([canvas_to_pdf_delta] against [canvas_to_pdf_coords]): with a
    zoom and a scale that are not zero, the displacement the delta
    conversion returns for a canvas displacement is [zoom] times the
    difference of the document points of the two ends; the two agree only
    at zoom 1 or for a null displacement. *)
Theorem canvas_to_pdf_delta_is_zoom_times_displacement
    (tr : CoordinateUtils.CoordinateTransformer) (x y dx dy : Qc) :
  CoordinateUtils.zoom tr ≠ 0
  → CoordinateUtils.scale tr ≠ 0
  → ∃ px py px' py' ddx ddy,
      CoordinateUtils.canvas_to_pdf_coords tr x y = Return (px, py)
      ∧ CoordinateUtils.canvas_to_pdf_coords tr (x + dx) (y + dy) = Return (px', py')
      ∧ CoordinateUtils.canvas_to_pdf_delta tr dx dy = Return (ddx, ddy)
      ∧ ddx = CoordinateUtils.zoom tr * (px' - px)
      ∧ ddy = CoordinateUtils.zoom tr * (py' - py)
      ∧ (ddx = px' - px ↔ CoordinateUtils.zoom tr = 1 ∨ dx = 0).
Proof.
  intros Hz Hs.
  assert (CoordinateUtils.zoom tr * CoordinateUtils.scale tr ≠ 0) as Hf.
  { intros H. apply Qcmult_integral in H as [H|H]; done. }
  eexists _, _, _, _, _, _.
  split; [by apply canvas_to_pdf_coords_regular|].
  split; [by apply canvas_to_pdf_coords_regular|].
  split; [by apply canvas_to_pdf_delta_regular|].
  split; [field; done|]. split; [field; done|].
  split.
  - intros Heq.
    destruct (decide (dx = 0)) as [|Hdx]; [by right|left].
    apply (f_equal (λ q, q * (CoordinateUtils.zoom tr * CoordinateUtils.scale tr)))
      in Heq.
    assert (dx * (CoordinateUtils.zoom tr - 1) = 0) as Hz1.
    { transitivity
        (dx / CoordinateUtils.scale tr
         * (CoordinateUtils.zoom tr * CoordinateUtils.scale tr) - dx);
        [field; done|].
      rewrite Heq. field. done. }
    apply Qcmult_integral in Hz1 as [Hz1|Hz1]; [done|].
    rewrite <- (Qcplus_0_l 1), <- Hz1. ring.
  - intros [Hz1| ->].
    + rewrite Hz1. field. done.
    + field. done.
Qed.

Lemma canvas_to_pdf_delta_is_zoom_times_displacement_witness :
  ∃ ddx px px',
    CoordinateUtils.canvas_to_pdf_delta CoordinateUtils.init (Qc_of_Z 6) (Qc_of_Z 8)
    = Return (ddx, Qc_of_Z 8)
    ∧ ddx = CoordinateUtils.zoom CoordinateUtils.init * (px' - px).
Proof.
  assert (CoordinateUtils.zoom CoordinateUtils.init ≠ 0) as Hz.
  { intros H. by apply (f_equal Qcanon.this) in H. }
  assert (CoordinateUtils.scale CoordinateUtils.init ≠ 0) as Hs.
  { intros H. by apply (f_equal Qcanon.this) in H. }
  destruct (canvas_to_pdf_delta_is_zoom_times_displacement CoordinateUtils.init
              (Qc_of_Z 1) (Qc_of_Z 1) (Qc_of_Z 6) (Qc_of_Z 8) Hz Hs)
    as (px & py & px' & py' & ddx & ddy & _ & _ & Hd & Hx & _).
  exists ddx, px, px'. split; [|exact Hx].
  rewrite Hd. do 2 f_equal.
  rewrite canvas_to_pdf_delta_regular in Hd by exact Hs.
  injection Hd as _ <-. apply Qc_is_canon. reflexivity.
Defined.

(** ** The label set of the validator *)

(** X5 ([DuplicateValidator.update_label]): the call fails exactly when
    the new label is tracked and differs from the old one, and then
    changes nothing; when it succeeds the new label is tracked, the old
    one no longer is (unless it is the new one), every other label is
    tracked as before, and the number of labels is unchanged when the old
    label was tracked.  The file set is never touched. *)
Theorem update_label_contract (v : Validators.DuplicateValidator)
    (old_label new_label : string) :
  let '(v', ok) := Validators.update_label v old_label new_label in
  Validators.file_paths v' = Validators.file_paths v
  ∧ (ok = false ↔ new_label ∈ Validators.region_labels v ∧ new_label ≠ old_label)
  ∧ (ok = false → v' = v)
  ∧ (ok = true
     → (∀ l, l ∈ Validators.region_labels v'
             ↔ l = new_label ∨ (l ≠ old_label ∧ l ∈ Validators.region_labels v))
       ∧ (old_label ∈ Validators.region_labels v
          → Validators.get_label_count v' = Validators.get_label_count v)).
Proof.
  unfold Validators.update_label.
  destruct (decide (new_label ∈ Validators.region_labels v ∧ new_label ≠ old_label))
    as [[Hnew Hne]|Hok].
  - rewrite !bool_decide_eq_true_2 by done. simpl. by split_and!.
  - assert (bool_decide (new_label ∈ Validators.region_labels v)
            && bool_decide (new_label ≠ old_label) = false) as ->.
    { apply andb_false_iff. rewrite !bool_decide_eq_false.
      destruct (decide (new_label ∈ Validators.region_labels v)); tauto. }
    simpl. split_and!; [done|split; [done|tauto]|done|]. intros _. split.
    + intros l. case_bool_decide as Hold; simpl.
      * rewrite elem_of_union, elem_of_difference, !elem_of_singleton. tauto.
      * rewrite elem_of_union, !elem_of_singleton.
        split; [|tauto]. intros [Hl|Hl]; [|tauto]. right. split; [|done].
        by intros ->.
    + intros Hold. rewrite bool_decide_eq_true_2 by done.
      unfold Validators.get_label_count. simpl.
      destruct (decide (new_label = old_label)) as [->|Hne].
      * f_equal. apply set_eq. intros l.
        rewrite elem_of_union, elem_of_difference, !elem_of_singleton.
        destruct (decide (l = old_label)) as [->|]; tauto.
      * assert (new_label ∉ Validators.region_labels v) as Hnew by tauto.
        assert (size (Validators.region_labels v)
                = size (Validators.region_labels v ∖ {[old_label]} ∪ {[old_label]}))
          as ->.
        { f_equal. apply set_eq. intros l.
          rewrite elem_of_union, elem_of_difference, !elem_of_singleton.
          destruct (decide (l = old_label)) as [->|]; tauto. }
        assert (Validators.region_labels v ∖ {[old_label]} ## {[new_label]}) as Hd1.
        { intros l. rewrite elem_of_difference, !elem_of_singleton.
          intros [Hl _] Heq. apply Hnew. by rewrite <- Heq. }
        assert (Validators.region_labels v ∖ {[old_label]} ## {[old_label]}) as Hd2.
        { intros l. rewrite elem_of_difference, !elem_of_singleton. tauto. }
        rewrite (size_union _ _ Hd1), (size_union _ _ Hd2).
        by rewrite !size_singleton.
Qed.

(** ** Reordering *)

Lemma list_insert_at_lookup {A} (l : list A) (i : nat) (x : A) :
  (i ≤ length l)%nat → list_insert_at i x l !! i = Some x.
Proof.
  intros Hi. unfold list_insert_at.
  rewrite lookup_app_r by (rewrite length_take; lia).
  rewrite length_take, Nat.min_l by done. by rewrite Nat.sub_diag.
Qed.

Lemma list_insert_at_delete {A} (l : list A) (i : nat) (x : A) :
  (i ≤ length l)%nat → base.delete i (list_insert_at i x l) = l.
Proof.
  intros Hi. unfold list_insert_at.
  rewrite delete_take_drop.
  rewrite take_app_length' by (rewrite length_take; lia).
  rewrite drop_app_ge by (rewrite length_take; lia).
  rewrite length_take, Nat.min_l by done.
  replace (S i - i)%nat with 1%nat by lia. simpl. rewrite drop_0. apply take_drop.
Qed.

Lemma list_delete_insert_at {A} (l : list A) (i : nat) (x : A) :
  l !! i = Some x → list_insert_at i x (base.delete i l) = l.
Proof.
  intros Hi. unfold list_insert_at. rewrite delete_take_drop.
  pose proof (lookup_lt_Some _ _ _ Hi) as Hlt.
  rewrite take_app_length' by (rewrite length_take; lia).
  rewrite drop_app_length' by (rewrite length_take; lia).
  by apply take_drop_middle.
Qed.

(** X6 ([RegionManager.move_region]): the call succeeds exactly when both
    indices are positions of the order, and changes nothing otherwise;
    when it succeeds, the label that was at [from_index] is at
    [to_index], the other labels keep their relative order, and the
    regions, the validator and the selection are untouched. *)
Theorem move_region_contract (self : RegionManager.RegionManager)
    (from_index to_index : Z) :
  let '(self', ok) := RegionManager.move_region self from_index to_index in
  let n := Z.of_nat (length (RegionManager.region_order self)) in
  (ok = true ↔ (0 ≤ from_index < n)%Z ∧ (0 ≤ to_index < n)%Z)
  ∧ (ok = false → self' = self)
  ∧ RegionManager.regions self' = RegionManager.regions self
  ∧ RegionManager.validator self' = RegionManager.validator self
  ∧ RegionManager.selected_region self' = RegionManager.selected_region self
  ∧ (ok = true
     → RegionManager.region_order self' !! Z.to_nat to_index
       = RegionManager.region_order self !! Z.to_nat from_index
       ∧ base.delete (Z.to_nat to_index) (RegionManager.region_order self')
         = base.delete (Z.to_nat from_index) (RegionManager.region_order self)).
Proof.
  unfold RegionManager.move_region.
  destruct ((0 <=? from_index)%Z && (from_index <? _)%Z && (0 <=? to_index)%Z
            && (to_index <? _)%Z) eqn:Hrange; simpl.
  - apply andb_prop in Hrange as [Hrange Ht1]. apply andb_prop in Hrange as [Hrange Ht0].
    apply andb_prop in Hrange as [Hf0 Hf1].
    apply Z.leb_le in Hf0, Ht0. apply Z.ltb_lt in Hf1, Ht1.
    destruct (RegionManager.region_order self !! Z.to_nat from_index) as [label|] eqn:Hl.
    + split_and!; [split; [lia|done]|done|done|done|done|]. intros _.
      cbn [RegionManager.region_order].
      assert (Z.to_nat to_index
              ≤ length (base.delete (Z.to_nat from_index)
                          (RegionManager.region_order self)))%nat as Hlen.
      { rewrite length_delete by eauto. apply lookup_lt_Some in Hl. lia. }
      by rewrite list_insert_at_lookup, list_insert_at_delete.
    + apply lookup_ge_None in Hl. lia.
  - split_and!; try done. split; [done|]. intros [[Hf0 Hf1] [Ht0 Ht1]].
    apply Z.leb_le in Hf0, Ht0. apply Z.ltb_lt in Hf1, Ht1.
    by rewrite Hf0, Hf1, Ht0, Ht1 in Hrange.
Qed.

(** X7 ([RegionManager.move_region] twice): moving a label from one
    position to another and then back restores the store; in particular
    "move up" followed by "move down" on the moved label leaves the order
    as it was. *)
Theorem move_region_back (self : RegionManager.RegionManager) (i j : Z) :
  (0 ≤ i < Z.of_nat (length (RegionManager.region_order self)))%Z
  → (0 ≤ j < Z.of_nat (length (RegionManager.region_order self)))%Z
  → ∃ self1,
      RegionManager.move_region self i j = (self1, true)
      ∧ RegionManager.move_region self1 j i = (self, true).
Proof.
  intros Hi Hj. unfold RegionManager.move_region at 1.
  assert ((0 <=? i)%Z && (i <? Z.of_nat (length (RegionManager.region_order self)))%Z
          && (0 <=? j)%Z && (j <? Z.of_nat (length (RegionManager.region_order self)))%Z
          = true) as ->.
  { rewrite !andb_true_iff, !Z.leb_le, !Z.ltb_lt. lia. }
  simpl.
  destruct (RegionManager.region_order self !! Z.to_nat i) as [label|] eqn:Hl;
    [|apply lookup_ge_None in Hl; lia].
  eexists. split; [done|].
  assert (Z.to_nat j
          ≤ length (base.delete (Z.to_nat i) (RegionManager.region_order self)))%nat
    as Hlen.
  { rewrite length_delete by eauto. apply lookup_lt_Some in Hl. lia. }
  unfold RegionManager.move_region. simpl.
  assert (length (list_insert_at (Z.to_nat j) label
                    (base.delete (Z.to_nat i) (RegionManager.region_order self)))
          = length (RegionManager.region_order self)) as Hlen'.
  { unfold list_insert_at. rewrite length_app. simpl.
    rewrite length_take, length_drop. rewrite length_delete in * by eauto.
    apply lookup_lt_Some in Hl. lia. }
  rewrite Hlen'.
  assert ((0 <=? j)%Z && (j <? Z.of_nat (length (RegionManager.region_order self)))%Z
          && (0 <=? i)%Z && (i <? Z.of_nat (length (RegionManager.region_order self)))%Z
          = true) as ->.
  { rewrite !andb_true_iff, !Z.leb_le, !Z.ltb_lt. lia. }
  simpl. rewrite list_insert_at_lookup by done.
  rewrite list_insert_at_delete by done.
  rewrite list_delete_insert_at by done.
  by destruct self.
Qed.

Lemma move_region_back_witness :
  RegionManager.region_order
    (RegionManager.move_region (RegionManager.move_region three_regions 2 0).1 0 2).1
  = ["B"; "C"; "A"].
Proof.
  destruct (move_region_back three_regions 2 0) as (self1 & H1 & H2);
    [vm_compute; split; [discriminate|reflexivity]..|].
  rewrite H1. simpl. rewrite H2. reflexivity.
Defined.

(** ** Hit testing *)

Lemma first_match_reverse {A} (P : A → bool) (l : list A) (x : A) :
  first_match P (reverse l) x
  → ∃ below above,
      l = below ++ x :: above ∧ (∀ y, y ∈ above → P y = false) ∧ P x = true.
Proof.
  intros (before & after & Hl & Hbefore & Hx).
  exists (reverse after), (reverse before). split_and!; [|by setoid_rewrite elem_of_reverse|done].
  apply (f_equal reverse) in Hl. rewrite reverse_involutive in Hl.
  by rewrite Hl, reverse_app, reverse_cons, <- app_assoc.
Qed.

(** X8 ([RegionManager.get_region_at_point]): the hit test never raises;
    the label it returns is the one listed last in [region_order] among
    the regions whose box holds the document point of the pointer, and it
    returns [None] exactly when no listed region holds it. *)
Theorem get_region_at_point_topmost (tr : CoordinateUtils.CoordinateTransformer)
    (self : RegionManager.RegionManager) (canvas_x canvas_y : Qc) :
  ∃ pdf_x pdf_y result,
    CoordinateUtils.canvas_to_pdf_coords tr canvas_x canvas_y = Return (pdf_x, pdf_y)
    ∧ RegionManager.get_region_at_point tr self canvas_x canvas_y = Return result
    ∧ match result with
      | Some label =>
          ∃ below above c,
            RegionManager.region_order self = below ++ label :: above
            ∧ coords_of self label = Some c
            ∧ RegionManager.rect_contains c pdf_x pdf_y = true
            ∧ ∀ l c', l ∈ above → coords_of self l = Some c'
                      → RegionManager.rect_contains c' pdf_x pdf_y = false
      | None =>
          ∀ l c', l ∈ RegionManager.region_order self → coords_of self l = Some c'
                  → RegionManager.rect_contains c' pdf_x pdf_y = false
      end.
Proof.
  destruct (canvas_to_pdf_coords_returns tr canvas_x canvas_y) as [[pdf_x pdf_y] Hp].
  unfold RegionManager.get_region_at_point. rewrite Hp. simpl.
  eexists pdf_x, pdf_y, _. split; [done|]. split; [done|].
  match goal with |- context [List.find ?P ?l] =>
    pose proof (find_first_match P l) as Hfind; destruct (List.find P l) as [label|]
  end.
  - apply first_match_reverse in Hfind as (below & above & Horder & Habove & Hlabel).
    unfold coords_of.
    destruct (dict_get label (RegionManager.regions self)) as [r|] eqn:Hr; [|done].
    exists below, above, (RegionManager.coords r). split_and!; [done..|].
    intros l c' Hl Hc'. specialize (Habove l Hl). simpl in Habove.
    destruct (dict_get l (RegionManager.regions self)); by simplify_eq/=.
  - intros l c' Hl Hc'. specialize (Hfind l). rewrite elem_of_reverse in Hfind.
    specialize (Hfind Hl). simpl in Hfind. unfold coords_of in Hc'.
    destruct (dict_get l (RegionManager.regions self)); by simplify_eq/=.
Qed.

(** ** Removing a region *)

Lemma filter_ne_absent (x : string) (l : list string) :
  x ∉ l → filter (λ y, y ≠ x) l = l.
Proof.
  induction l as [|y l IH]; intros Hx; [done|].
  apply not_elem_of_cons in Hx as [Hne Hx].
  rewrite filter_cons_True by done. f_equal. by apply IH.
Qed.

Lemma list_remove_filter (x : string) (l : list string) :
  NoDup l → x ∈ l → list_remove x l = Some (filter (λ y, y ≠ x) l).
Proof.
  induction l as [|y l IH]; intros Hnd Hin; [by apply elem_of_nil in Hin|].
  apply NoDup_cons in Hnd as [Hy Hnd]. simpl.
  case_decide as Heq.
  - subst y. rewrite filter_cons_False by (by intros ?). f_equal.
    symmetry. by apply filter_ne_absent.
  - rewrite filter_cons_True by done.
    apply elem_of_cons in Hin as [->|Hin]; [done|]. by rewrite IH.
Qed.

Lemma store_inv_order_nodup self :
  store_inv self → NoDup (RegionManager.region_order self).
Proof. intros [Hnd Hperm _ _ _ _]. by rewrite Hperm. Qed.

Lemma remove_region_found self label canvas region :
  store_inv self
  → dict_get label (RegionManager.regions self) = Some region
  → RegionManager.remove_region self label canvas
    = (RegionManager.mkManager
         (Validators.mkValidator
            (Validators.file_paths (RegionManager.validator self))
            (Validators.region_labels (RegionManager.validator self) ∖ {[label]}))
         (dict_del label (RegionManager.regions self))
         (filter (λ l, l ≠ label) (RegionManager.region_order self))
         (if decide (RegionManager.selected_region self = Some label)
          then None else RegionManager.selected_region self),
       RegionManager.delete_visual canvas region, Return true).
Proof.
  intros Hinv Hget. pose proof (store_inv_order_nodup self Hinv) as Hnd.
  destruct Hinv as [_ Hperm Hlabels _ _ _].
  assert (label ∈ dict_keys (RegionManager.regions self)) as Hin
    by (apply dict_get_is_Some; eauto).
  unfold RegionManager.remove_region. rewrite Hget.
  rewrite (list_remove_filter _ _ Hnd) by (by rewrite Hperm).
  unfold Validators.remove_label.
  by rewrite bool_decide_eq_true_2 by (by apply Hlabels).
Qed.

Lemma remove_region_missing self label canvas :
  dict_get label (RegionManager.regions self) = None
  → RegionManager.remove_region self label canvas = (self, canvas, Return false).
Proof. intros Hget. unfold RegionManager.remove_region. by rewrite Hget. Qed.

(** X9 ([RegionManager.remove_region]): on a store that satisfies the
    invariant the call returns whether the label was present and never
    raises; an absent label changes nothing; afterwards the label is in
    neither the regions, the order nor the label set, every other region
    is as it was and in the same relative order, a selection of the
    removed label is cleared, and the canvas item of the region is
    deleted. *)
Theorem remove_region_contract (self : RegionManager.RegionManager) (label : string)
    (canvas : option Tk.Canvas) :
  store_inv self
  → let '(self', canvas', r) := RegionManager.remove_region self label canvas in
    r = Return (dict_contains label (RegionManager.regions self))
    ∧ (dict_contains label (RegionManager.regions self) = false
       → self' = self ∧ canvas' = canvas)
    ∧ RegionManager.region_order self'
      = filter (λ l, l ≠ label) (RegionManager.region_order self)
    ∧ (∀ l, dict_get l (RegionManager.regions self')
            = if decide (l = label) then None
              else dict_get l (RegionManager.regions self))
    ∧ (∀ l, l ∈ Validators.region_labels (RegionManager.validator self')
            ↔ l ∈ Validators.region_labels (RegionManager.validator self) ∧ l ≠ label)
    ∧ RegionManager.selected_region self'
      = (if decide (RegionManager.selected_region self = Some label)
         then None else RegionManager.selected_region self)
    ∧ (∀ cv region n,
         canvas = Some cv
         → dict_get label (RegionManager.regions self) = Some region
         → RegionManager.rect_id region = Some (S n)
         → ∃ cv', canvas' = Some cv'
                  ∧ Tk.items cv' = base.delete (S n) (Tk.items cv)).
Proof.
  intros Hinv.
  destruct (dict_get label (RegionManager.regions self)) as [region|] eqn:Hget.
  - rewrite (remove_region_found _ _ _ _ Hinv Hget).
    destruct Hinv as [Hnd Hperm Hlabels Hsel _ _].
    unfold dict_contains. rewrite Hget.
    split_and!; [by rewrite bool_decide_eq_true_2 by eauto| |done| | |done|].
    + rewrite bool_decide_eq_false. intros []. eauto.
    + intros l. cbn [RegionManager.regions]. case_decide as Hl.
      * subst l. by apply dict_get_del_eq.
      * by apply dict_get_del_ne.
    + intros l. cbn [RegionManager.validator Validators.region_labels].
      rewrite elem_of_difference, elem_of_singleton. done.
    + intros cv region' n -> ? Hid. simplify_eq. unfold RegionManager.delete_visual.
      rewrite Hid. by eexists.
  - rewrite (remove_region_missing _ _ _ Hget).
    destruct Hinv as [Hnd Hperm Hlabels Hsel _ _].
    assert (label ∉ dict_keys (RegionManager.regions self)) as Hnotin
      by (by apply dict_get_None).
    unfold dict_contains. rewrite Hget.
    split_and!; [by rewrite bool_decide_eq_false_2 by (by intros [? ?])|done| | | | |done].
    + symmetry. apply filter_ne_absent. by rewrite Hperm.
    + intros l. case_decide as Hl; [by subst l|done].
    + intros l. split; [|tauto]. intros Hl. split; [done|]. intros ->.
      by apply Hnotin, Hlabels.
    + case_decide as Hs; [|done]. destruct Hnotin. by apply Hsel.
Qed.

Lemma remove_region_contract_witness :
  RegionManager.region_order (RegionManager.remove_region three_regions "C" None).1.1
  = ["B"; "A"].
Proof.
  pose proof (remove_region_contract three_regions "C" None
                (reachable_inv _ three_regions_reachable)) as H.
  destruct (RegionManager.remove_region three_regions "C" None) as [[self' canvas'] r].
  destruct H as (_ & _ & H & _). cbn [fst]. rewrite H. reflexivity.
Defined.

(** X10 (a label is free again once its region is gone): on a store that
    satisfies the invariant, after a region has been removed, or renamed
    to another label, [add_region] accepts its former label. *)
Theorem released_label_is_free (tr : CoordinateUtils.CoordinateTransformer)
    (self : RegionManager.RegionManager) (label : string) (c : Rect)
    (canvas canvas1 : option Tk.Canvas) :
  store_inv self
  → label ∈ dict_keys (RegionManager.regions self)
  → (RegionManager.add_region tr
       (RegionManager.remove_region self label canvas).1.1 label c canvas1).2
    = (true, "")
    ∧ ∀ new_label,
        new_label ≠ label
        → (RegionManager.update_region_label self label new_label).2 = Return (true, "")
        → (RegionManager.add_region tr
             (RegionManager.update_region_label self label new_label).1 label c canvas1).2
          = (true, "").
Proof.
  intros Hinv Hin.
  pose proof (inv_valid _ Hinv _ Hin) as Hvalid.
  destruct (store_inv_lookup _ _ Hinv Hin) as (region & index & Hget & Hidx).
  split.
  - rewrite (remove_region_found _ _ _ _ Hinv Hget). cbn [fst].
    rewrite add_region_accepted; [done|].
    apply validate_label_valid; [done|].
    cbn [RegionManager.validator Validators.region_labels].
    rewrite elem_of_difference, elem_of_singleton. tauto.
  - intros new_label Hne Hok.
    destruct (validate_label_cases new_label
                (Validators.region_labels (RegionManager.validator self) ∖ {[label]}))
      as [[msg Hmsg]|Hacc].
    { by rewrite (update_region_label_rejected _ _ _ _ Hin Hmsg) in Hok. }
    rewrite (update_region_label_accepted _ _ _ _ _ Hget Hidx Hacc). cbn [fst].
    rewrite add_region_accepted; [done|].
    apply validate_label_valid; [done|].
    cbn [RegionManager.validator Validators.region_labels].
    rewrite elem_of_union, elem_of_difference, !elem_of_singleton.
    intros [[_ ?]|?]; congruence.
Qed.

Lemma released_label_is_free_witness :
  (RegionManager.add_region CoordinateUtils.init
     (RegionManager.remove_region three_regions "C" None).1.1 "C"
     (rect_of_Z 0 0 1 1) None).2 = (true, "").
Proof.
  apply (released_label_is_free CoordinateUtils.init three_regions "C"
           (rect_of_Z 0 0 1 1) None None).
  - exact (reachable_inv _ three_regions_reachable).
  - apply dict_get_is_Some. eexists. reflexivity.
Defined.

(** ** Changing the box of a region *)


(** ** Clearing and redrawing *)

Lemma clear_visuals_items (entries : list (string * RegionManager.RegionData))
    (cv : Tk.Canvas) :
  ∃ cv',
    foldl (λ c entry, RegionManager.delete_visual c entry.2) (Some cv) entries = Some cv'
    ∧ (∀ id, Tk.items cv' !! id = None ∨ Tk.items cv' !! id = Tk.items cv !! id)
    ∧ (∀ entry n, entry ∈ entries → RegionManager.rect_id entry.2 = Some (S n)
                  → Tk.items cv' !! S n = None)
    ∧ (∀ id, (∀ entry, entry ∈ entries → RegionManager.rect_id entry.2 ≠ Some id)
             → Tk.items cv' !! id = Tk.items cv !! id).
Proof.
  revert cv. induction entries as [|entry entries IH]; intros cv.
  - exists cv. split_and!; [done|by right| |done].
    intros entry n Hin. by apply elem_of_nil in Hin.
  - cbn [foldl].
    assert (∃ cv1,
              RegionManager.delete_visual (Some cv) entry.2 = Some cv1
              ∧ (∀ id, Tk.items cv1 !! id = None ∨ Tk.items cv1 !! id = Tk.items cv !! id)
              ∧ (∀ n, RegionManager.rect_id entry.2 = Some (S n)
                      → Tk.items cv1 !! S n = None)
              ∧ (∀ id, RegionManager.rect_id entry.2 ≠ Some id
                       → Tk.items cv1 !! id = Tk.items cv !! id))
      as (cv1 & -> & Hmono1 & Hgone1 & Hkept1).
    { unfold RegionManager.delete_visual.
      destruct (RegionManager.rect_id entry.2) as [[|n]|];
        [exists cv; split_and!; [done|by right|done|done]| |
         exists cv; split_and!; [done|by right|done|done]].
      exists (Tk.delete cv (S n)). split_and!; [done| | |].
      - intros id. cbn [Tk.delete Tk.items].
        destruct (decide (id = S n)) as [->|Hid].
        + left. apply lookup_delete_eq.
        + right. by apply lookup_delete_ne.
      - intros n' [= ->]. cbn [Tk.delete Tk.items]. apply lookup_delete_eq.
      - intros id Hid. cbn [Tk.delete Tk.items]. apply lookup_delete_ne. congruence. }
    destruct (IH cv1) as (cv' & Hfold & Hmono & Hgone & Hkept).
    exists cv'. split_and!; [done| | |].
    + intros id. destruct (Hmono id) as [?|Heq]; [by left|].
      rewrite Heq. apply Hmono1.
    + intros entry' n Hin Hid. apply elem_of_cons in Hin as [->|Hin]; [|by eapply Hgone].
      destruct (Hmono (S n)) as [?|Heq]; [done|]. rewrite Heq. by apply Hgone1.
    + intros id Hid. rewrite Hkept, Hkept1; [done| |].
      * apply Hid. by left.
      * intros entry' Hin. apply Hid. by right.
Qed.

(** X12 ([RegionManager.clear_all_regions]): the store is emptied (no
    region, no order, no label, no selection) while the tracked files are
    kept; every canvas item owned by a region is deleted and no other
    item is touched; afterwards [add_region] accepts every valid
    label. *)
Theorem clear_all_regions_releases (tr : CoordinateUtils.CoordinateTransformer)
    (self : RegionManager.RegionManager) (cv : Tk.Canvas) :
  let '(self', canvas') := RegionManager.clear_all_regions self (Some cv) in
  RegionManager.regions self' = []
  ∧ RegionManager.region_order self' = []
  ∧ RegionManager.selected_region self' = None
  ∧ Validators.region_labels (RegionManager.validator self') = ∅
  ∧ Validators.file_paths (RegionManager.validator self')
    = Validators.file_paths (RegionManager.validator self)
  ∧ (∃ cv', canvas' = Some cv'
            ∧ (∀ label region n,
                 (label, region) ∈ RegionManager.regions self
                 → RegionManager.rect_id region = Some (S n)
                 → Tk.items cv' !! S n = None)
            ∧ (∀ id, (∀ label region, (label, region) ∈ RegionManager.regions self
                                      → RegionManager.rect_id region ≠ Some id)
                     → Tk.items cv' !! id = Tk.items cv !! id))
  ∧ (∀ label c canvas,
       valid_label label
       → (RegionManager.add_region tr self' label c canvas).2 = (true, "")).
Proof.
  unfold RegionManager.clear_all_regions.
  destruct (clear_visuals_items (RegionManager.regions self) cv)
    as (cv' & -> & _ & Hgone & Hkept).
  cbn [RegionManager.regions RegionManager.region_order RegionManager.selected_region
       RegionManager.validator].
  split_and!; [done..| |].
  - exists cv'. split_and!; [done| |].
    + intros label region n Hin Hid. by apply (Hgone (label, region) n).
    + intros id Hid. apply Hkept. intros [label region] Hin. by apply (Hid label).
  - intros label c canvas Hvalid. rewrite add_region_accepted; [done|].
    apply validate_label_valid; [done|]. cbn. apply not_elem_of_empty.
Qed.

Lemma redraw_region_frame tr self canvas label :
  let self' := (RegionManager.redraw_region tr self canvas label).1 in
  RegionManager.region_order self' = RegionManager.region_order self
  ∧ dict_keys (RegionManager.regions self') = dict_keys (RegionManager.regions self)
  ∧ (∀ l, coords_of self' l = coords_of self l)
  ∧ RegionManager.validator self' = RegionManager.validator self
  ∧ RegionManager.selected_region self' = RegionManager.selected_region self.
Proof.
  unfold RegionManager.redraw_region.
  destruct (dict_get label (RegionManager.regions self)) as [region|] eqn:Hget; [|done].
  destruct (RegionManager._draw_region _ _ _) as [canvas2 id]. simpl.
  split_and!; [done| |  |done|done].
  - apply dict_keys_set_present, dict_get_is_Some. eauto.
  - intros l. unfold coords_of. cbn [RegionManager.regions].
    destruct (decide (label = l)) as [->|Hne].
    + by rewrite dict_get_set_eq, Hget.
    + by rewrite dict_get_set_ne.
Qed.

Lemma redraw_loop_frame tr (labels : list string) self canvas :
  let self' :=
    (foldl (λ '(s, c) label, RegionManager.redraw_region tr s c label)
       (self, canvas) labels).1 in
  RegionManager.region_order self' = RegionManager.region_order self
  ∧ dict_keys (RegionManager.regions self') = dict_keys (RegionManager.regions self)
  ∧ (∀ l, coords_of self' l = coords_of self l)
  ∧ RegionManager.validator self' = RegionManager.validator self
  ∧ RegionManager.selected_region self' = RegionManager.selected_region self.
Proof.
  revert self canvas. induction labels as [|label labels IH]; intros self canvas; [done|].
  simpl.
  pose proof (redraw_region_frame tr self canvas label) as Hstep.
  destruct (RegionManager.redraw_region tr self canvas label) as [self1 canvas1].
  simpl in Hstep. destruct Hstep as (Ho & Hk & Hc & Hv & Hs).
  specialize (IH self1 canvas1). simpl in IH. destruct IH as (Ho' & Hk' & Hc' & Hv' & Hs').
  split_and!; [congruence|congruence| |congruence|congruence].
  intros l. by rewrite Hc', Hc.
Qed.

(** X13 ([RegionManager.redraw_all_regions]): redrawing changes the canvas
    handles only: the order, the keys, the box of every label, the label
    set and the selection are those of the store before, with or without
    a canvas. *)
Theorem redraw_all_regions_keeps_store (tr : CoordinateUtils.CoordinateTransformer)
    (self : RegionManager.RegionManager) (canvas : option Tk.Canvas) :
  let self' := (RegionManager.redraw_all_regions tr self canvas).1 in
  RegionManager.region_order self' = RegionManager.region_order self
  ∧ dict_keys (RegionManager.regions self') = dict_keys (RegionManager.regions self)
  ∧ (∀ l, coords_of self' l = coords_of self l)
  ∧ RegionManager.validator self' = RegionManager.validator self
  ∧ RegionManager.selected_region self' = RegionManager.selected_region self
  ∧ (canvas = None → self' = self).
Proof.
  unfold RegionManager.redraw_all_regions. destruct canvas as [cv|]; [|done].
  pose proof (redraw_loop_frame tr (RegionManager.region_order self) self cv) as H.
  destruct (foldl _ _ _) as [self' cv']. simpl in *.
  destruct H as (? & ? & ? & ? & ?). by split_and!.
Qed.

(** ** Cancelling a resize and ending a gesture *)

Lemma opposite_corner_exists corner (original : Rect) :
  corner ∈ Settings.RESIZE_CORNERS → ∃ anchor, opposite_corner corner original = Some anchor.
Proof.
  destruct original as [[[x0 y0] x1] y1]. unfold Settings.RESIZE_CORNERS.
  rewrite !elem_of_cons, elem_of_nil.
  intros [->|[->|[->|[->|[]]]]]; by eexists.
Qed.

Lemma with_coords_frame rm label c rect_id region :
  dict_get label (RegionManager.regions rm) = Some region
  → dict_keys (RegionManager.regions (with_coords rm label c rect_id))
    = dict_keys (RegionManager.regions rm)
    ∧ RegionManager.region_order (with_coords rm label c rect_id)
      = RegionManager.region_order rm
    ∧ ∀ l, l ≠ label → coords_of (with_coords rm label c rect_id) l = coords_of rm l.
Proof.
  intros Hget. unfold with_coords, coords_of. cbn [RegionManager.regions].
  split_and!; [|done|].
  - apply dict_keys_set_present, dict_get_is_Some. eauto.
  - intros l Hl. by rewrite dict_get_set_ne.
Qed.

Lemma handle_mouse_drag_resizes tool tr rm canvas (x y : Qc) :
  ResizeTool.is_resizing tool = true
  → ResizeTool.handle_mouse_drag tool tr rm canvas x y
    = let '(rm', canvas', r) := ResizeTool.update_resize tool tr rm canvas x y in
      (rm', canvas', r ≫= λ _, Return tt).
Proof. intros H. unfold ResizeTool.handle_mouse_drag. by rewrite H. Qed.

Lemma drag_resizing_frame tool tr label corner original (points : list (Qc * Qc)) :
  resizing tool label corner original
  → str_truthy label = true
  → corner ∈ Settings.RESIZE_CORNERS
  → ∀ rm canvas region,
      dict_get label (RegionManager.regions rm) = Some region
      → ∃ rm' canvas' region',
          drag tool tr rm canvas points = (rm', canvas', Return tt)
          ∧ dict_get label (RegionManager.regions rm') = Some region'
          ∧ RegionManager.region_order rm' = RegionManager.region_order rm
          ∧ dict_keys (RegionManager.regions rm') = dict_keys (RegionManager.regions rm)
          ∧ ∀ l, l ≠ label → coords_of rm' l = coords_of rm l.
Proof.
  intros Htool Hlabel Hcorner.
  destruct (opposite_corner_exists corner original Hcorner) as [anchor Hanchor].
  induction points as [|[x y] points IH]; intros rm canvas region Hget.
  - by exists rm, canvas, region.
  - destruct (canvas_to_pdf_coords_returns tr x y) as [[px py] Hp].
    destruct (update_resize_resizing tool tr rm canvas x y px py label corner original
                anchor region Htool Hlabel Hanchor Hget Hp) as [canvas1 Hstep].
    cbn [drag]. rewrite handle_mouse_drag_resizes by apply Htool. rewrite Hstep. simpl.
    destruct (with_coords_frame rm label (span (px, py) anchor)
                (RegionManager.rect_id region) region Hget) as (Hk & Ho & Hc).
    destruct (IH _ canvas1 _ (with_coords_lookup rm label (span (px, py) anchor)
                                (RegionManager.rect_id region)))
      as (rm' & canvas' & region' & Hdrag & Hget' & Ho' & Hk' & Hc').
    exists rm', canvas', region'. split_and!; [done|done|congruence|congruence|].
    intros l Hl. by rewrite Hc', Hc.
Qed.

(** X14 ([ResizeTool.cancel_resize]): on a store that satisfies the
    invariant, after a resize has been started on a region and the
    pointer dragged through any points, cancelling puts the region back
    on the box it had when the resize started, leaves every other region
    and the order as they were, and ends the resize. *)
Theorem cancel_resize_restores (tr : CoordinateUtils.CoordinateTransformer)
    (rm : RegionManager.RegionManager) (canvas : Tk.Canvas)
    (tool0 : ResizeTool.ResizeTool) (label corner : string) (press_x press_y : Qc)
    (original : Rect) (points : list (Qc * Qc)) :
  store_inv rm
  → coords_of rm label = Some original
  → corner ∈ Settings.RESIZE_CORNERS
  → ∃ tool canvas0 rm1 canvas1 tool' rm2 canvas2,
      ResizeTool.start_resize tool0 rm canvas label corner press_x press_y
      = (tool, canvas0, true)
      ∧ drag tool tr rm canvas0 points = (rm1, canvas1, Return tt)
      ∧ ResizeTool.cancel_resize tool tr rm1 canvas1 = (tool', rm2, canvas2, Return true)
      ∧ coords_of rm2 label = Some original
      ∧ (∀ l, l ≠ label → coords_of rm2 l = coords_of rm l)
      ∧ RegionManager.region_order rm2 = RegionManager.region_order rm
      ∧ ResizeTool.is_resizing tool' = false
      ∧ ResizeTool.resize_region tool' = None
      ∧ ResizeTool.original_coords tool' = None.
Proof.
  intros Hinv Horig Hcorner.
  destruct (coords_of_lookup _ _ _ Horig) as (region & Hget & Hcoords).
  pose proof (store_inv_label_truthy _ _ _ Hinv Hget) as Hlabel.
  destruct (start_resize_started tool0 rm canvas label corner press_x press_y region
              Hget Hcorner) as (tool & canvas0 & Hstart & Htool).
  rewrite Hcoords in Htool.
  destruct (drag_resizing_frame tool tr label corner original points Htool Hlabel
              Hcorner rm canvas0 region Hget)
    as (rm1 & canvas1 & region1 & Hdrag & Hget1 & Ho1 & Hk1 & Hc1).
  assert (CoordinateUtils.normalize_coords original = original) as Hnorm.
  { rewrite <- Hcoords. apply (inv_normalized _ Hinv label).
    by apply dict_get_Some_elem. }
  destruct (update_region_coords_found tr rm1 label original canvas1 region1 Hget1)
    as [canvas2 Hupd].
  rewrite Hnorm in Hupd.
  destruct Htool as (Hres & Hregion & _ & Horiginal).
  destruct (with_coords_frame rm1 label original (RegionManager.rect_id region1) region1
              Hget1) as (Hk2 & Ho2 & Hc2).
  eexists tool, canvas0, rm1, canvas1, _, _, _.
  split; [done|]. split; [done|]. split.
  { unfold ResizeTool.cancel_resize. rewrite Hres, Hregion. cbn [opt_str_truthy].
    rewrite Hlabel. cbn [negb orb]. rewrite Hget1, Horiginal, Hupd.
    unfold ResizeTool.finish_resize. rewrite Hres. cbn [negb default]. reflexivity. }
  split_and!; [apply with_coords_coords_of| |congruence|done|done|done].
  intros l Hl. by rewrite Hc2, Hc1.
Qed.

Lemma cancel_resize_restores_witness :
  ∃ tool canvas0 rm1 canvas1 tool' rm2 canvas2,
    ResizeTool.start_resize ResizeTool.init three_regions Tk.init "A" "bottom-right"
      (Qc_of_Z 20) (Qc_of_Z 20) = (tool, canvas0, true)
    ∧ drag tool CoordinateUtils.init three_regions canvas0
        [(Qc_of_Z 30, Qc_of_Z 40); (Qc_of_Z 2, Qc_of_Z 3)] = (rm1, canvas1, Return tt)
    ∧ ResizeTool.cancel_resize tool CoordinateUtils.init rm1 canvas1
      = (tool', rm2, canvas2, Return true)
    ∧ coords_of rm2 "A" = Some (rect_of_Z 0 0 10 10).
Proof.
  destruct (cancel_resize_restores CoordinateUtils.init three_regions Tk.init
              ResizeTool.init "A" "bottom-right" (Qc_of_Z 20) (Qc_of_Z 20)
              (rect_of_Z 0 0 10 10)
              [(Qc_of_Z 30, Qc_of_Z 40); (Qc_of_Z 2, Qc_of_Z 3)])
    as (tool & canvas0 & rm1 & canvas1 & tool' & rm2 & canvas2 & H1 & H2 & H3 & H4 & _).
  - exact (reachable_inv _ three_regions_reachable).
  - reflexivity.
  - unfold Settings.RESIZE_CORNERS. rewrite !elem_of_cons. auto.
  - by exists tool, canvas0, rm1, canvas1, tool', rm2, canvas2.
Defined.

Lemma handle_mouse_press_flags tool tr rm canvas (x y : Qc) :
  ResizeTool.is_resizing tool = false
  → ResizeTool.is_moving tool = false
  → let tool1 := (ResizeTool.handle_mouse_press tool tr rm canvas x y).1 in
    ResizeTool.is_resizing tool1 && ResizeTool.is_moving tool1 = false.
Proof.
  intros Hres Hmov. unfold ResizeTool.handle_mouse_press.
  destruct (ResizeTool.find_corner tr rm x y (RegionManager.regions rm))
    as [[label corner]|].
  - unfold ResizeTool.start_resize.
    destruct (dict_get label (RegionManager.regions rm)) as [region|];
      [|by cbn; rewrite Hres].
    destruct (bool_decide (corner ∈ Settings.RESIZE_CORNERS)); cbn; [done|by rewrite Hres].
  - destruct (ResizeTool.find_containing tr x y (RegionManager.regions rm)) as [label|];
      [|by cbn; rewrite Hres].
    unfold ResizeTool.start_move.
    destruct (dict_get label (RegionManager.regions rm)) as [region|];
      [|by cbn; rewrite Hres].
    destruct (RegionManager.coords region) as [[[x0 y0] x1] y1]. cbn. by rewrite Hres.
Qed.

Lemma handle_mouse_release_flags tool rm canvas :
  ResizeTool.is_resizing tool && ResizeTool.is_moving tool = false
  → let '(tool2, canvas2) := ResizeTool.handle_mouse_release tool rm canvas in
    ResizeTool.is_resizing tool2 = false
    ∧ ResizeTool.is_moving tool2 = false
    ∧ Tk.cursor canvas2 = "".
Proof.
  intros Hflags. unfold ResizeTool.handle_mouse_release.
  destruct (ResizeTool.is_resizing tool) eqn:Hres.
  - unfold ResizeTool.finish_resize. rewrite Hres. cbn in *. by split_and!.
  - destruct (ResizeTool.is_moving tool) eqn:Hmov.
    + unfold ResizeTool.finish_move. rewrite Hmov. by cbn.
    + by cbn.
Qed.

(** X15 ([ResizeTool.handle_mouse_press] then [handle_mouse_release]):
    from a tool that is neither resizing nor moving, a press anywhere
    followed by a release leaves the tool neither resizing nor moving,
    with the default cursor, so that later motion events change
    nothing. *)
Theorem press_then_release_is_idle (tool : ResizeTool.ResizeTool)
    (tr : CoordinateUtils.CoordinateTransformer) (rm rm' : RegionManager.RegionManager)
    (canvas canvas' : Tk.Canvas) (x y : Qc) :
  ResizeTool.is_resizing tool = false
  → ResizeTool.is_moving tool = false
  → let tool1 := (ResizeTool.handle_mouse_press tool tr rm canvas x y).1 in
    let '(tool2, canvas2) := ResizeTool.handle_mouse_release tool1 rm' canvas' in
    ResizeTool.is_resizing tool2 = false
    ∧ ResizeTool.is_moving tool2 = false
    ∧ Tk.cursor canvas2 = ""
    ∧ ∀ rm'' canvas'' x' y',
        ResizeTool.handle_mouse_drag tool2 tr rm'' canvas'' x' y'
        = (rm'', canvas'', Return tt).
Proof.
  intros Hres Hmov tool1.
  pose proof (handle_mouse_press_flags tool tr rm canvas x y Hres Hmov) as Hflags.
  pose proof (handle_mouse_release_flags tool1 rm' canvas' Hflags) as Hrel.
  destruct (ResizeTool.handle_mouse_release tool1 rm' canvas') as [tool2 canvas2].
  destruct Hrel as (Hres2 & Hmov2 & Hcur).
  split_and!; [done..|].
  intros. unfold ResizeTool.handle_mouse_drag. by rewrite Hres2, Hmov2.
Qed.

Lemma press_then_release_is_idle_witness :
  ResizeTool.is_moving
    (ResizeTool.handle_mouse_release
       (ResizeTool.handle_mouse_press ResizeTool.init CoordinateUtils.init three_regions
          Tk.init (Qc_of_Z 10) (Qc_of_Z 10)).1
       three_regions Tk.init).1 = false.
Proof.
  pose proof (press_then_release_is_idle ResizeTool.init CoordinateUtils.init
                three_regions three_regions Tk.init Tk.init (Qc_of_Z 10) (Qc_of_Z 10)
                eq_refl eq_refl) as H.
  cbv zeta in H.
  destruct (ResizeTool.handle_mouse_release _ _ _) as [tool2 canvas2].
  exact (proj1 (proj2 H)).
Defined.

(** ** The list of imported files *)

Section pdf_files.
Variable normalize : string → string.

Lemma pdf_inv_init : pdf_inv normalize PDFFiles.init.
Proof.
  split; [constructor|]. intros p. cbn.
  split; [by intros ?%not_elem_of_empty|by intros ?%elem_of_nil].
Qed.

Lemma add_file_fresh (v : Validators.DuplicateValidator) (file_path : string) :
  normalize file_path ∉ Validators.file_paths v
  → ValidatorsFiles.add_file normalize v file_path
    = (Validators.mkValidator (Validators.file_paths v ∪ {[normalize file_path]})
         (Validators.region_labels v), true).
Proof.
  intros Hfresh. unfold ValidatorsFiles.add_file.
  by rewrite bool_decide_eq_false_2.
Qed.

(** What the loop of [add_pdfs] does with the paths it is given. *)
Lemma add_pdfs_loop_spec path_exists path_isfile basename
    (file_paths : list string) (self : PDFFiles.PDFManager)
    (added_count : nat) (error_messages : list string) :
  ∃ self' added new_errors,
    PDFFiles.add_pdfs_loop normalize path_exists path_isfile basename
      file_paths self added_count error_messages
    = (self', ((added_count + length added)%nat, error_messages ++ new_errors))
    ∧ PDFFiles.pdf_files self' = PDFFiles.pdf_files self ++ added
    ∧ (length added + length new_errors = length file_paths)%nat
    ∧ added `sublist_of` file_paths
    ∧ Forall (λ p, ValidatorsFiles.validate_pdf_path path_exists path_isfile p = (true, "")
                   ∧ normalize p ∉ Validators.file_paths (PDFFiles.validator self))
        added
    ∧ Validators.region_labels (PDFFiles.validator self')
      = Validators.region_labels (PDFFiles.validator self)
    ∧ PDFFiles.current_path self' = PDFFiles.current_path self
    ∧ (pdf_inv normalize self → pdf_inv normalize self').
Proof.
  revert self added_count error_messages.
  induction file_paths as [|file_path rest IH]; intros self added_count error_messages.
  - exists self, [], []. cbn [PDFFiles.add_pdfs_loop].
    rewrite Nat.add_0_r, !app_nil_r. by split_and!.
  - cbn [PDFFiles.add_pdfs_loop].
    destruct (ValidatorsFiles.validate_pdf_path path_exists path_isfile file_path)
      as [[|] error_msg] eqn:Hvalid; cbn [negb].
    + unfold ValidatorsFiles.is_duplicate_file.
      destruct (decide (normalize file_path
                        ∈ Validators.file_paths (PDFFiles.validator self))) as [Hdup|Hfresh].
      * rewrite bool_decide_eq_true_2 by done.
        destruct (IH self added_count
                    (error_messages
                     ++ [basename file_path +:+ ": " +:+ PDFFiles.ERROR_DUPLICATE_FILE]))
          as (self' & added & new_errors & -> & Hfiles & Hlen & Hsub & Hall & Hl & Hc & Hi).
        exists self', added,
          ((basename file_path +:+ ": " +:+ PDFFiles.ERROR_DUPLICATE_FILE) :: new_errors).
        rewrite <- app_assoc. cbn [app length].
        split_and!; [done|done|lia|by apply sublist_cons|done..].
      * rewrite bool_decide_eq_false_2 by done.
        rewrite add_file_fresh by done.
        match goal with |- context [PDFFiles.add_pdfs_loop _ _ _ _ rest ?s ?n ?e] =>
          destruct (IH s n e)
            as (self' & added & new_errors & -> & Hfiles & Hlen & Hsub & Hall & Hl & Hc & Hi)
        end.
        cbn [PDFFiles.pdf_files PDFFiles.validator Validators.file_paths
             Validators.region_labels PDFFiles.current_path] in *.
        exists self', (file_path :: added), new_errors. cbn [length].
        split_and!; [f_equal; f_equal; lia|by rewrite Hfiles, <- app_assoc|lia
                    |by apply sublist_skip| |done|done|].
        -- constructor.
           ++ assert (error_msg = "") as ->; [|done].
              revert Hvalid. unfold ValidatorsFiles.validate_pdf_path.
              repeat case_match; congruence.
           ++ eapply Forall_impl; [exact Hall|]. intros p [Hp Hnotin]. split; [done|].
              intros Hin. apply Hnotin. apply elem_of_union. by left.
        -- intros [Hnd Htracked]. apply Hi. split.
           ++ cbn [PDFFiles.pdf_files]. rewrite fmap_app. cbn [fmap list_fmap].
              apply NoDup_app. split_and!; [done| |apply NoDup_singleton].
              intros p Hp Hp'. apply list_elem_of_singleton in Hp'. subst p.
              by apply Hfresh, Htracked.
           ++ intros p. cbn [PDFFiles.pdf_files PDFFiles.validator Validators.file_paths].
              rewrite fmap_app, elem_of_app, elem_of_union, elem_of_singleton, Htracked.
              cbn [fmap list_fmap]. by rewrite list_elem_of_singleton.
    + destruct (IH self added_count
                  (error_messages ++ [basename file_path +:+ ": " +:+ error_msg]))
        as (self' & added & new_errors & -> & Hfiles & Hlen & Hsub & Hall & Hl & Hc & Hi).
      exists self', added, ((basename file_path +:+ ": " +:+ error_msg) :: new_errors).
      rewrite <- app_assoc. cbn [app length].
      split_and!; [done|done|lia|by apply sublist_cons|done..].
Qed.

Lemma add_pdfs_inv path_exists path_isfile basename self file_paths :
  pdf_inv normalize self
  → pdf_inv normalize
      (PDFFiles.add_pdfs normalize path_exists path_isfile basename self file_paths).1.
Proof.
  intros Hinv. unfold PDFFiles.add_pdfs. destruct file_paths as [|p rest]; [done|].
  destruct (add_pdfs_loop_spec path_exists path_isfile basename (p :: rest) self 0 [])
    as (self' & added & new_errors & -> & _ & _ & _ & _ & _ & _ & Hi).
  by apply Hi.
Qed.

Lemma remove_pdf_inv self index :
  pdf_inv normalize self → pdf_inv normalize (PDFFiles.remove_pdf normalize self index).1.
Proof.
  intros [Hnd Htracked]. unfold PDFFiles.remove_pdf.
  destruct (negb _); [done|].
  destruct (PDFFiles.pdf_files self !! Z.to_nat index) as [file_path|] eqn:Hl; [|done].
  cbn [fst]. unfold ValidatorsFiles.remove_file.
  rewrite bool_decide_eq_true_2
    by (apply Htracked, list_elem_of_fmap; eexists; split;
        [done|by eapply list_elem_of_lookup_2]).
  rewrite <- (take_drop_middle _ _ _ Hl) in Hnd, Htracked.
  rewrite fmap_app, fmap_cons in Hnd, Htracked.
  apply NoDup_app in Hnd as (Hnd1 & Hdisj & Hnd2).
  apply NoDup_cons in Hnd2 as [Hnotin Hnd2].
  split.
  - cbn [PDFFiles.pdf_files]. rewrite delete_take_drop, fmap_app.
    apply NoDup_app. split_and!; [done| |done].
    intros p Hp Hp'. apply (Hdisj p Hp). by right.
  - intros p. cbn [PDFFiles.pdf_files PDFFiles.validator Validators.file_paths fst].
    rewrite elem_of_difference, elem_of_singleton, Htracked.
    rewrite delete_take_drop, fmap_app, !elem_of_app, elem_of_cons.
    split.
    + intros [[?|[?|?]] ?]; [by left|done|by right].
    + intros [Hp|Hp]; (split; [auto|]); intros ->; [|done].
      apply (Hdisj _ Hp). by left.
Qed.

Lemma clear_all_pdfs_inv self : pdf_inv normalize (PDFFiles.clear_all_pdfs self).
Proof.
  split; [constructor|]. intros p. cbn.
  split; [by intros ?%not_elem_of_empty|by intros ?%elem_of_nil].
Qed.

Lemma pdf_step_inv self self' :
  pdf_step normalize self self' → pdf_inv normalize self → pdf_inv normalize self'.
Proof.
  intros Hstep Hinv. destruct Hstep.
  - by apply add_pdfs_inv.
  - by apply remove_pdf_inv.
  - apply clear_all_pdfs_inv.
Qed.

End pdf_files.

(** X16 (the file list): after any sequence of [add_pdfs], [remove_pdf]
    and [clear_all_pdfs] from the empty manager, no file is listed twice,
    also not under two spellings with the same normal form, and the
    validator tracks exactly the normal forms of the listed paths. *)
Theorem pdf_files_never_duplicated (normalize : string → string)
    (self : PDFFiles.PDFManager) :
  rtc (pdf_step normalize) PDFFiles.init self
  → NoDup (normalize <$> PDFFiles.pdf_files self)
    ∧ NoDup (PDFFiles.pdf_files self)
    ∧ ∀ p, p ∈ Validators.file_paths (PDFFiles.validator self)
           ↔ ∃ file_path, file_path ∈ PDFFiles.pdf_files self ∧ p = normalize file_path.
Proof.
  intros Hreach.
  assert (pdf_inv normalize self) as [Hnd Htracked].
  { revert self Hreach. apply (rtc_ind_r (R := pdf_step normalize) (pdf_inv normalize)).
    - apply pdf_inv_init.
    - intros self self' _ Hstep Hinv. by eapply pdf_step_inv. }
  split_and!; [done|by eapply NoDup_fmap_1|].
  intros p. rewrite Htracked, list_elem_of_fmap.
  split; [intros (q & -> & Hq)|intros (q & Hq & ->)]; by exists q.
Qed.

Lemma pdf_files_never_duplicated_witness :
  PDFFiles.pdf_files
    (PDFFiles.add_pdfs as_written every_path every_path as_written PDFFiles.init
       ["a.pdf"; "b.PDF"; "a.pdf"; "notes.txt"]).1
  = ["a.pdf"; "b.PDF"]
  ∧ NoDup (PDFFiles.pdf_files
             (PDFFiles.add_pdfs as_written every_path every_path as_written PDFFiles.init
                ["a.pdf"; "b.PDF"; "a.pdf"; "notes.txt"]).1).
Proof.
  split; [reflexivity|].
  apply (pdf_files_never_duplicated as_written).
  eapply rtc_l; [|apply rtc_refl]. apply step_add_pdfs.
Defined.

(** X17 ([PDFManager.add_pdfs]): every path given is either appended to
    the list or answered by one error message, the paths appended are in
    the order given, each of them passes [validate_pdf_path] and was not
    tracked before, and the returned count is the number appended.  The
    region labels and the current document are not touched. *)
Theorem add_pdfs_accounts_for_every_path (normalize : string → string)
    (path_exists path_isfile : string → bool) (basename : string → string)
    (self : PDFFiles.PDFManager) (file_paths : list string) :
  let '(self', (added_count, error_messages)) :=
    PDFFiles.add_pdfs normalize path_exists path_isfile basename self file_paths in
  ∃ added,
    PDFFiles.pdf_files self' = PDFFiles.pdf_files self ++ added
    ∧ added_count = length added
    ∧ (added_count + length error_messages = length file_paths)%nat
    ∧ added `sublist_of` file_paths
    ∧ Forall (λ p, ValidatorsFiles.validate_pdf_path path_exists path_isfile p = (true, "")
                   ∧ ValidatorsFiles.is_duplicate_file normalize
                       (PDFFiles.validator self) p = false)
        added
    ∧ Validators.region_labels (PDFFiles.validator self')
      = Validators.region_labels (PDFFiles.validator self)
    ∧ PDFFiles.current_path self' = PDFFiles.current_path self.
Proof.
  unfold PDFFiles.add_pdfs. destruct file_paths as [|p rest].
  { exists []. rewrite app_nil_r. by split_and!. }
  destruct (add_pdfs_loop_spec normalize path_exists path_isfile basename (p :: rest)
              self 0 [])
    as (self' & added & new_errors & -> & Hfiles & Hlen & Hsub & Hall & Hl & Hc & _).
  exists added. split_and!; [done|done|by cbn|done| |done|done].
  eapply Forall_impl; [exact Hall|]. intros q [Hq Hfresh]. split; [done|].
  unfold ValidatorsFiles.is_duplicate_file. by rewrite bool_decide_eq_false_2.
Qed.

(** ** Drawing a box *)

Lemma scaled_min (a b f : Qc) :
  py_min (py_min a b / f) (py_max a b / f) = py_min (a / f) (b / f).
Proof.
  destruct (Qclt_le_dec b a) as [Hlt|Hle].
  - rewrite (py_min_ge a b), (py_max_ge a b) by done. apply py_min_comm.
  - by rewrite (py_min_le a b), (py_max_le a b).
Qed.

Lemma scaled_max (a b f : Qc) :
  py_max (py_min a b / f) (py_max a b / f) = py_max (a / f) (b / f).
Proof.
  destruct (Qclt_le_dec b a) as [Hlt|Hle].
  - rewrite (py_min_ge a b), (py_max_ge a b) by done. apply py_max_comm.
  - by rewrite (py_min_le a b), (py_max_le a b).
Qed.

Lemma canvas_to_pdf_coords_degenerate tr (x y : Qc) :
  CoordinateUtils.zoom tr * CoordinateUtils.scale tr = 0
  → CoordinateUtils.canvas_to_pdf_coords tr x y = Return (0, 0).
Proof.
  intros Hf. unfold CoordinateUtils.canvas_to_pdf_coords,
    CoordinateUtils.canvas_to_image_coords.
  by apply image_to_pdf_coords_degenerate.
Qed.

Lemma clear_temp_rect_state box canvas :
  SelectionTools.start_pos (SelectionTools._clear_temp_rect box canvas).1
  = SelectionTools.start_pos box
  ∧ SelectionTools.is_drawing (SelectionTools._clear_temp_rect box canvas).1
    = SelectionTools.is_drawing box.
Proof.
  unfold SelectionTools._clear_temp_rect.
  by destruct (SelectionTools.temp_rect box) as [[|n]|].
Qed.

Lemma box_handle_mouse_press_drawing box tr canvas (x y : Qc) :
  ∃ box1 canvas1,
    SelectionTools.box_handle_mouse_press box tr canvas x y = (box1, canvas1, true)
    ∧ SelectionTools.is_drawing box1 = true
    ∧ SelectionTools.start_pos box1
      = Some (x - CoordinateUtils.offset_x tr, y - CoordinateUtils.offset_y tr).
Proof.
  unfold SelectionTools.box_handle_mouse_press, CoordinateUtils.canvas_to_image_coords.
  match goal with |- context [SelectionTools._clear_temp_rect ?b ?c] =>
    pose proof (clear_temp_rect_state b c) as [Hs Hd];
    destruct (SelectionTools._clear_temp_rect b c) as [box1 canvas1]
  end.
  by exists box1, canvas1.
Qed.

Lemma box_handle_mouse_drag_drawing box tr canvas (x y : Qc) start :
  SelectionTools.is_drawing box = true
  → SelectionTools.start_pos box = Some start
  → ∃ box1 canvas1,
      SelectionEvents.box_handle_mouse_drag box tr canvas x y = (box1, canvas1, true)
      ∧ SelectionTools.is_drawing box1 = true
      ∧ SelectionTools.start_pos box1 = Some start.
Proof.
  intros Hd Hs. unfold SelectionEvents.box_handle_mouse_drag. rewrite Hd, Hs.
  destruct start as [sx sy]. cbn [negb].
  unfold CoordinateUtils.canvas_to_image_coords, CoordinateUtils.image_to_canvas_coords.
  pose proof (clear_temp_rect_state box canvas) as [Hs' Hd'].
  destruct (SelectionTools._clear_temp_rect box canvas) as [box1 canvas1].
  cbn in *. eexists _, _. split; [done|]. cbn. by rewrite Hd', Hs', Hd, Hs.
Qed.

Lemma box_drag_drawing box tr canvas (points : list (Qc * Qc)) start :
  SelectionTools.is_drawing box = true
  → SelectionTools.start_pos box = Some start
  → ∃ box1 canvas1,
      box_drag box tr canvas points = (box1, canvas1)
      ∧ SelectionTools.is_drawing box1 = true
      ∧ SelectionTools.start_pos box1 = Some start.
Proof.
  revert box canvas. induction points as [|[x y] points IH]; intros box canvas Hd Hs.
  - by exists box, canvas.
  - destruct (box_handle_mouse_drag_drawing box tr canvas x y start Hd Hs)
      as (box1 & canvas1 & Hdrag & Hd1 & Hs1).
    cbn [box_drag]. rewrite Hdrag. by apply IH.
Qed.

(** The box a release returns, and the box [add_region] would store for
    it: the one spanned by the document points of the press and of the
    release. *)
Lemma box_handle_mouse_release_drawing box tr canvas (px py qx qy : Qc) :
  SelectionTools.is_drawing box = true
  → SelectionTools.start_pos box
    = Some (px - CoordinateUtils.offset_x tr, py - CoordinateUtils.offset_y tr)
  → ∃ box1 canvas1 coords dp dq,
      SelectionEvents.box_handle_mouse_release box tr canvas qx qy
      = (box1, canvas1, Return (true, Some coords))
      ∧ CoordinateUtils.canvas_to_pdf_coords tr px py = Return dp
      ∧ CoordinateUtils.canvas_to_pdf_coords tr qx qy = Return dq
      ∧ CoordinateUtils.normalize_coords coords = span dp dq
      ∧ SelectionTools.is_drawing box1 = false
      ∧ SelectionTools.start_pos box1 = None.
Proof.
  intros Hd Hs. unfold SelectionEvents.box_handle_mouse_release. rewrite Hd, Hs.
  cbn [negb]. unfold CoordinateUtils.canvas_to_image_coords.
  destruct (SelectionTools._clear_temp_rect box canvas) as [box1 canvas1].
  unfold CoordinateUtils.normalize_rect.
  destruct (decide (CoordinateUtils.zoom tr * CoordinateUtils.scale tr = 0)) as [Hf|Hf].
  - pose proof (canvas_to_pdf_coords_degenerate tr px py Hf) as Hdp.
    pose proof (canvas_to_pdf_coords_degenerate tr qx qy Hf) as Hdq.
    rewrite !image_to_pdf_coords_degenerate by done.
    cbn [mbind outcome_mbind outcome_bind].
    eexists _, _, _, _, _. split_and!; [done|exact Hdp|exact Hdq| |done|done].
    unfold span, CoordinateUtils.normalize_coords, CoordinateUtils.normalize_rect.
    cbn [fst snd]. by rewrite !py_min_le, !py_max_le.
  - pose proof (canvas_to_pdf_coords_regular tr px py Hf) as Hdp.
    pose proof (canvas_to_pdf_coords_regular tr qx qy Hf) as Hdq.
    rewrite !image_to_pdf_coords_regular by done.
    cbn [mbind outcome_mbind outcome_bind].
    eexists _, _, _, _, _. split_and!; [done|exact Hdp|exact Hdq| |done|done].
    unfold span, CoordinateUtils.normalize_coords, CoordinateUtils.normalize_rect.
    cbn [fst snd]. by rewrite !scaled_min, !scaled_max.
Qed.

Lemma box_handle_mouse_release_idle box tr canvas (x y : Qc) :
  SelectionTools.is_drawing box = false
  → SelectionEvents.box_handle_mouse_release box tr canvas x y
    = (box, canvas, Return (false, None)).
Proof. intros Hd. unfold SelectionEvents.box_handle_mouse_release. by rewrite Hd. Qed.

(** X18 ([BoxSelectionTool]: press, drag, release): whatever the state of
    the tool and of the transformer, a press at one point, any motion
    events and a release at another point return a box which, once
    normalized, is the box spanned by the document points of the press
    and of the release, so the direction of the drag does not matter;
    the tool is then no longer drawing, and a further release returns
    [(False, None)]. *)
Theorem box_gesture_spans_press_and_release (box : SelectionTools.BoxSelectionTool)
    (tr : CoordinateUtils.CoordinateTransformer) (canvas : Tk.Canvas)
    (px py qx qy : Qc) (points : list (Qc * Qc)) :
  ∃ box1 canvas1 box2 canvas2 box3 canvas3 coords dp dq,
    SelectionTools.box_handle_mouse_press box tr canvas px py = (box1, canvas1, true)
    ∧ box_drag box1 tr canvas1 points = (box2, canvas2)
    ∧ SelectionEvents.box_handle_mouse_release box2 tr canvas2 qx qy
      = (box3, canvas3, Return (true, Some coords))
    ∧ CoordinateUtils.canvas_to_pdf_coords tr px py = Return dp
    ∧ CoordinateUtils.canvas_to_pdf_coords tr qx qy = Return dq
    ∧ CoordinateUtils.normalize_coords coords = span dp dq
    ∧ span dp dq = span dq dp
    ∧ SelectionTools.is_drawing box3 = false
    ∧ SelectionTools.start_pos box3 = None
    ∧ ∀ c x y,
        SelectionEvents.box_handle_mouse_release box3 tr c x y
        = (box3, c, Return (false, None)).
Proof.
  destruct (box_handle_mouse_press_drawing box tr canvas px py)
    as (box1 & canvas1 & Hpress & Hd1 & Hs1).
  destruct (box_drag_drawing box1 tr canvas1 points _ Hd1 Hs1)
    as (box2 & canvas2 & Hdrag & Hd2 & Hs2).
  destruct (box_handle_mouse_release_drawing box2 tr canvas2 px py qx qy Hd2 Hs2)
    as (box3 & canvas3 & coords & dp & dq & Hrel & Hdp & Hdq & Hspan & Hd3 & Hs3).
  exists box1, canvas1, box2, canvas2, box3, canvas3, coords, dp, dq.
  split_and!; try done.
  - unfold span. by rewrite (py_min_comm dp.1), (py_min_comm dp.2),
      (py_max_comm dp.1), (py_max_comm dp.2).
  - intros c x y. by apply box_handle_mouse_release_idle.
Qed.

(** ** The application in box mode *)

Lemma set_tool_known sel canvas tool_name :
  known_tool sel
  → tool_name ∈ ["word"; "box"]
  → ∃ box canvas',
      SelectionTools.set_tool sel canvas tool_name
      = (SelectionTools.mkSelection tool_name box, canvas', Return true)
      ∧ (SelectionTools.current_tool sel = "box"
         → (box, canvas') = SelectionTools.cancel_drawing (SelectionTools.box_tool sel) canvas)
      ∧ (SelectionTools.current_tool sel = "word"
         → box = SelectionTools.box_tool sel ∧ canvas' = canvas).
Proof.
  intros Hknown Hname. unfold SelectionTools.set_tool.
  rewrite bool_decide_eq_true_2 by done. cbn [negb].
  destruct Hknown as [Hcur|Hcur]; rewrite Hcur.
  - rewrite decide_False by done. rewrite decide_True by done.
    eexists _, _. by split_and!.
  - rewrite decide_True by done.
    destruct (SelectionTools.cancel_drawing _ _) as [box' canvas'].
    eexists _, _. by split_and!.
Qed.

Lemma on_mouse_press_box app (x y : Qc) reply :
  App.mode app = "box"
  → known_tool (App.selection_tools app)
  → ∃ box canvas,
      App.on_mouse_press app x y reply
      = (App.mkApp "box" (App.coord_transformer app) (App.text_coords app)
           (App.region_manager app) canvas (SelectionTools.mkSelection "box" box)
           (App.resize_tool app), Return tt)
      ∧ SelectionTools.is_drawing box = true
      ∧ SelectionTools.start_pos box
        = Some (x - CoordinateUtils.offset_x (App.coord_transformer app),
                y - CoordinateUtils.offset_y (App.coord_transformer app)).
Proof.
  intros Hmode Hknown. unfold App.on_mouse_press. rewrite Hmode.
  rewrite decide_False by done.
  destruct (set_tool_known (App.selection_tools app) (App.canvas app) "box" Hknown)
    as (box0 & canvas0 & -> & _); [rewrite !elem_of_cons; auto|].
  unfold SelectionTools.handle_mouse_press. cbn [SelectionTools.current_tool].
  rewrite decide_True by done. cbn [SelectionTools.box_tool].
  destruct (box_handle_mouse_press_drawing box0 (App.coord_transformer app) canvas0 x y)
    as (box1 & canvas1 & -> & Hd & Hs).
  rewrite bool_decide_eq_false_2 by done. cbn [andb].
  by exists box1, canvas1.
Qed.

Lemma app_drag_box (points : list (Qc * Qc)) tr text rm tool :
  ∀ box canvas start,
    SelectionTools.is_drawing box = true
    → SelectionTools.start_pos box = Some start
    → ∃ box' canvas',
        app_drag
          (App.mkApp "box" tr text rm canvas (SelectionTools.mkSelection "box" box) tool)
          points
        = (App.mkApp "box" tr text rm canvas' (SelectionTools.mkSelection "box" box')
             tool, Return tt)
        ∧ SelectionTools.is_drawing box' = true
        ∧ SelectionTools.start_pos box' = Some start.
Proof.
  induction points as [|[x y] points IH]; intros box canvas start Hd Hs.
  - by exists box, canvas.
  - cbn [app_drag]. unfold AppEvents.on_mouse_drag. cbn [App.mode].
    rewrite decide_False by done.
    unfold SelectionEvents.handle_mouse_drag.
    cbn [App.selection_tools SelectionTools.current_tool SelectionTools.box_tool
         App.coord_transformer App.canvas].
    rewrite decide_True by done.
    destruct (box_handle_mouse_drag_drawing box tr canvas x y start Hd Hs)
      as (box1 & canvas1 & -> & Hd1 & Hs1).
    cbn. by apply IH.
Qed.

Lemma on_mouse_release_box tr text rm tool box canvas (px py qx qy : Qc)
    (reply : option string) :
  SelectionTools.is_drawing box = true
  → SelectionTools.start_pos box
    = Some (px - CoordinateUtils.offset_x tr, py - CoordinateUtils.offset_y tr)
  → ∃ box' canvas' canvas'' coords dp dq,
      AppEvents.on_mouse_release
        (App.mkApp "box" tr text rm canvas (SelectionTools.mkSelection "box" box) tool)
        qx qy reply
      = (App.mkApp "box" tr text
           match reply with
           | Some label =>
               if str_truthy label
               then (RegionManager.add_region tr rm label coords (Some canvas')).1.1
               else rm
           | None => rm
           end
           canvas'' (SelectionTools.mkSelection "box" box') tool, Return tt)
      ∧ CoordinateUtils.canvas_to_pdf_coords tr px py = Return dp
      ∧ CoordinateUtils.canvas_to_pdf_coords tr qx qy = Return dq
      ∧ CoordinateUtils.normalize_coords coords = span dp dq
      ∧ SelectionTools.is_drawing box' = false.
Proof.
  intros Hd Hs.
  destruct (box_handle_mouse_release_drawing box tr canvas px py qx qy Hd Hs)
    as (box3 & canvas3 & coords & dp & dq & Hrel & Hdp & Hdq & Hspan & Hd3 & Hs3).
  unfold AppEvents.on_mouse_release. cbn [App.mode].
  rewrite decide_False by done. rewrite decide_True by done.
  unfold SelectionEvents.handle_mouse_release.
  cbn [App.selection_tools SelectionTools.current_tool SelectionTools.box_tool
       App.coord_transformer App.canvas App.region_manager App.text_coords
       App.resize_tool].
  rewrite decide_True by done. rewrite Hrel. cbn [mbind outcome_mbind outcome_bind].
  destruct reply as [label|]; [|by exists box3, canvas3, canvas3, coords, dp, dq].
  destruct (str_truthy label); [|by exists box3, canvas3, canvas3, coords, dp, dq].
  unfold SelectionTools.create_box_region.
  destruct (RegionManager.add_region tr rm label coords (Some canvas3))
    as [[rm' canvas4] r] eqn:Hadd.
  exists box3, canvas3, (default canvas3 canvas4), coords, dp, dq.
  by rewrite Hadd.
Qed.

(** X19 ([on_mouse_press], [on_mouse_drag], [on_mouse_release] in box
    mode): with the selection tools on one of their two tools, a press,
    any motion events and a release never raise and leave the box tool
    idle; the store is unchanged until the release, and after it
    - when the dialog is cancelled or answered with an empty label, or
      the label is rejected by [validate_label], the store is unchanged;
    - when the label is accepted, the label is appended to the order and
      holds the box spanned by the document points of the press and of
      the release, and the other regions are as they were. *)
Theorem box_mode_gesture_adds_region (app : App.PDFExtractionApp)
    (px py qx qy : Qc) (points : list (Qc * Qc)) (reply0 reply : option string) :
  App.mode app = "box"
  → known_tool (App.selection_tools app)
  → let tr := App.coord_transformer app in
    let rm := App.region_manager app in
    ∃ app1 app2 app3 dp dq,
      App.on_mouse_press app px py reply0 = (app1, Return tt)
      ∧ app_drag app1 points = (app2, Return tt)
      ∧ AppEvents.on_mouse_release app2 qx qy reply = (app3, Return tt)
      ∧ App.region_manager app2 = rm
      ∧ CoordinateUtils.canvas_to_pdf_coords tr px py = Return dp
      ∧ CoordinateUtils.canvas_to_pdf_coords tr qx qy = Return dq
      ∧ SelectionTools.is_drawing (SelectionTools.box_tool (App.selection_tools app3))
        = false
      ∧ match reply with
        | Some label =>
            if str_truthy label then
              match Validators.validate_label label
                      (Validators.region_labels (RegionManager.validator rm)) with
              | (true, _) =>
                  coords_of (App.region_manager app3) label = Some (span dp dq)
                  ∧ RegionManager.region_order (App.region_manager app3)
                    = RegionManager.region_order rm ++ [label]
                  ∧ ∀ l, l ≠ label
                         → coords_of (App.region_manager app3) l = coords_of rm l
              | (false, _) => App.region_manager app3 = rm
              end
            else App.region_manager app3 = rm
        | None => App.region_manager app3 = rm
        end.
Proof.
  intros Hmode Hknown tr rm.
  destruct (on_mouse_press_box app px py reply0 Hmode Hknown)
    as (box1 & canvas1 & Hpress & Hd1 & Hs1).
  destruct (app_drag_box points tr (App.text_coords app) rm (App.resize_tool app)
              box1 canvas1 _ Hd1 Hs1) as (box2 & canvas2 & Hdrag & Hd2 & Hs2).
  destruct (on_mouse_release_box tr (App.text_coords app) rm (App.resize_tool app)
              box2 canvas2 px py qx qy reply Hd2 Hs2)
    as (box3 & canvas3 & canvas4 & coords & dp & dq & Hrel & Hdp & Hdq & Hspan & Hd3).
  eexists _, _, _, dp, dq.
  split; [exact Hpress|]. split; [exact Hdrag|]. split; [exact Hrel|].
  split_and!; [done..|].
  cbn [App.region_manager].
  destruct reply as [label|]; [|done].
  destruct (str_truthy label) eqn:Hlabel; [|done].
  destruct (Validators.validate_label label
              (Validators.region_labels (RegionManager.validator rm)))
    as [[|] msg] eqn:Hvalid.
  - destruct (validate_label_true _ _ _ Hvalid) as (-> & _ & _).
    rewrite (add_region_accepted tr rm label coords (Some canvas3) Hvalid).
    unfold coords_of. cbn [fst RegionManager.regions RegionManager.region_order].
    split_and!; [|done|].
    + rewrite dict_get_set_eq. cbn [fmap option_fmap option_map].
      by rewrite drawn_region_coords, Hspan.
    + intros l Hl. by rewrite dict_get_set_ne.
  - by rewrite (add_region_rejected tr rm label coords (Some canvas3) msg Hvalid).
Qed.

Lemma box_mode_gesture_adds_region_witness :
  let app :=
    App.mkApp "box" CoordinateUtils.init [] RegionManager.init Tk.init
      SelectionTools.init ResizeTool.init in
  ∃ app1 app2 app3,
    App.on_mouse_press app (Qc_of_Z 40) (Qc_of_Z 60) None = (app1, Return tt)
    ∧ app_drag app1 [(Qc_of_Z 30, Qc_of_Z 30)] = (app2, Return tt)
    ∧ AppEvents.on_mouse_release app2 (Qc_of_Z 20) (Qc_of_Z 80) (Some "A")
      = (app3, Return tt)
    ∧ RegionManager.region_order (App.region_manager app3) = ["A"].
Proof.
  intros app.
  destruct (box_mode_gesture_adds_region app (Qc_of_Z 40) (Qc_of_Z 60) (Qc_of_Z 20)
              (Qc_of_Z 80) [(Qc_of_Z 30, Qc_of_Z 30)] None (Some "A"))
    as (app1 & app2 & app3 & dp & dq & H1 & H2 & H3 & _ & _ & _ & _ & H4).
  - reflexivity.
  - by left.
  - exists app1, app2, app3. split_and!; [done..|].
    cbn in H4. by destruct H4 as (_ & -> & _).
Defined.

(** ** Picking a word *)

Lemma py_min_lb_l (x y : Qc) : py_min x y ≤ x.
Proof.
  unfold py_min. case_decide as Hlt; [by apply Qclt_le_weak|apply Qcle_refl].
Qed.

Lemma py_min_lb_r (x y : Qc) : py_min x y ≤ y.
Proof.
  unfold py_min. case_decide as Hlt; [apply Qcle_refl|by apply Qcnot_lt_le].
Qed.

Lemma py_max_ub_l (x y : Qc) : x ≤ py_max x y.
Proof.
  unfold py_max. case_decide as Hlt; [by apply Qclt_le_weak|apply Qcle_refl].
Qed.

Lemma py_max_ub_r (x y : Qc) : y ≤ py_max x y.
Proof.
  unfold py_max. case_decide as Hlt; [apply Qcle_refl|by apply Qcnot_lt_le].
Qed.

Lemma Qcmult_le_compat_neg_r (x y z : Qc) : x ≤ y → z ≤ 0 → y * z ≤ x * z.
Proof.
  intros Hxy Hz.
  assert (0 ≤ - z) as Hz'.
  { apply Qcopp_le_compat in Hz. by replace (- 0) with 0 in Hz by ring. }
  pose proof (Qcmult_le_compat_r _ _ _ Hxy Hz') as H.
  apply Qcopp_le_compat in H.
  by replace (- (y * - z)) with (y * z) in H by ring;
     replace (- (x * - z)) with (x * z) in H by ring.
Qed.

(** A point between two bounds stays between them after both and the
    point are scaled, whatever the sign of the factor. *)
Lemma between_scaled (a m b k : Qc) :
  a ≤ m → m ≤ b → py_min (a * k) (b * k) ≤ m * k ∧ m * k ≤ py_max (a * k) (b * k).
Proof.
  intros Ham Hmb. destruct (Qclt_le_dec k 0) as [Hk|Hk].
  - apply Qclt_le_weak in Hk. split.
    + eapply Qcle_trans; [apply py_min_lb_r|]. by apply Qcmult_le_compat_neg_r.
    + eapply Qcle_trans; [|apply py_max_ub_l]. by apply Qcmult_le_compat_neg_r.
  - split.
    + eapply Qcle_trans; [apply py_min_lb_l|]. by apply Qcmult_le_compat_r.
    + eapply Qcle_trans; [|apply py_max_ub_r]. by apply Qcmult_le_compat_r.
Qed.

Lemma rect_contains_true (c : Rect) (x y : Qc) :
  RegionManager.rect_contains c x y = true
  ↔ c.1.1.1 ≤ x ∧ x ≤ c.1.2 ∧ c.1.1.2 ≤ y ∧ y ≤ c.2.
Proof.
  destruct c as [[[x0 y0] x1] y1]. unfold RegionManager.rect_contains. cbn [fst snd].
  rewrite !andb_true_iff, !bool_decide_eq_true. tauto.
Qed.

(** The region [create_word_region] stores for a word holds the document
    point of every pointer position over the word. *)
Lemma word_region_holds_pointer tr (bbox : Rect) (x y : Qc) :
  RegionManager.rect_contains bbox
    (CoordinateUtils.canvas_to_image_coords tr x y).1
    (CoordinateUtils.canvas_to_image_coords tr x y).2 = true
  → ∃ p0 p1 p,
      CoordinateUtils.image_to_pdf_coords tr bbox.1.1.1 bbox.1.1.2 = Return p0
      ∧ CoordinateUtils.image_to_pdf_coords tr bbox.1.2 bbox.2 = Return p1
      ∧ CoordinateUtils.canvas_to_pdf_coords tr x y = Return p
      ∧ RegionManager.rect_contains
          (CoordinateUtils.normalize_coords (p0.1, p0.2, p1.1, p1.2)) p.1 p.2 = true.
Proof.
  destruct bbox as [[[x0 y0] x1] y1]. rewrite rect_contains_true. cbn [fst snd].
  unfold CoordinateUtils.canvas_to_image_coords. cbn [fst snd].
  intros (Hx0 & Hx1 & Hy0 & Hy1).
  destruct (decide (CoordinateUtils.zoom tr * CoordinateUtils.scale tr = 0)) as [Hf|Hf].
  - exists (0, 0), (0, 0), (0, 0).
    rewrite !image_to_pdf_coords_degenerate, canvas_to_pdf_coords_degenerate by done.
    split_and!; [done..|]. apply rect_contains_true. cbn [fst snd].
    unfold CoordinateUtils.normalize_coords, CoordinateUtils.normalize_rect.
    cbn [fst snd]. rewrite !py_min_le, !py_max_le by done. by split_and!.
  - eexists (_, _), (_, _), (_, _).
    rewrite !image_to_pdf_coords_regular, canvas_to_pdf_coords_regular by done.
    split_and!; [done..|]. apply rect_contains_true.
    unfold CoordinateUtils.normalize_coords, CoordinateUtils.normalize_rect.
    cbn [fst snd]. unfold Qcdiv.
    destruct (between_scaled _ _ _ (/ (CoordinateUtils.zoom tr * CoordinateUtils.scale tr))
                Hx0 Hx1) as [? ?].
    destruct (between_scaled _ _ _ (/ (CoordinateUtils.zoom tr * CoordinateUtils.scale tr))
                Hy0 Hy1) as [? ?].
    by split_and!.
Qed.

(** X20 ([on_mouse_press] in word mode, then [get_region_at_point]):
    when a word lies under the pointer and the dialog returns a label
    that [validate_label] accepts, the press adds a region under that
    label at the end of the order, with a normalized box, and a hit test
    at the same pointer position finds the new region, whatever the
    zoom, scale and offsets. *)
Theorem word_pick_is_found_under_pointer (app : App.PDFExtractionApp) (x y : Qc)
    (label : string) (bbox : Rect) (word : string) :
  App.mode app = "word"
  → known_tool (App.selection_tools app)
  → PDFManager.find_word_at_position (App.coord_transformer app) (App.text_coords app) x y
    = Some (bbox, word)
  → str_truthy label = true
  → Validators.validate_label label
      (Validators.region_labels (RegionManager.validator (App.region_manager app)))
    = (true, "")
  → ∃ app' c,
      App.on_mouse_press app x y (Some label) = (app', Return tt)
      ∧ RegionManager.region_order (App.region_manager app')
        = RegionManager.region_order (App.region_manager app) ++ [label]
      ∧ coords_of (App.region_manager app') label = Some c
      ∧ normalized c
      ∧ (∀ l, l ≠ label
              → coords_of (App.region_manager app') l = coords_of (App.region_manager app) l)
      ∧ RegionManager.get_region_at_point (App.coord_transformer app)
          (App.region_manager app') x y = Return (Some label).
Proof.
  intros Hmode Hknown Hword Hlabel Hvalid.
  set (tr := App.coord_transformer app) in *.
  assert (RegionManager.rect_contains bbox
            (CoordinateUtils.canvas_to_image_coords tr x y).1
            (CoordinateUtils.canvas_to_image_coords tr x y).2 = true) as Hin.
  { unfold PDFManager.find_word_at_position in Hword.
    destruct (CoordinateUtils.canvas_to_image_coords tr x y) as [ix iy].
    by apply find_some in Hword as [_ Hword]. }
  destruct (word_region_holds_pointer tr bbox x y Hin)
    as ([px0 py0] & [px1 py1] & [px py] & Hp0 & Hp1 & Hp & Hholds).
  cbn [fst snd] in Hholds.
  unfold App.on_mouse_press. rewrite Hmode. rewrite decide_False by done.
  destruct (set_tool_known (App.selection_tools app) (App.canvas app) "word" Hknown)
    as (box0 & canvas0 & -> & _); [rewrite !elem_of_cons; auto|].
  unfold SelectionTools.handle_mouse_press. cbn [SelectionTools.current_tool].
  rewrite decide_False by done. rewrite decide_True by done.
  unfold SelectionTools.word_handle_mouse_press. fold tr. rewrite Hword.
  rewrite bool_decide_eq_true_2 by done. cbn [andb]. rewrite Hlabel.
  unfold SelectionTools.create_word_region.
  destruct bbox as [[[x0 y0] x1] y1]. cbn [fst snd] in Hp0, Hp1.
  rewrite Hp0, Hp1.
  rewrite (add_region_accepted tr (App.region_manager app) label (px0, py0, px1, py1)
             (Some canvas0) Hvalid).
  cbn [mbind outcome_mbind outcome_bind].
  eexists _, (CoordinateUtils.normalize_coords (px0, py0, px1, py1)).
  split; [done|].
  cbn [App.region_manager App.coord_transformer RegionManager.region_order].
  unfold coords_of. cbn [RegionManager.regions].
  split_and!; [done| |apply normalize_coords_normalized| |].
  - rewrite dict_get_set_eq. cbn [fmap option_fmap option_map].
    by rewrite drawn_region_coords.
  - intros l Hl. by rewrite dict_get_set_ne.
  - unfold RegionManager.get_region_at_point. rewrite Hp.
    cbn [mbind outcome_mbind outcome_bind RegionManager.region_order
         RegionManager.regions].
    rewrite reverse_snoc. cbn [List.find].
    rewrite dict_get_set_eq, drawn_region_coords. by rewrite Hholds.
Qed.

Lemma word_pick_is_found_under_pointer_witness :
  let app :=
    App.mkApp "word" CoordinateUtils.init [(rect_of_Z 10 10 50 20, "total")]
      RegionManager.init Tk.init SelectionTools.init ResizeTool.init in
  RegionManager.get_region_at_point CoordinateUtils.init
    (App.region_manager (App.on_mouse_press app (Qc_of_Z 30) (Qc_of_Z 15) (Some "T")).1)
    (Qc_of_Z 30) (Qc_of_Z 15)
  = Return (Some "T").
Proof.
  intros app.
  destruct (word_pick_is_found_under_pointer app (Qc_of_Z 30) (Qc_of_Z 15) "T"
              (rect_of_Z 10 10 50 20) "total")
    as (app' & c & H1 & _ & _ & _ & _ & H2); [reflexivity|by left|reflexivity..|].
  by rewrite H1.
Defined.

(** ** Switching the selection tool *)

(** X21 ([SelectionToolManager.set_tool]): with the manager on one of its
    two tools, an unknown tool name is refused and changes nothing; a
    known name becomes the current tool, and when the tool left is the
    box tool its drawing is cancelled: its transient rectangle is deleted
    from the canvas, it is no longer drawing, and a release that follows
    returns no box, whichever tool was chosen. *)
Theorem set_tool_cancels_drawing (sel : SelectionTools.SelectionToolManager)
    (canvas : Tk.Canvas) (tool_name : string) :
  known_tool sel
  → let '(sel', canvas', r) := SelectionTools.set_tool sel canvas tool_name in
    r = Return (bool_decide (tool_name ∈ ["word"; "box"]))
    ∧ (tool_name ∉ ["word"; "box"] → sel' = sel ∧ canvas' = canvas)
    ∧ (tool_name ∈ ["word"; "box"]
       → SelectionTools.current_tool sel' = tool_name
         ∧ known_tool sel'
         ∧ (SelectionTools.current_tool sel = "word"
            → SelectionTools.box_tool sel' = SelectionTools.box_tool sel
              ∧ canvas' = canvas)
         ∧ (SelectionTools.current_tool sel = "box"
            → SelectionTools.is_drawing (SelectionTools.box_tool sel') = false
              ∧ SelectionTools.start_pos (SelectionTools.box_tool sel') = None
              ∧ (∀ n, SelectionTools.temp_rect (SelectionTools.box_tool sel) = Some (S n)
                      → SelectionTools.temp_rect (SelectionTools.box_tool sel') = None
                        ∧ Tk.items canvas' = base.delete (S n) (Tk.items canvas))
              ∧ ∀ tr c x y,
                  ∃ released,
                    SelectionEvents.handle_mouse_release sel' tr c x y
                    = (sel', c, Return released)
                    ∧ (released = SelectionEvents.ReleaseFlag false
                       ∨ released = SelectionEvents.ReleasePair false None))).
Proof.
  intros Hknown.
  destruct (decide (tool_name ∈ ["word"; "box"])) as [Hname|Hname].
  - destruct (set_tool_known sel canvas tool_name Hknown Hname)
      as (box & canvas' & -> & Hbox & Hword).
    rewrite bool_decide_eq_true_2 by done.
    split_and!; [done|done|]. intros _.
    cbn [SelectionTools.current_tool SelectionTools.box_tool].
    assert (known_tool (SelectionTools.mkSelection tool_name box)) as Hknown'.
    { unfold known_tool. cbn [SelectionTools.current_tool].
      rewrite !elem_of_cons, elem_of_nil in Hname. tauto. }
    split_and!; [done|done|done|].
    intros Hcur. specialize (Hbox Hcur). unfold SelectionTools.cancel_drawing in Hbox.
    unfold SelectionTools._clear_temp_rect in Hbox.
    assert (SelectionTools.is_drawing box = false ∧ SelectionTools.start_pos box = None)
      as [Hd Hs].
    { destruct (SelectionTools.temp_rect (SelectionTools.box_tool sel)) as [[|n]|];
        by simplify_eq/=. }
    split_and!; [done|done| |].
    + intros n Hn. rewrite Hn in Hbox. by simplify_eq/=.
    + intros tr c x y. unfold SelectionEvents.handle_mouse_release.
      cbn [SelectionTools.current_tool SelectionTools.box_tool].
      destruct Hknown' as [Hw|Hb]; cbn in Hw || cbn in Hb; subst tool_name.
      * rewrite decide_False by done. rewrite decide_True by done.
        eexists. split; [done|by left].
      * rewrite decide_True by done.
        rewrite box_handle_mouse_release_idle by done.
        cbn [mbind outcome_mbind outcome_bind].
        eexists. split; [|by right]. by destruct box; simplify_eq/=.
  - unfold SelectionTools.set_tool. rewrite !bool_decide_eq_false_2 by done.
    by split_and!.
Qed.

Lemma set_tool_cancels_drawing_witness :
  let box := SelectionTools.mkBox (Some (Qc_of_Z 1, Qc_of_Z 1)) (Some 1%nat) true in
  let canvas :=
    (Tk.create_rectangle Tk.init (Qc_of_Z 1) (Qc_of_Z 1) (Qc_of_Z 5) (Qc_of_Z 5) "red").1 in
  SelectionTools.is_drawing
    (SelectionTools.box_tool
       (SelectionTools.set_tool (SelectionTools.mkSelection "box" box) canvas "word").1.1)
  = false.
Proof.
  intros box canvas.
  pose proof (set_tool_cancels_drawing (SelectionTools.mkSelection "box" box) canvas
                "word" (or_intror eq_refl)) as H.
  destruct (SelectionTools.set_tool _ _ _) as [[sel' canvas'] r].
  destruct H as (_ & _ & H). destruct H as (_ & _ & _ & H); [rewrite !elem_of_cons; auto|].
  by destruct H as (H & _).
Defined.

(** ** The order buttons *)

Lemma neighbours_lookup {A} (l1 : list A) (c d : A) (l2 : list A) :
  (l1 ++ c :: d :: l2) !! length l1 = Some c
  ∧ (l1 ++ c :: d :: l2) !! S (length l1) = Some d.
Proof. induction l1 as [|x l1 IH]; [done|]. exact IH. Qed.

Lemma neighbours_move_up {A} (l1 : list A) (c d : A) (l2 : list A) :
  list_insert_at (length l1) d (base.delete (S (length l1)) (l1 ++ c :: d :: l2))
  = l1 ++ d :: c :: l2.
Proof.
  induction l1 as [|x l1 IH]; [done|].
  cbn [length app]. unfold list_insert_at in *.
  change (base.delete (S (S (length l1))) (x :: (l1 ++ c :: d :: l2)))
    with (x :: base.delete (S (length l1)) (l1 ++ c :: d :: l2)).
  cbn [take drop app]. by rewrite IH.
Qed.

Lemma neighbours_move_down {A} (l1 : list A) (c d : A) (l2 : list A) :
  list_insert_at (S (length l1)) c (base.delete (length l1) (l1 ++ c :: d :: l2))
  = l1 ++ d :: c :: l2.
Proof.
  induction l1 as [|x l1 IH]; [done|].
  cbn [length app]. unfold list_insert_at in *.
  change (base.delete (S (length l1)) (x :: (l1 ++ c :: d :: l2)))
    with (x :: base.delete (length l1) (l1 ++ c :: d :: l2)).
  cbn [take drop app]. by rewrite IH.
Qed.

Lemma move_region_neighbour_up (s : RegionManager.RegionManager)
    (l1 : list string) (c d : string) (l2 : list string) :
  RegionManager.region_order s = l1 ++ c :: d :: l2
  → RegionManager.move_region s (Z.of_nat (S (length l1))) (Z.of_nat (S (length l1)) - 1)
    = (RegionManager.mkManager (RegionManager.validator s) (RegionManager.regions s)
         (l1 ++ d :: c :: l2) (RegionManager.selected_region s), true).
Proof.
  intros Hs. unfold RegionManager.move_region. rewrite Hs.
  assert (length (l1 ++ c :: d :: l2) = S (S (length l1 + length l2))) as Hlen
    by (rewrite length_app; cbn [length]; lia).
  rewrite Hlen.
  match goal with |- context [negb ?t] =>
    assert (t = true) as -> by (rewrite !andb_true_iff, !Z.leb_le, !Z.ltb_lt; lia)
  end.
  cbn [negb]. rewrite Nat2Z.id.
  replace (Z.to_nat (Z.of_nat (S (length l1)) - 1)) with (length l1) by lia.
  rewrite (proj2 (neighbours_lookup l1 c d l2)).
  by rewrite neighbours_move_up.
Qed.

Lemma move_region_neighbour_down (s : RegionManager.RegionManager)
    (l1 : list string) (c d : string) (l2 : list string) :
  RegionManager.region_order s = l1 ++ c :: d :: l2
  → RegionManager.move_region s (Z.of_nat (length l1)) (Z.of_nat (length l1) + 1)
    = (RegionManager.mkManager (RegionManager.validator s) (RegionManager.regions s)
         (l1 ++ d :: c :: l2) (RegionManager.selected_region s), true).
Proof.
  intros Hs. unfold RegionManager.move_region. rewrite Hs.
  assert (length (l1 ++ c :: d :: l2) = S (S (length l1 + length l2))) as Hlen
    by (rewrite length_app; cbn [length]; lia).
  rewrite Hlen.
  match goal with |- context [negb ?t] =>
    assert (t = true) as -> by (rewrite !andb_true_iff, !Z.leb_le, !Z.ltb_lt; lia)
  end.
  cbn [negb]. rewrite Nat2Z.id.
  replace (Z.to_nat (Z.of_nat (length l1) + 1)) with (S (length l1)) by lia.
  rewrite (proj1 (neighbours_lookup l1 c d l2)).
  by rewrite neighbours_move_down.
Qed.

(** X22 ([move_region_up], [move_region_down]): with the list box
    selection on an entry that has a neighbour above, "move up" swaps the
    two labels and moves the selection up by one; "move down" on the
    upper of two neighbours swaps them and moves the selection down, so
    one after the other restore the store and the selection.  On the
    first entry "move up" does nothing, on the last "move down" does
    nothing. *)
Theorem order_buttons_swap_neighbours (rm : RegionManager.RegionManager)
    (above : list string) (a b : string) (below : list string) :
  RegionManager.region_order rm = above ++ a :: b :: below
  → let swapped :=
      RegionManager.mkManager (RegionManager.validator rm) (RegionManager.regions rm)
        (above ++ b :: a :: below) (RegionManager.selected_region rm) in
    AppEvents.move_region_up rm [S (length above)] = (swapped, [length above])
    ∧ AppEvents.move_region_down rm [length above] = (swapped, [S (length above)])
    ∧ AppEvents.move_region_down swapped [length above] = (rm, [S (length above)])
    ∧ AppEvents.move_region_up rm [0%nat] = (rm, [0%nat])
    ∧ AppEvents.move_region_down rm [(length (RegionManager.region_order rm) - 1)%nat]
      = (rm, [(length (RegionManager.region_order rm) - 1)%nat]).
Proof.
  intros Horder swapped.
  assert (length (RegionManager.region_order rm) = S (S (length above + length below)))
    as Hlen by (rewrite Horder, length_app; cbn [length]; lia).
  split_and!.
  - unfold AppEvents.move_region_up. cbn [Nat.ltb Nat.leb].
    rewrite (move_region_neighbour_up rm above a b below Horder).
    by rewrite Nat.sub_1_r.
  - unfold AppEvents.move_region_down. rewrite Hlen.
    match goal with |- context [(?x <? ?y)%Z] =>
      assert ((x <? y)%Z = true) as -> by (apply Z.ltb_lt; lia)
    end.
    rewrite (move_region_neighbour_down rm above a b below Horder).
    by rewrite Nat.add_1_r.
  - unfold AppEvents.move_region_down.
    assert (length (RegionManager.region_order swapped)
            = S (S (length above + length below))) as ->
      by (cbn [swapped RegionManager.region_order]; rewrite length_app;
          cbn [length]; lia).
    match goal with |- context [(?x <? ?y)%Z] =>
      assert ((x <? y)%Z = true) as -> by (apply Z.ltb_lt; lia)
    end.
    rewrite (move_region_neighbour_down swapped above b a below eq_refl).
    cbn [swapped RegionManager.validator RegionManager.regions
         RegionManager.selected_region].
    rewrite Nat.add_1_r, <- Horder. by destruct rm.
  - done.
  - unfold AppEvents.move_region_down. rewrite Hlen.
    match goal with |- context [(?x <? ?y)%Z] =>
      assert ((x <? y)%Z = false) as -> by (apply Z.ltb_ge; lia)
    end.
    done.
Qed.

Lemma order_buttons_swap_neighbours_witness :
  RegionManager.region_order (AppEvents.move_region_up three_regions [2%nat]).1
  = ["B"; "A"; "C"]
  ∧ (AppEvents.move_region_up three_regions [2%nat]).2 = [1%nat].
Proof.
  destruct (order_buttons_swap_neighbours three_regions ["B"] "C" "A" [] eq_refl)
    as (H & _).
  cbn [length] in H. by rewrite H.
Defined.

(** ** Extraction over the regions *)

Lemma extraction_loop {V} (f : string → V) (labels : list string)
    (data : list (string * V)) :
  NoDup (dict_keys data ++ labels)
  → let data' := foldl (λ d label, dict_set label (f label) d) data labels in
    dict_keys data' = dict_keys data ++ labels
    ∧ (∀ label, label ∈ labels → dict_get label data' = Some (f label))
    ∧ (∀ label, label ∉ labels → dict_get label data' = dict_get label data).
Proof.
  revert data. induction labels as [|l labels IH]; intros data Hnd.
  - cbn. rewrite app_nil_r. split_and!; [done| |done].
    intros label Hin. by apply elem_of_nil in Hin.
  - cbn [foldl].
    assert (l ∉ dict_keys data) as Hl.
    { apply NoDup_app in Hnd as (_ & Hdisj & _). intros Hin.
      apply (Hdisj l Hin). by left. }
    assert (dict_keys (dict_set l (f l) data) = dict_keys data ++ [l]) as Hkeys.
    { rewrite dict_set_absent by done. unfold dict_keys. by rewrite fmap_app. }
    destruct (IH (dict_set l (f l) data)) as (Hk & Hin & Hout).
    { rewrite Hkeys, <- app_assoc. done. }
    assert (l ∉ labels) as Hl'.
    { apply NoDup_app in Hnd as (_ & _ & Hnd). by apply NoDup_cons in Hnd as [? _]. }
    split_and!.
    + by rewrite Hk, Hkeys, <- app_assoc.
    + intros label Hlabel. apply elem_of_cons in Hlabel as [->|Hlabel]; [|by apply Hin].
      rewrite Hout by done. apply dict_get_set_eq.
    + intros label Hlabel. apply not_elem_of_cons in Hlabel as [Hne Hlabel].
      rewrite Hout by done. by apply dict_get_set_ne.
Qed.

(** X23 ([ExportManager.extract_current_pdf]): the extraction fails with
    the message for a missing document when no document is open, and
    with the message for missing regions when the store holds none; on a
    store that satisfies the invariant it otherwise returns one entry
    per region, in the display order, each holding the text extracted
    from the box of its region in the open document. *)
Theorem extract_current_pdf_follows_order (extract_text_from_region : string → Rect → string)
    (current_path : option string) (rm : RegionManager.RegionManager) :
  store_inv rm
  → match ExportManager.extract_current_pdf extract_text_from_region current_path rm with
    | (true, message, Some data) =>
        message = "Extraction complete"
        ∧ RegionManager.regions rm ≠ []
        ∧ dict_keys data = RegionManager.region_order rm
        ∧ ∃ path, current_path = Some path ∧ str_truthy path = true
                  ∧ ∀ label c, coords_of rm label = Some c
                               → dict_get label data
                                 = Some (extract_text_from_region path c)
    | (false, message, None) =>
        (opt_str_truthy current_path = false ∧ message = ExportManager.ERROR_NO_PDF)
        ∨ (opt_str_truthy current_path = true ∧ RegionManager.regions rm = []
           ∧ message = ExportManager.ERROR_NO_REGIONS)
    | _ => False
    end.
Proof.
  intros Hinv. unfold ExportManager.extract_current_pdf.
  destruct current_path as [path|]; [|by left].
  destruct (str_truthy path) eqn:Hpath; cbn [negb]; [|by left].
  destruct (RegionManager.regions rm) as [|entry entries] eqn:Hregions; [by right|].
  rewrite <- Hregions.
  set (f := λ label,
         match dict_get label (RegionManager.regions rm) with
         | Some region_data =>
             extract_text_from_region path (RegionManager.coords region_data)
         | None => ""
         end).
  assert (∀ labels data,
            foldl (λ data label,
                     match dict_get label (RegionManager.regions rm) with
                     | Some region_data =>
                         dict_set label
                           (extract_text_from_region path
                              (RegionManager.coords region_data)) data
                     | None => dict_set label "" data
                     end) data labels
            = foldl (λ d label, dict_set label (f label) d) data labels) as Hfold.
  { induction labels as [|l labels IH]; intros data; [done|].
    cbn [foldl]. rewrite IH. f_equal. unfold f.
    by destruct (dict_get l (RegionManager.regions rm)). }
  rewrite Hfold.
  destruct (extraction_loop f (RegionManager.region_order rm) [])
    as (Hkeys & Hin & _).
  { cbn. by apply store_inv_order_nodup. }
  split_and!; [done|by rewrite Hregions|done|].
  exists path. split_and!; [done..|].
  intros label c Hc. destruct (coords_of_lookup _ _ _ Hc) as (region & Hget & <-).
  rewrite Hin.
  - unfold f. by rewrite Hget.
  - rewrite (inv_order_perm _ Hinv). apply dict_get_is_Some. eauto.
Qed.

Lemma extract_current_pdf_follows_order_witness :
  dict_keys
    (default []
       (ExportManager.extract_current_pdf (λ _ _, "text") (Some "a.pdf") three_regions).2)
  = ["B"; "C"; "A"].
Proof.
  pose proof (extract_current_pdf_follows_order (λ _ _, "text") (Some "a.pdf")
                three_regions (reachable_inv _ three_regions_reachable)) as H.
  destruct (ExportManager.extract_current_pdf _ _ _) as [[[|] message] [data|]].
  - destruct H as (_ & _ & H & _). exact H.
  - destruct H.
  - destruct H.
  - destruct H as [[H _]|(_ & H & _)]; vm_compute in H; discriminate H.
Defined.
